(** * LLM-firewall gateway: a shallow embedding of the admission core

    The gateway is a Fastify (Node.js) service.  This development embeds
    the parts of it that decide admission and auditing:

    - the SHA-256 fingerprinting helper of the audit logger,
    - the Redis-backed three-tier rate limiter and its Fastify hook,
    - the analyzer gRPC client with its retry loop,
    - the chat-completion route, the readiness route,
    - the audit logger, the PostgreSQL insert and the statistics routine,
    - the status reader of the rate limiter, the audit queue with its
      drain and flush, the audit-log listing and the erasure routine.

    Calls to the logger and to the metrics collectors change neither a
    reply nor the stores nor the audit trail and are left out.

    JavaScript strings are modelled by [string]; for ASCII text the
    UTF-16 code units that [substring] counts and the UTF-8 bytes that
    the hash consumes coincide.  JavaScript objects that are used as
    property bags are finite maps ([gmap string _]). *)

From Stdlib Require Import ZArith QArith Qround Lia List Ascii String.
From stdpp Require Import base option list strings pretty gmap sorting.

Local Open Scope string_scope.
Local Open Scope list_scope.
Local Open Scope Z_scope.

(** ** JavaScript values and the operators the sources rely on *)

Module JS.

(** The values that reach the audit path.  Numbers are rationals plus
    [NaN]; nested objects are association lists. *)
#[local] Set Warnings "-register-all".
Inductive value : Type :=
| Undefined
| Null
| Bool (b : bool)
| Num (q : Q)
| NaN
| Str (s : string)
| Obj (props : list (string * value)).

(** ToBoolean: [undefined], [null], [false], [0], [NaN] and [""] are
    falsy, every other value is truthy. *)
Definition truthy (v : value) : bool :=
  match v with
  | Undefined | Null | NaN => false
  | Bool b => b
  | Num q => negb (Qnum q =? 0)%Z
  | Str s => negb (String.eqb s "")
  | Obj _ => true
  end.

(** [a || b] *)
Definition or (a b : value) : value := if truthy a then a else b.

(** [o.k] on a property bag: a missing property reads as [undefined]. *)
Definition get (o : gmap string value) (k : string) : value :=
  default Undefined (o !! k).

(** [{ ...a, ...b }]: properties of [b] win. *)
Definition spread (a b : gmap string value) : gmap string value := b ∪ a.

(** The own properties spread by [...v]; only objects contribute in the
    sources ([metadata] is always an object or absent). *)
Definition props_of (v : value) : gmap string value :=
  match v with
  | Obj kvs => list_to_map kvs
  | _ => ∅
  end.

(** [s.substring(0, n)] *)
Definition substring0 (n : nat) (s : string) : string := String.substring 0 n s.

(** [s.substring(n)] *)
Fixpoint substring_from (n : nat) (s : string) : string :=
  match n, s with
  | O, _ => s
  | S n', String _ s' => substring_from n' s'
  | S _, EmptyString => EmptyString
  end.

(** [s.startsWith(p)] *)
Definition startsWith (p s : string) : bool := String.prefix p s.

(** [hay.includes(needle)] *)
Fixpoint includes (needle hay : string) : bool :=
  String.prefix needle hay ||
  match hay with
  | EmptyString => false
  | String _ hay' => includes needle hay'
  end.

End JS.

(** ** SHA-256 (FIPS 180-4), as computed by [createHash('sha256')] *)

Module Sha256.

Definition mask32 : Z := 0xFFFFFFFF.
Definition wrap (x : Z) : Z := Z.land x mask32.
Definition add32 (x y : Z) : Z := wrap (x + y).
Definition rotr (n x : Z) : Z := Z.lor (Z.shiftr x n) (wrap (Z.shiftl x (32 - n))).
Definition xor3 (a b c : Z) : Z := Z.lxor (Z.lxor a b) c.

Definition Ch (x y z : Z) : Z :=
  Z.lxor (Z.land x y) (Z.land (Z.lxor x mask32) z).
Definition Maj (x y z : Z) : Z :=
  xor3 (Z.land x y) (Z.land x z) (Z.land y z).
Definition Sigma0 (x : Z) : Z := xor3 (rotr 2 x) (rotr 13 x) (rotr 22 x).
Definition Sigma1 (x : Z) : Z := xor3 (rotr 6 x) (rotr 11 x) (rotr 25 x).
Definition sigma0 (x : Z) : Z := xor3 (rotr 7 x) (rotr 18 x) (Z.shiftr x 3).
Definition sigma1 (x : Z) : Z := xor3 (rotr 17 x) (rotr 19 x) (Z.shiftr x 10).

Definition K : list Z := [
  0x428A2F98; 0x71374491; 0xB5C0FBCF; 0xE9B5DBA5;
  0x3956C25B; 0x59F111F1; 0x923F82A4; 0xAB1C5ED5;
  0xD807AA98; 0x12835B01; 0x243185BE; 0x550C7DC3;
  0x72BE5D74; 0x80DEB1FE; 0x9BDC06A7; 0xC19BF174;
  0xE49B69C1; 0xEFBE4786; 0x0FC19DC6; 0x240CA1CC;
  0x2DE92C6F; 0x4A7484AA; 0x5CB0A9DC; 0x76F988DA;
  0x983E5152; 0xA831C66D; 0xB00327C8; 0xBF597FC7;
  0xC6E00BF3; 0xD5A79147; 0x06CA6351; 0x14292967;
  0x27B70A85; 0x2E1B2138; 0x4D2C6DFC; 0x53380D13;
  0x650A7354; 0x766A0ABB; 0x81C2C92E; 0x92722C85;
  0xA2BFE8A1; 0xA81A664B; 0xC24B8B70; 0xC76C51A3;
  0xD192E819; 0xD6990624; 0xF40E3585; 0x106AA070;
  0x19A4C116; 0x1E376C08; 0x2748774C; 0x34B0BCB5;
  0x391C0CB3; 0x4ED8AA4A; 0x5B9CCA4F; 0x682E6FF3;
  0x748F82EE; 0x78A5636F; 0x84C87814; 0x8CC70208;
  0x90BEFFFA; 0xA4506CEB; 0xBEF9A3F7; 0xC67178F2 ].

(** The eight working words. *)
Record state : Type := mkState {
  h0 : Z; h1 : Z; h2 : Z; h3 : Z; h4 : Z; h5 : Z; h6 : Z; h7 : Z }.

Definition init : state :=
  mkState 0x6A09E667 0xBB67AE85 0x3C6EF372 0xA54FF53A
          0x510E527F 0x9B05688C 0x1F83D9AB 0x5BE0CD19.

(** Message bytes, padding and big-endian words. *)
Definition bytes_of (s : string) : list Z :=
  map (fun c => Z.of_N (N_of_ascii c)) (list_ascii_of_string s).

Definition be_bytes (n : nat) (x : Z) : list Z :=
  map (fun i => Z.land (Z.shiftr x (8 * Z.of_nat i)) 0xFF) (rev (seq 0 n)).

Definition pad (msg : list Z) : list Z :=
  let len := Z.of_nat (length msg) in
  msg ++ [0x80] ++ repeat 0 (Z.to_nat ((55 - len) mod 64)) ++ be_bytes 8 (8 * len).

Definition word_of (b : list Z) : Z :=
  fold_left (fun acc x => Z.lor (Z.shiftl acc 8) x) b 0.

Fixpoint chunks {A} (fuel n : nat) (l : list A) : list (list A) :=
  match fuel, l with
  | O, _ | _, [] => []
  | S fuel', _ => take n l :: chunks fuel' n (drop n l)
  end.

Definition words_of (block : list Z) : list Z :=
  map word_of (chunks 16 4 block).

(** Message schedule: [w] holds W_0..W_{t-1}; extend it to 64 words. *)
Definition next_w (w : list Z) : Z :=
  let t := length w in
  add32 (add32 (sigma1 (nth (t - 2) w 0)) (nth (t - 7) w 0))
        (add32 (sigma0 (nth (t - 15) w 0)) (nth (t - 16) w 0)).

Fixpoint extend (n : nat) (w : list Z) : list Z :=
  match n with
  | O => w
  | S n' => extend n' (w ++ [next_w w])
  end.

Definition round (s : state) (kw : Z * Z) : state :=
  let t1 := add32 (add32 (add32 (h7 s) (Sigma1 (h4 s)))
                         (add32 (Ch (h4 s) (h5 s) (h6 s)) (fst kw))) (snd kw) in
  let t2 := add32 (Sigma0 (h0 s)) (Maj (h0 s) (h1 s) (h2 s)) in
  mkState (add32 t1 t2) (h0 s) (h1 s) (h2 s) (add32 (h3 s) t1) (h4 s) (h5 s) (h6 s).

Definition compress (s : state) (block : list Z) : state :=
  let w := extend 48 (words_of block) in
  let r := fold_left round (combine K w) s in
  mkState (add32 (h0 s) (h0 r)) (add32 (h1 s) (h1 r)) (add32 (h2 s) (h2 r))
          (add32 (h3 s) (h3 r)) (add32 (h4 s) (h4 r)) (add32 (h5 s) (h5 r))
          (add32 (h6 s) (h6 r)) (add32 (h7 s) (h7 r)).

Definition hash (msg : list Z) : state :=
  let p := pad msg in
  fold_left compress (chunks (length p) 64 p) init.

(** Lower-case hexadecimal rendering, [digest('hex')]. *)
Definition hex_table : list ascii :=
  list_ascii_of_string "0123456789abcdef".

Definition hex_digit (x : Z) : ascii :=
  nth (Z.to_nat (Z.land x 0xF)) hex_table "0"%char.

Definition hex_word (w : Z) (rest : string) : string :=
  String (hex_digit (Z.shiftr w 28)) (String (hex_digit (Z.shiftr w 24))
  (String (hex_digit (Z.shiftr w 20)) (String (hex_digit (Z.shiftr w 16))
  (String (hex_digit (Z.shiftr w 12)) (String (hex_digit (Z.shiftr w 8))
  (String (hex_digit (Z.shiftr w 4)) (String (hex_digit w) rest))))))).

Definition hex_state (s : state) : string :=
  hex_word (h0 s) (hex_word (h1 s) (hex_word (h2 s) (hex_word (h3 s)
  (hex_word (h4 s) (hex_word (h5 s) (hex_word (h6 s) (hex_word (h7 s) ""))))))).

(** [createHash('sha256').update(data).digest('hex')] *)
Definition hexdigest (data : string) : string := hex_state (hash (bytes_of data)).

Definition is_hex_char (c : ascii) : bool :=
  existsb (Ascii.eqb c) hex_table.

Definition is_hex (s : string) : bool :=
  forallb is_hex_char (list_ascii_of_string s).

End Sha256.

(** ** Thrown errors *)

Module Err.

(** A JavaScript [Error] with the properties the gateway inspects:
    [name], [message], the gRPC status [code], the HTTP [statusCode]
    carried by the error classes of the error-handler plugin, and
    [retryAfter]. *)
Record t : Type := mk {
  name : string;
  message : string;
  code : option Z;
  statusCode : option Z;
  retryAfter : option Z }.

Definition plain (msg : string) : t := mk "Error" msg None None None.
Definition typeError (msg : string) : t := mk "TypeError" msg None None None.

(** [grpc.status] *)
Definition INVALID_ARGUMENT : Z := 3.
Definition DEADLINE_EXCEEDED : Z := 4.
Definition UNAVAILABLE : Z := 14.

Definition grpc (c : Z) (msg : string) : t := mk "Error" msg (Some c) None None.

(** Error classes of the error-handler plugin. *)
Definition ValidationError (msg : string) : t :=
  mk "ValidationError" msg None (Some 400) None.
Definition ServiceUnavailableError (msg : string) : t :=
  mk "ServiceUnavailableError" msg None (Some 503) None.

End Err.

(** ** Configuration ([gatewayConfig]) *)

Module Config.

(** One tier of the rate limiter, [{ max, window }]. *)
Record limit : Type := mkLimit { max : Z; window : Z }.

Record t : Type := mk {
  rateLimiting : bool;        (* features.rateLimiting *)
  auditLogging : bool;        (* features.auditLogging *)
  auditAsync : bool;          (* auditLog.async *)
  globalLimit : limit;        (* rateLimit.global, rateLimit.globalWindow *)
  ipLimit : limit;            (* rateLimit.perIp, rateLimit.perIpWindow *)
  apiKeyLimit : limit;        (* rateLimit.perApiKey, rateLimit.perApiKeyWindow *)
  maxRetries : Z;             (* analyzer.maxRetries *)
  minContentLength : Z;       (* security.minContentLength *)
  maxContentLength : Z;       (* security.maxContentLength *)
  openaiModel : string;       (* llm.openai.model *)
  anthropicModel : string }.  (* llm.anthropic.model *)

(** The values [gatewayConfig] takes when the environment sets nothing. *)
Definition defaults : t := {|
  rateLimiting := true;
  auditLogging := true;
  auditAsync := true;
  globalLimit := mkLimit 10000 3600;
  ipLimit := mkLimit 100 3600;
  apiKeyLimit := mkLimit 1000 3600;
  maxRetries := 3;
  minContentLength := 1;
  maxContentLength := 10240;
  openaiModel := "gpt-4";
  anthropicModel := "claude-3-5-sonnet-20241022" |}.

End Config.

(** ** The audit table ([CREATE TABLE audit_logs]) *)

Module Sql.

(** One row of [audit_logs].  Nullable columns are options.  The column
    [retention_until] is filled by its default from the database clock
    and is read by no operation modelled here. *)
Record audit_log : Type := mkRow {
  id : Z;                               (* BIGSERIAL PRIMARY KEY *)
  request_id : string;                  (* VARCHAR(255) NOT NULL *)
  timestamp : Z;                        (* TIMESTAMPTZ NOT NULL, epoch ms *)
  method : string;                      (* VARCHAR(10) NOT NULL *)
  path : string;                        (* TEXT NOT NULL *)
  client_ip_hash : string;              (* VARCHAR(64) NOT NULL *)
  user_agent_hash : option string;      (* VARCHAR(64) *)
  api_key_hash : option string;         (* VARCHAR(64) *)
  request_size_bytes : option Z;        (* INTEGER *)
  response_status : Z;                  (* INTEGER NOT NULL *)
  response_size_bytes : option Z;       (* INTEGER *)
  response_time_ms : Z;                 (* INTEGER NOT NULL *)
  is_blocked : bool;                    (* BOOLEAN NOT NULL *)
  block_reason : option string;         (* VARCHAR(50) *)
  detected_issues_count : option Z;     (* INTEGER *)
  security_confidence : option Q;       (* DECIMAL(3,2) *)
  llm_provider : option string;         (* VARCHAR(50) *)
  llm_model : option string;            (* VARCHAR(100) *)
  metadata : option (gmap string JS.value) }.   (* JSONB *)

End Sql.

(** ** The audit log entry built by the logger *)

Module Entry.

(** The object literal [logEntry] of [AuditLogger.log].  Fields computed
    with [||] from caller-supplied options keep their dynamic type. *)
Record t : Type := mk {
  request_id : string;
  timestamp : Z;
  method : string;
  path : string;
  client_ip_hash : option string;
  user_agent_hash : option string;
  api_key_hash : option string;
  request_size_bytes : JS.value;
  response_status : Z;
  response_size_bytes : option Z;
  response_time_ms : JS.value;
  is_blocked : JS.value;
  block_reason : JS.value;
  detected_issues_count : JS.value;
  security_confidence : JS.value;
  llm_provider : JS.value;
  llm_model : JS.value;
  metadata : gmap string JS.value }.

End Entry.

(** ** The world the gateway runs in, and its effects *)

Module World.

(** A Redis key holds a counter and, once [EXPIRE] was issued, a time to
    live.  Keys carry their window start, so a bucket of a past window
    is never addressed again; the countdown of the TTL is not modelled. *)
Record bucket : Type := mkBucket { count : Z; ttl : option Z }.

Record t : Type := mk {
  ticks : nat;                          (* clock reads so far *)
  redis_connected : bool;               (* RedisClient.isConnected() *)
  redis : gmap string bucket;           (* keyspace of the rate limiter *)
  pg_pool : bool;                       (* PostgresClient.pool !== null *)
  audit_logs : list Sql.audit_log;      (* the table, oldest first *)
  next_id : Z;                          (* BIGSERIAL sequence *)
  queue : list Entry.t;                 (* AuditLogger.queue *)
  processing : bool }.                  (* AuditLogger.processing *)

Definition initial : t := mk 0 true ∅ true [] 1 [] false.

(** One more clock read. *)
Definition tick (w : t) : t :=
  mk (S (ticks w)) (redis_connected w) (redis w) (pg_pool w) (audit_logs w)
     (next_id w) (queue w) (processing w).

(** Outcome of an [async] function: a value or a thrown error. *)
Inductive result (A : Type) : Type :=
| Ok (a : A)
| Throw (e : Err.t).
Arguments Ok {A} a.
Arguments Throw {A} e.

(** An effectful computation threads the world and may throw. *)
Definition M (A : Type) : Type := t → result A * t.

Definition ret {A} (a : A) : M A := fun w => (Ok a, w).
Definition throw {A} (e : Err.t) : M A := fun w => (Throw e, w).
Definition bind {A B} (m : M A) (k : A → M B) : M B :=
  fun w => match m w with
           | (Ok a, w') => k a w'
           | (Throw e, w') => (Throw e, w')
           end.

(** [try { m } catch (error) { h error }] *)
Definition try_catch {A} (m : M A) (h : Err.t → M A) : M A :=
  fun w => match m w with
           | (Ok a, w') => (Ok a, w')
           | (Throw e, w') => h e w'
           end.

#[global] Instance M_ret : MRet M := @ret.
#[global] Instance M_bind : MBind M := fun A B k m => bind m k.

End World.

Import World(M, Ok, Throw).

(** The wall clock: [clock n] is the epoch time in milliseconds returned
    by the [n]-th read ([Date.now()], [new Date()]). *)
Definition Clock : Type := nat → Z.

Definition Date_now (clock : Clock) : M Z :=
  fun w => (Ok (clock (World.ticks w)), World.tick w).

(** ** Redis client wrapper *)

Module RedisClient.

Definition not_connected : Err.t := Err.plain "Redis not connected".

Definition set_redis (r : gmap string World.bucket) (w : World.t) : World.t :=
  World.mk (World.ticks w) (World.redis_connected w) r
           (World.pg_pool w) (World.audit_logs w) (World.next_id w)
           (World.queue w) (World.processing w).

(** [INCR key]: a missing key counts from zero and has no expiry. *)
Definition incr_bucket (b : option World.bucket) : World.bucket :=
  match b with
  | Some b => World.mkBucket (World.count b + 1) (World.ttl b)
  | None => World.mkBucket 1 None
  end.

(** [TTL key] on an existing key: [-1] when it has no expiry. *)
Definition ttl_reply (b : World.bucket) : Z := default (-1) (World.ttl b).

(** [pipeline(pipe => { pipe.incr(key); pipe.ttl(key) })]: the replies
    of [INCR] and [TTL], in this order. *)
Definition pipeline_incr_ttl (key : string) : M (Z * Z) := fun w =>
  if World.redis_connected w then
    let b := incr_bucket (World.redis w !! key) in
    (Ok (World.count b, ttl_reply b), set_redis (<[key := b]> (World.redis w)) w)
  else (Throw not_connected, w).

(** [expire(key, seconds)]: 1 when the key exists, else 0. *)
Definition expire (key : string) (seconds : Z) : M Z := fun w =>
  if World.redis_connected w then
    match World.redis w !! key with
    | Some b =>
        (Ok 1, set_redis (<[key := World.mkBucket (World.count b) (Some seconds)]> (World.redis w)) w)
    | None => (Ok 0, w)
    end
  else (Throw not_connected, w).

(** [healthCheck()]: [PING] answers when the client is connected. *)
Definition healthCheck : M bool := fun w => (Ok (World.redis_connected w), w).

(** [get(key)]: the value as Redis prints it, [null] for a missing key. *)
Definition get (key : string) : M (option string) := fun w =>
  if World.redis_connected w then
    (Ok ((fun b => pretty (World.count b)) <$> World.redis w !! key), w)
  else (Throw not_connected, w).

End RedisClient.

(** ** Rate limiter *)

Module RateLimiter.

(** The record returned by [checkLimit] and [_checkBucket]; [type] is
    absent from the records built when the limiter is disabled or fails. *)
Record decision : Type := mk {
  allowed : bool;
  limit : option Z;
  remaining : option Z;
  reset : option Z;
  retryAfter : option Z;
  type : option string }.

Definition unlimited : decision := mk true None None None None None.

(** [`rate_limit:${type}:${identifier}:${windowStart}`] *)
Definition bucket_key (type identifier : string) (windowStart : Z) : string :=
  "rate_limit:" +:+ type +:+ ":" +:+ identifier +:+ ":" +:+ pretty windowStart.

(** [now - (now % limit.window)]; [%] truncates towards zero. *)
Definition windowStart (now window : Z) : Z := now - Z.rem now window.

Section limiter.
Variable cfg : Config.t.
Variable clock : Clock.

Definition _checkBucket (type identifier : string) (lim : Config.limit) : M decision :=
  now_ms ← Date_now clock;
  let now := now_ms / 1000 in
  let ws := windowStart now (Config.window lim) in
  let key := bucket_key type identifier ws in
  results ← RedisClient.pipeline_incr_ttl key;
  let currentCount := fst results in
  let ttl := snd results in
  _ ← (if ttl =? -1 then RedisClient.expire key (Config.window lim) else mret 0);
  let allowed := currentCount <=? Config.max lim in
  let remaining := Z.max 0 (Config.max lim - currentCount) in
  let reset := ws + Config.window lim in
  let retryAfter := if allowed then None else Some (reset - now) in
  mret (mk allowed (Some (Config.max lim)) (Some remaining) (Some reset) retryAfter (Some type)).

(** [if (apiKey)]: a key is presented when it is a non-empty string. *)
Definition presented (apiKey : option string) : option string :=
  match apiKey with
  | Some k => if String.eqb k "" then None else Some k
  | None => None
  end.

Definition checkLimit (ip : string) (apiKey : option string) : M decision :=
  if negb (Config.rateLimiting cfg) then mret unlimited
  else
    World.try_catch
      (globalCheck ← _checkBucket "global" "all" (Config.globalLimit cfg);
       if negb (allowed globalCheck) then mret globalCheck
       else
         ipCheck ← _checkBucket "ip" ip (Config.ipLimit cfg);
         if negb (allowed ipCheck) then mret ipCheck
         else
           match presented apiKey with
           | Some k => _checkBucket "apikey" k (Config.apiKeyLimit cfg)
           | None => mret ipCheck
           end)
      (fun _ => mret unlimited).

End limiter.

End RateLimiter.

(** ** Analyzer gRPC client *)

Module AnalyzerClient.

(** [DetectedIssue]; the loader is configured with [enums: String], so
    [type] arrives as the name of the enumeration value. *)
Record issue : Type := mkIssue {
  type : string;
  text : string;
  start : Z;
  end_ : Z;
  confidence : Q;
  replacement : string }.

(** [CheckContentResponse] *)
Record response : Type := mkResponse {
  is_safe : bool;
  redacted_text : option string;
  detected_issues : list issue;
  confidence_score : Q;
  request_id : string }.

(** What one [_makeRequest('CheckContent', request)] settles with. *)
Inductive outcome : Type :=
| Resolve (r : response)
| Reject (e : Err.t).

(** What [checkContent] settles with; the loop can end by throwing
    [lastError] while it is still [null]. *)
Inductive settled : Type :=
| Returned (r : response)
| Thrown (lastError : option Err.t).

(** Observable steps of the retry loop. *)
Inductive event : Type :=
| Request (attempt : nat)       (* _makeRequest issued in iteration [attempt] *)
| Sleep (ms : Z)                (* this._sleep(ms) *)
| Reconnect.                    (* this.client = null; this.connect() *)

Definition is_code (c : Z) (e : Err.t) : bool :=
  match Err.code e with
  | Some c' => c' =? c
  | None => false
  end.

Definition lost_connection (e : Err.t) : bool :=
  is_code Err.UNAVAILABLE e || is_code Err.DEADLINE_EXCEEDED e.

Section retry.
Variable maxRetries : Z.
(** [analyzer k] is what the request issued in iteration [k] settles with. *)
Variable analyzer : nat → outcome.

(** [Math.pow(2, attempt) * 1000] *)
Definition delay (attempt : nat) : Z := 2 ^ Z.of_nat attempt * 1000.

(** The body of the [catch] block after the invalid-argument test. *)
Definition backoff (attempt : nat) (e : Err.t) : list event :=
  if Z.of_nat attempt <? maxRetries then
    Sleep (delay attempt) :: (if lost_connection e then [Reconnect] else [])
  else [].

(** [for (let attempt = 0; attempt <= maxRetries; attempt++)], with
    [fuel] iterations left. *)
Fixpoint retry_loop (fuel attempt : nat) (lastError : option Err.t)
  : settled * list event :=
  match fuel with
  | O => (Thrown lastError, [])
  | S fuel' =>
      match analyzer attempt with
      | Resolve r => (Returned r, [Request attempt])
      | Reject e =>
          if is_code Err.INVALID_ARGUMENT e then (Thrown (Some e), [Request attempt])
          else
            let rest := retry_loop fuel' (S attempt) (Some e) in
            (fst rest, Request attempt :: backoff attempt e ++ snd rest)
      end
  end.

Definition checkContent : settled * list event :=
  retry_loop (Z.to_nat (maxRetries + 1)) 0 None.

End retry.

(** [HealthCheckResponse.ServingStatus] *)
Inductive ServingStatus : Type := UNKNOWN | SERVING | NOT_SERVING | SERVICE_UNKNOWN.

Definition status_name (s : ServingStatus) : string :=
  match s with
  | UNKNOWN => "UNKNOWN"
  | SERVING => "SERVING"
  | NOT_SERVING => "NOT_SERVING"
  | SERVICE_UNKNOWN => "SERVICE_UNKNOWN"
  end.

(** The [status] property of a decoded health response: the client
    loads the protocol file with [enums: String]. *)
Definition decode_status (s : ServingStatus) : JS.value := JS.Str (status_name s).

End AnalyzerClient.

(** ** Fastify request and reply *)

Module Http.

(** A chat message and the validated body of a chat-completion request. *)
Record message : Type := mkMessage { role : string; content : string }.

Record chat_body : Type := mkBody {
  messages : list message;
  model : option string }.

Record request : Type := mkRequest {
  id : string;                                  (* request.id *)
  method : string;
  url : string;
  ip : string;
  headers : gmap string string;                 (* lower-cased names *)
  body : option chat_body;
  routeUrl : option string;                     (* request.routeOptions?.url *)
  startTime : option Z;                         (* set by the timing hook *)
  auditContext : option (gmap string JS.value) }. (* set by the audit plugin *)

(** Header values are numbers or strings. *)
Inductive header_value : Type :=
| HNum (n : Z)
| HStr (s : string).

(** Issue as rendered in the 403 body. *)
Record issue_view : Type := mkIssueView {
  iv_type : string;
  iv_text : string;
  iv_start : Z;
  iv_end : Z;
  iv_confidence : Q }.

(** The [details] member of an error body. *)
Inductive details : Type :=
| NoDetails
| RateLimitDetails (limit reset retryAfter : option Z)
| ContentDetails (is_safe : bool) (detected_issues : list issue_view)
                 (confidence_score : Q) (redacted_preview : option string)
| SecurityCheckDetails (is_safe : bool) (confidence_score : Q)
                       (detected_issues_count : Z).

(** Bodies the gateway sends, as the hook or handler hands them to the
    reply; what the serializer of a response schema leaves out on the
    wire is not modelled. *)
Inductive payload : Type :=
| ErrorBody (type message requestId : string) (timestamp : Z) (d : details)
| ReadyBody (status : string) (analyzer redis postgres : bool) (timestamp : Z)
            (message : option string)
| ModelsBody (data : list (string * Z))
| OtherBody.

Record reply : Type := mkReply {
  statusCode : Z;
  rheaders : gmap string header_value;
  sent : bool;
  sent_body : option payload;
  payload_bytes : option Z }.   (* byte length of JSON.stringify(reply.payload), when reply.payload is set *)

Definition fresh_reply : reply := mkReply 200 ∅ false None None.

Definition header (k : string) (v : header_value) (r : reply) : reply :=
  mkReply (statusCode r) (<[k := v]> (rheaders r)) (sent r) (sent_body r) (payload_bytes r).

Definition status (c : Z) (r : reply) : reply :=
  mkReply c (rheaders r) (sent r) (sent_body r) (payload_bytes r).

Definition send (p : payload) (r : reply) : reply :=
  mkReply (statusCode r) (rheaders r) true (Some p) (payload_bytes r).

Definition with_id (i : string) (q : request) : request :=
  mkRequest i (method q) (url q) (ip q) (headers q) (body q) (routeUrl q)
            (startTime q) (auditContext q).

Definition with_startTime (t : Z) (q : request) : request :=
  mkRequest (id q) (method q) (url q) (ip q) (headers q) (body q) (routeUrl q)
            (Some t) (auditContext q).

Definition with_auditContext (c : gmap string JS.value) (q : request) : request :=
  mkRequest (id q) (method q) (url q) (ip q) (headers q) (body q) (routeUrl q)
            (startTime q) (Some c).

(** A header that is present and non-empty ([if (h)]). *)
Definition truthy_header (q : request) (k : string) : option string :=
  match headers q !! k with
  | Some v => if String.eqb v "" then None else Some v
  | None => None
  end.

(** [extractApiKey(request)] of the rate-limit plugin: a bearer token,
    else the [X-API-Key] header. *)
Definition extractApiKey (q : request) : option string :=
  match truthy_header q "authorization" with
  | Some a =>
      if JS.startsWith "Bearer " a then Some (JS.substring_from 7 a)
      else truthy_header q "x-api-key"
  | None => truthy_header q "x-api-key"
  end.

(** A request that Fastify answers before the handler runs, because
    its payload yields no body for the route: the payload is larger than
    [bodyLimit] (413), no parser is registered for its content type
    (415), or it is empty, is not JSON or fails the schema of the route
    (400).  The error carries the status; its [name] and [message] are
    those of the error Fastify raises.  The [validation] list that the
    error handler copies from a schema failure into the body is left
    out. *)
Inductive rejection_kind : Type :=
| PayloadTooLarge
| UnsupportedMediaType
| BadRequest.

Record rejection : Type := mkRejection {
  kind : rejection_kind;
  error_name : string;
  error_message : string }.

Definition rejection_status (k : rejection_kind) : Z :=
  match k with
  | PayloadTooLarge => 413
  | UnsupportedMediaType => 415
  | BadRequest => 400
  end.

Definition rejection_error (why : rejection) : Err.t :=
  Err.mk (error_name why) (error_message why) None
         (Some (rejection_status (kind why))) None.

End Http.

(** ** PostgreSQL client *)

Module PgClient.

(** The eighteen parameters of the [INSERT], after the [||] defaults of
    [insertAuditLog]. *)
Record params : Type := mkParams {
  p_request_id : string;
  p_timestamp : Z;
  p_method : string;
  p_path : string;
  p_client_ip_hash : option string;
  p_user_agent_hash : option string;
  p_api_key_hash : option string;
  p_request_size_bytes : JS.value;
  p_response_status : Z;
  p_response_size_bytes : option Z;
  p_response_time_ms : JS.value;
  p_is_blocked : JS.value;
  p_block_reason : JS.value;
  p_detected_issues_count : JS.value;
  p_security_confidence : JS.value;
  p_llm_provider : JS.value;
  p_llm_model : JS.value;
  p_metadata : option (gmap string JS.value) }.

(** [h || null] on a string or [null] *)
Definition str_or_null (o : option string) : option string :=
  match o with
  | Some s => if String.eqb s "" then None else Some s
  | None => None
  end.

(** [n || null] on a number or [null] *)
Definition num_or_null (o : option Z) : option Z :=
  match o with
  | Some n => if n =? 0 then None else Some n
  | None => None
  end.

(** [JSON.stringify]: [undefined] members are left out and [NaN]
    becomes [null]. *)
Fixpoint jsonify (v : JS.value) : option JS.value :=
  match v with
  | JS.Undefined => None
  | JS.NaN => Some JS.Null
  | JS.Obj kvs =>
      Some (JS.Obj ((fix members (l : list (string * JS.value)) :=
                       match l with
                       | [] => []
                       | (k, x) :: l' =>
                           match jsonify x with
                           | Some y => (k, y) :: members l'
                           | None => members l'
                           end
                       end) kvs))
  | _ => Some v
  end.

Definition stringify (m : gmap string JS.value) : gmap string JS.value :=
  omap jsonify m.

Definition insert_params (e : Entry.t) : params := {|
  p_request_id := Entry.request_id e;
  p_timestamp := Entry.timestamp e;
  p_method := Entry.method e;
  p_path := Entry.path e;
  p_client_ip_hash := Entry.client_ip_hash e;
  p_user_agent_hash := str_or_null (Entry.user_agent_hash e);
  p_api_key_hash := str_or_null (Entry.api_key_hash e);
  p_request_size_bytes := JS.or (Entry.request_size_bytes e) JS.Null;
  p_response_status := Entry.response_status e;
  p_response_size_bytes := num_or_null (Entry.response_size_bytes e);
  p_response_time_ms := Entry.response_time_ms e;
  p_is_blocked := JS.or (Entry.is_blocked e) (JS.Bool false);
  p_block_reason := JS.or (Entry.block_reason e) JS.Null;
  p_detected_issues_count := JS.or (Entry.detected_issues_count e) (JS.Num 0);
  p_security_confidence := JS.or (Entry.security_confidence e) JS.Null;
  p_llm_provider := JS.or (Entry.llm_provider e) JS.Null;
  p_llm_model := JS.or (Entry.llm_model e) JS.Null;
  p_metadata := Some (stringify (Entry.metadata e)) |}.

(** *** Column types of [audit_logs]

    A parameter is stored when it has the type of its column and meets
    the constraints of the table; [None] is a rejected statement.
    Parameters the driver would have to convert to another type are
    outside this model and count as rejected. *)

Definition varchar (n : nat) (s : string) : option string :=
  if (String.length s <=? n)%nat then Some s else None.

(** A nullable [VARCHAR(n)] column. *)
Definition col_varchar (n : nat) (v : JS.value) : option (option string) :=
  match v with
  | JS.Null | JS.Undefined => Some None
  | JS.Str s => Some <$> varchar n s
  | _ => None
  end.

(** A nullable [VARCHAR(n)] column fed with a string or [null]. *)
Definition opt_varchar (n : nat) (o : option string) : option (option string) :=
  match o with
  | Some s => Some <$> varchar n s
  | None => Some None
  end.

Definition int4 (z : Z) : option Z :=
  if (-2147483648 <=? z) && (z <=? 2147483647) then Some z else None.

Definition integral (q : Q) : option Z :=
  if (Zpos (Qden q) =? 1) || (Qnum q mod Zpos (Qden q) =? 0)
  then Some (Qnum q / Zpos (Qden q)) else None.

(** A nullable [INTEGER] column. *)
Definition col_int (v : JS.value) : option (option Z) :=
  match v with
  | JS.Null | JS.Undefined => Some None
  | JS.Num q => Some <$> (integral q ≫= int4)
  | _ => None
  end.

(** Rounding to two decimal places, ties away from zero. *)
Definition round2 (q : Q) : Q :=
  let half_up (x : Q) : Q := Qmake (Qfloor (x * 100 + (1 # 2))%Q) 100 in
  if Qle_bool 0 q then half_up q else Qopp (half_up (Qopp q)).

(** [DECIMAL(3,2)] rounds to two places; [valid_confidence] then
    requires a value in [0, 1]. *)

Definition col_confidence (v : JS.value) : option (option Q) :=
  match v with
  | JS.Null | JS.Undefined => Some None
  | JS.Num q =>
      let r := round2 q in
      if Qle_bool 0 r && Qle_bool r 1 then Some (Some r) else None
  | _ => None
  end.

Definition col_bool (v : JS.value) : option bool :=
  match v with
  | JS.Bool b => Some b
  | _ => None
  end.

(** [valid_status] *)
Definition col_status (z : Z) : option Z :=
  if (100 <=? z) && (z <? 600) then int4 z else None.

(** The row an accepted [INSERT] stores under the identifier [i]. *)
Definition store (i : Z) (p : params) : option Sql.audit_log :=
  rid ← varchar 255 (p_request_id p);
  meth ← varchar 10 (p_method p);
  ip ← p_client_ip_hash p ≫= varchar 64;
  ua ← opt_varchar 64 (p_user_agent_hash p);
  key ← opt_varchar 64 (p_api_key_hash p);
  reqsz ← col_int (p_request_size_bytes p);
  st ← col_status (p_response_status p);
  respsz ← from_option (fun n => Some <$> int4 n) (Some None) (p_response_size_bytes p);
  ms ← col_int (p_response_time_ms p) ≫= id;
  blocked ← col_bool (p_is_blocked p);
  reason ← col_varchar 50 (p_block_reason p);
  cnt ← col_int (p_detected_issues_count p);
  conf ← col_confidence (p_security_confidence p);
  prov ← col_varchar 50 (p_llm_provider p);
  mdl ← col_varchar 100 (p_llm_model p);
  Some (Sql.mkRow i rid (p_timestamp p) meth (p_path p) ip ua key reqsz st respsz ms
                  blocked reason cnt conf prov mdl (p_metadata p)).

Definition set_table (rows : list Sql.audit_log) (n : Z) (w : World.t) : World.t :=
  World.mk (World.ticks w) (World.redis_connected w) (World.redis w)
           (World.pg_pool w) rows n (World.queue w) (World.processing w).

(** [insertAuditLog(logEntry)]: resolves with the identifier of the new
    row, rejects when the pool is missing or the statement is refused. *)
Definition insertAuditLog (e : Entry.t) : M Z := fun w =>
  if World.pg_pool w then
    match store (World.next_id w) (insert_params e) with
    | Some row =>
        (Ok (World.next_id w),
         set_table (World.audit_logs w ++ [row]) (World.next_id w + 1) w)
    | None => (Throw (Err.plain "statement rejected"), w)
    end
  else (Throw (Err.plain "PostgreSQL pool not initialized"), w).

(** [healthCheck()]: [SELECT 1] answers when the pool exists. *)
Definition healthCheck : M bool := fun w => (Ok (World.pg_pool w), w).

(** *** Reading and erasing *)

(** The [filters] object of [queryAuditLogs].  [None] is a property
    that is [null] or left out; for [is_blocked], [limit] and [offset]
    it is the property left out ([undefined]), which is what the admin
    route passes when the query string lacks them. *)
Record filters : Type := mkFilters {
  f_start_time : option Z;
  f_end_time : option Z;
  f_client_ip_hash : option string;
  f_is_blocked : option bool;
  f_response_status : option Z;
  f_limit : option Z;
  f_offset : option Z }.

(** The [WHERE] clause: one condition for every filter that passes its
    test, [if (x)] or, for [is_blocked], [!== undefined]. *)
Definition matches (f : filters) (r : Sql.audit_log) : bool :=
  from_option (fun t => t <=? Sql.timestamp r) true (f_start_time f)
  && from_option (fun t => Sql.timestamp r <=? t) true (f_end_time f)
  && from_option (fun h => String.eqb (Sql.client_ip_hash r) h) true
       (str_or_null (f_client_ip_hash f))
  && from_option (fun b => Bool.eqb (Sql.is_blocked r) b) true (f_is_blocked f)
  && from_option (fun s => Sql.response_status r =? s) true
       (num_or_null (f_response_status f)).

(** [ORDER BY timestamp DESC] *)
Definition newest_first (r1 r2 : Sql.audit_log) : Prop :=
  Sql.timestamp r2 ≤ Sql.timestamp r1.

#[global] Instance newest_first_dec (r1 r2 : Sql.audit_log) :
  Decision (newest_first r1 r2) := decide (Sql.timestamp r2 ≤ Sql.timestamp r1).

(** A row count the database takes for [LIMIT] or [OFFSET]. *)
Definition row_count (z : Z) : bool := (0 <=? z) && (z <=? 9223372036854775807).

(** The [SELECT] of [queryAuditLogs] on a table; [None] is a rejected
    statement.  Rows with equal timestamps come in an order of the
    database's choosing; the model takes the one of a merge sort. *)
Definition select_audit_logs (f : filters) (table : list Sql.audit_log)
  : option (list Sql.audit_log) :=
  let limit := default 100 (f_limit f) in
  let offset := default 0 (f_offset f) in
  if row_count limit && row_count offset
     && from_option (fun s => bool_decide (is_Some (int4 s))) true
          (num_or_null (f_response_status f))
  then Some (take (Z.to_nat limit)
               (drop (Z.to_nat offset)
                  (merge_sort newest_first
                     (filter (fun r => matches f r = true) table))))
  else None.

Definition queryAuditLogs (f : filters) : M (list Sql.audit_log) := fun w =>
  if World.pg_pool w then
    match select_audit_logs f (World.audit_logs w) with
    | Some rows => (Ok rows, w)
    | None => (Throw (Err.plain "statement rejected"), w)
    end
  else (Throw (Err.plain "PostgreSQL pool not initialized"), w).

(** [delete_audit_logs_by_client(p_client_ip_hash)]: the number of rows
    deleted, and the table that is left. *)
Definition delete_audit_logs_by_client (p_client_ip_hash : string)
    (table : list Sql.audit_log) : Z * list Sql.audit_log :=
  (Z.of_nat (length (filter (fun r => Sql.client_ip_hash r = p_client_ip_hash) table)),
   filter (fun r => Sql.client_ip_hash r ≠ p_client_ip_hash) table).

(** [deleteClientAuditLogs(clientIpHash)] *)
Definition deleteClientAuditLogs (clientIpHash : string) : M Z := fun w =>
  if World.pg_pool w then
    let res := delete_audit_logs_by_client clientIpHash (World.audit_logs w) in
    (Ok (fst res), set_table (snd res) (World.next_id w) w)
  else (Throw (Err.plain "PostgreSQL pool not initialized"), w).

End PgClient.

(** ** Audit logger *)

Module AuditLogger.

(** [_hash(data)]: [null] for a missing or empty value, else the
    SHA-256 digest in hexadecimal.  [None] stands for [null] and
    [undefined]. *)
Definition _hash (data : option string) : option string :=
  match data with
  | None => None
  | Some s => if String.eqb s "" then None else Some (Sha256.hexdigest s)
  end.

(** [_extractApiKey(request)]: the same code as [extractApiKey] of the
    rate-limit plugin. *)
Definition _extractApiKey (q : Http.request) : option string := Http.extractApiKey q.

(** [parseInt(s, 10)]: optional blanks and sign, then decimal digits;
    [NaN] when no digit follows. *)
Definition digit_of (c : ascii) : option Z :=
  let n := Z.of_N (N_of_ascii c) in
  if (48 <=? n) && (n <=? 57) then Some (n - 48) else None.

Fixpoint digits (acc : option Z) (s : string) : option Z :=
  match s with
  | EmptyString => acc
  | String c s' =>
      match digit_of c with
      | Some d => digits (Some (10 * default 0 acc + d)) s'
      | None => acc
      end
  end.

(** The white space and line terminators that [parseInt] skips (the
    StrWhiteSpaceChar of ECMAScript), by the bytes of their UTF-8
    encoding: TAB, LF, VT, FF, CR and SP; *)
Definition blank1 (c : ascii) : bool :=
  let n := N_of_ascii c in
  ((9 <=? n) && (n <=? 13) || (n =? 32))%N.

(** U+00A0; *)
Definition blank2 (c1 c2 : ascii) : bool :=
  ((N_of_ascii c1 =? 194) && (N_of_ascii c2 =? 160))%N.

(** U+1680, U+2000 to U+200A, U+2028, U+2029, U+202F, U+205F, U+3000
    and U+FEFF. *)
Definition blank3 (c1 c2 c3 : ascii) : bool :=
  let n1 := N_of_ascii c1 in
  let n2 := N_of_ascii c2 in
  let n3 := N_of_ascii c3 in
  ((n1 =? 225) && (n2 =? 154) && (n3 =? 128)
   || (n1 =? 226) && (n2 =? 128)
      && ((128 <=? n3) && (n3 <=? 138) || (n3 =? 168) || (n3 =? 169) || (n3 =? 175))
   || (n1 =? 226) && (n2 =? 129) && (n3 =? 159)
   || (n1 =? 227) && (n2 =? 128) && (n3 =? 128)
   || (n1 =? 239) && (n2 =? 187) && (n3 =? 191))%N.

Fixpoint skip_blanks (s : string) : string :=
  match s with
  | String c1 s1 =>
      if blank1 c1 then skip_blanks s1
      else
        match s1 with
        | String c2 s2 =>
            if blank2 c1 c2 then skip_blanks s2
            else
              match s2 with
              | String c3 s3 => if blank3 c1 c2 c3 then skip_blanks s3 else s
              | EmptyString => s
              end
        | EmptyString => s
        end
  | EmptyString => s
  end.

(** [parseInt(s, 10)]: leading white space, a sign, then the longest
    run of decimal digits; [NaN] when there is none.  The value is the
    exact integer: JavaScript rounds an integer beyond 2^53 to the
    nearest double, which the numbers of [JS.value] do not express. *)
Definition parseInt10 (s : string) : JS.value :=
  let of_digits (sign : Z) (t : string) :=
    match digits None t with
    | Some n => JS.Num (inject_Z (sign * n))
    | None => JS.NaN
    end in
  match skip_blanks s with
  | String "-" t => of_digits (-1) t
  | String "+" t => of_digits 1 t
  | t => of_digits 1 t
  end.

(** [Date.now() - request.startTime]; [NaN] when the timing hook did
    not run. *)
Definition elapsed (now : Z) (startTime : option Z) : JS.value :=
  match startTime with
  | Some t => JS.Num (inject_Z (now - t))
  | None => JS.NaN
  end.

Definition str_or_undefined (o : option string) : JS.value :=
  match o with
  | Some s => JS.Str s
  | None => JS.Undefined
  end.

(** The [metadata] literal: two fixed properties, then the spread of
    [options.metadata]. *)
Definition build_metadata (q : Http.request) (options : gmap string JS.value)
  : gmap string JS.value :=
  JS.spread
    {[ "user_agent_truncated" :=
         JS.Str (JS.substring0 100 (default "" (Http.truthy_header q "user-agent")));
       "request_path" :=
         JS.Str (default (Http.url q)
                   (match Http.routeUrl q with
                    | Some u => if String.eqb u "" then None else Some u
                    | None => None
                    end)) ]}
    (JS.props_of (JS.get options "metadata")).

(** The object literal [logEntry], given the two clock readings. *)
Definition build_entry (q : Http.request) (r : Http.reply)
    (options : gmap string JS.value) (date now : Z) : Entry.t :=
  let apiKey := _extractApiKey q in
  {| Entry.request_id := Http.id q;
     Entry.timestamp := date;
     Entry.method := Http.method q;
     Entry.path := Http.url q;
     Entry.client_ip_hash := _hash (Some (Http.ip q));
     Entry.user_agent_hash :=
       _hash (Some (default "" (Http.truthy_header q "user-agent")));
     Entry.api_key_hash :=
       match apiKey with
       | Some k => if String.eqb k "" then None else _hash (Some k)
       | None => None
       end;
     Entry.request_size_bytes :=
       match Http.truthy_header q "content-length" with
       | Some l => parseInt10 l
       | None => JS.Null
       end;
     Entry.response_status := Http.statusCode r;
     Entry.response_size_bytes := Http.payload_bytes r;
     Entry.response_time_ms := elapsed now (Http.startTime q);
     Entry.is_blocked := JS.or (JS.get options "is_blocked") (JS.Bool false);
     Entry.block_reason := JS.or (JS.get options "block_reason") JS.Null;
     Entry.detected_issues_count :=
       JS.or (JS.get options "detected_issues_count") (JS.Num 0);
     Entry.security_confidence :=
       JS.or (JS.get options "security_confidence") JS.Null;
     Entry.llm_provider := JS.or (JS.get options "llm_provider") JS.Null;
     Entry.llm_model :=
       JS.or (JS.or (JS.get options "llm_model")
                    (str_or_undefined (Http.body q ≫= Http.model)))
             JS.Null;
     Entry.metadata := build_metadata q options |}.

(** *** The queue and [log] *)

Definition maxQueueSize : nat := 1000.
Definition batchSize : nat := 10.

Definition set_queue (l : list Entry.t) (busy : bool) (w : World.t) : World.t :=
  World.mk (World.ticks w) (World.redis_connected w) (World.redis w)
           (World.pg_pool w) (World.audit_logs w) (World.next_id w) l busy.

(** [_queueLog(logEntry)]: a full queue drops the entry. *)
Definition _queueLog (e : Entry.t) : M unit := fun w =>
  if (maxQueueSize <=? length (World.queue w))%nat then (Ok tt, w)
  else (Ok tt, set_queue (World.queue w ++ [e]) (World.processing w) w).

(** One insert of the batch; a failure is logged and swallowed. *)
Definition insert_quietly (e : Entry.t) : M unit :=
  World.try_catch (_ ← PgClient.insertAuditLog e; mret tt) (fun _ => mret tt).

(** The inserts, one after the other in the order of the list. *)
Fixpoint insert_all (batch : list Entry.t) : M unit :=
  match batch with
  | [] => mret tt
  | e :: rest => _ ← insert_quietly e; insert_all rest
  end.

Section drain.
(** The inserts of a batch are started together ([Promise.all]) on the
    connections of the pool, which completes them in an order of its
    own: [served w batch] is that order, a rearrangement of [batch],
    given the world in which the batch is started. *)
Variable served : World.t → list Entry.t → list Entry.t.

(** [_processQueue()], one firing of the drain timer. *)
Definition _processQueue : M unit := fun w =>
  if World.processing w || (length (World.queue w) =? 0)%nat then (Ok tt, w)
  else
    let batch := take batchSize (World.queue w) in
    let w1 := set_queue (drop batchSize (World.queue w)) true w in
    let w2 := snd (insert_all (served w1 batch) w1) in
    (Ok tt, set_queue (World.queue w2) false w2).

End drain.

Section log.
Variable cfg : Config.t.
Variable clock : Clock.

(** [AuditLogger.log(request, reply, options)] *)
Definition log (q : Http.request) (r : Http.reply) (options : gmap string JS.value)
  : M unit :=
  if negb (Config.auditLogging cfg) then mret tt
  else
    World.try_catch
      (date ← Date_now clock;
       now ← Date_now clock;
       let e := build_entry q r options date now in
       if Config.auditAsync cfg then _queueLog e
       else (_ ← PgClient.insertAuditLog e; mret tt))
      (fun _ => mret tt).

End log.

Section flush.
Variable cfg : Config.t.
Variable served : World.t → list Entry.t → list Entry.t.



End flush.

End AuditLogger.

(** ** The statistics routine ([get_audit_stats]) *)

Module Stats.

(** The row the routine returns.  An aggregate over no rows is [NULL],
    except for counts. *)
Record t : Type := mk {
  total_requests : Z;
  blocked_requests : option Z;
  block_rate : option Q;
  avg_response_time_ms : option Q;
  unique_clients : Z;
  requests_by_status : option (gmap string Z) }.

(** [WHERE timestamp >= p_start_time AND timestamp <= p_end_time] *)
Definition in_range (p_start p_end : Z) (r : Sql.audit_log) : bool :=
  (p_start <=? Sql.timestamp r) && (Sql.timestamp r <=? p_end).

Definition count_status (rows : list Sql.audit_log) (s : Z) : Z :=
  Z.of_nat (length (filter (fun r => Sql.response_status r = s) rows)).

(** [SELECT response_status, COUNT( * ) ... GROUP BY response_status] *)
Definition status_counts (rows : list Sql.audit_log) : list (Z * Z) :=
  map (fun s => (s, count_status rows s))
      (remove_dups (map Sql.response_status rows)).

Definition sum (l : list Z) : Z := fold_right Z.add 0 l.

Definition blocked_flag (r : Sql.audit_log) : Z := if Sql.is_blocked r then 1 else 0.

(** Rounding of a cast to [DECIMAL(_, 2)]. *)
Definition decimal2 (q : Q) : Q := PgClient.round2 q.

(** *** The names of the query

    The outer [SELECT] reads from two items, the subquery under its
    alias [status_counts] and the table [audit_logs].  PostgreSQL
    resolves a column written without its relation against every item
    of the [FROM] list, and refuses the statement when more than one of
    them has a column of that name. *)

(** The columns of [audit_logs], as [CREATE TABLE] declares them. *)
Definition audit_logs_columns : list string :=
  ["id"; "request_id"; "timestamp"; "method"; "path"; "client_ip_hash";
   "user_agent_hash"; "api_key_hash"; "request_size_bytes"; "response_status";
   "response_size_bytes"; "response_time_ms"; "is_blocked"; "block_reason";
   "detected_issues_count"; "security_confidence"; "llm_provider"; "llm_model";
   "metadata"; "retention_until"].

(** The output columns of the subquery. *)
Definition status_counts_columns : list string := ["response_status"; "status_count"].

Definition from_items : list (string * list string) :=
  [("status_counts", status_counts_columns); ("audit_logs", audit_logs_columns)].

Inductive column_ref : Type :=
| Bare (column : string)                 (* [is_blocked] *)
| Dotted (relation column : string).     (* [audit_logs.timestamp] *)

(** The column references of the outer query, select list first, then
    [WHERE].  [p_start_time] and [p_end_time] are parameters of the
    routine, not columns. *)
Definition column_refs : list column_ref :=
  [Bare "is_blocked"; Bare "is_blocked"; Bare "response_time_ms";
   Bare "client_ip_hash"; Bare "response_status"; Bare "status_count";
   Dotted "audit_logs" "timestamp"; Dotted "audit_logs" "timestamp"].

Inductive resolution : Type :=
| Resolved (relation : string)
| Ambiguous
| Unknown.

Definition has_column (c : string) (item : string * list string) : bool :=
  existsb (String.eqb c) (snd item).

Definition resolve (r : column_ref) : resolution :=
  match r with
  | Bare c =>
      match List.filter (has_column c) from_items with
      | [] => Unknown
      | [item] => Resolved (fst item)
      | _ => Ambiguous
      end
  | Dotted rel c =>
      if existsb (fun item => String.eqb rel (fst item) && has_column c item) from_items
      then Resolved rel else Unknown
  end.

(** The first reference that does not resolve, if any. *)
Definition unresolved : option column_ref :=
  List.find (fun r => match resolve r with Resolved _ => false | _ => true end)
            column_refs.

(** What the query computes once its names are resolved: the aggregates
    range over the cross join of the status counts with the rows in
    range, and [response_status] in [jsonb_object_agg] stands next to
    the count of the status counts. *)
Definition aggregates (p_start p_end : Z) (table : list Sql.audit_log) : t :=
  let scoped := filter (fun r => in_range p_start p_end r = true) table in
  let joined := list_prod (status_counts scoped) scoped in
  let n := Z.of_nat (length joined) in
  let blocked := sum (map (fun j => blocked_flag (snd j)) joined) in
  let some_rows {A} (x : A) : option A := if n =? 0 then None else Some x in
  {| total_requests := n;
     blocked_requests := some_rows blocked;
     block_rate := some_rows (decimal2 (inject_Z blocked / inject_Z n * 100)%Q);
     avg_response_time_ms :=
       some_rows (decimal2 (inject_Z (sum (map (fun j => Sql.response_time_ms (snd j)) joined))
                            / inject_Z n)%Q);
     unique_clients :=
       Z.of_nat (length (remove_dups (map (fun j => Sql.client_ip_hash (snd j)) joined)));
     requests_by_status :=
       some_rows (list_to_map (rev (map (fun j => (pretty (fst (fst j)), snd (fst j))) joined))) |}.

(** [get_audit_stats(p_start_time, p_end_time)].  The body of a
    [plpgsql] routine is analysed when the routine runs: a call is
    refused when a name of the query does not resolve, and returns the
    row of aggregates otherwise. *)
Definition get_audit_stats (p_start p_end : Z) (table : list Sql.audit_log)
  : option t :=
  match unresolved with
  | Some _ => None
  | None => Some (aggregates p_start p_end table)
  end.

(** [PostgresClient.getAuditStats(startTime, endTime)]: a missing start
    is 24 hours before now, a missing end is now; the error of a refused
    statement is logged and thrown again. *)
Definition getAuditStats (clock : Clock) (startTime endTime : option Z) : M t :=
  s ← from_option mret (now ← Date_now clock; mret (now - 24 * 60 * 60 * 1000)) startTime;
  e ← from_option mret (Date_now clock) endTime;
  ((fun w =>
      if World.pg_pool w then
        match get_audit_stats s e (World.audit_logs w) with
        | Some row => (Ok row, w)
        | None => (Throw (Err.plain "column reference is ambiguous"), w)
        end
      else (Throw (Err.plain "PostgreSQL pool not initialized"), w)) : M t).

End Stats.

(** ** The environment of the server *)

Module Env.

Record t : Type := mk {
  cfg : Config.t;
  clock : Clock;
  (** [randomUUID()], indexed by the clock reads made so far *)
  generator : nat → string;
  (** the analyzer's answer to the [k]-th attempt at checking a text *)
  analyzer : string → nat → AnalyzerClient.outcome;
  (** what [HealthCheck] settles with: the [status] of the response *)
  analyzer_health : World.result JS.value;
  (** how Fastify turns down a request whose payload yields no body for
      the route; the payload itself is not part of [Http.request] *)
  intake : Http.request → Http.rejection }.

End Env.

(** ** Plugins: hooks, decorators and the error handler *)

Module Plugins.

(** A hook or handler may change the request object and the reply. *)
Definition hook : Type := Http.request → Http.reply → M (Http.request * Http.reply).

Section plugins.
Variable env : Env.t.
Let cfg := Env.cfg env.
Let clock := Env.clock env.

(** request-id plugin, [onRequest] *)
Definition requestIdHook : hook := fun q r w =>
  let requestId :=
    default (Env.generator env (World.ticks w)) (Http.truthy_header q "x-request-id") in
  (Ok (Http.with_id requestId q, Http.header "x-request-id" (Http.HStr requestId) r), w).

(** [addRateLimitHeaders(reply, rateLimit)] *)
Definition addRateLimitHeaders (r : Http.reply) (d : RateLimiter.decision) : Http.reply :=
  let set (k : string) (v : option Z) (r : Http.reply) :=
    match v with
    | Some n => Http.header k (Http.HNum n) r
    | None => r
    end in
  set "X-RateLimit-Reset" (RateLimiter.reset d)
    (set "X-RateLimit-Remaining" (RateLimiter.remaining d)
       (set "X-RateLimit-Limit" (RateLimiter.limit d) r)).

(** [if (rateLimit.retryAfter) reply.header('Retry-After', ...)] *)
Definition addRetryAfter (r : Http.reply) (d : RateLimiter.decision) : Http.reply :=
  match RateLimiter.retryAfter d with
  | Some n => if n =? 0 then r else Http.header "Retry-After" (Http.HNum n) r
  | None => r
  end.

(** rate-limit plugin, [onRequest].  Logging and metrics are left out. *)
Definition rateLimitHook : hook := fun q r =>
  if String.eqb (Http.url q) "/health" || String.eqb (Http.url q) "/ready" then mret (q, r)
  else
    World.try_catch
      (rateLimit ← RateLimiter.checkLimit cfg clock (Http.ip q) (Http.extractApiKey q);
       let r1 := addRateLimitHeaders r rateLimit in
       if negb (RateLimiter.allowed rateLimit) then
         let r2 := Http.status 429 (addRetryAfter r1 rateLimit) in
         ts ← Date_now clock;
         mret (q, Http.send
                    (Http.ErrorBody "RateLimitExceeded"
                       "Too many requests. Please try again later."
                       (Http.id q) ts
                       (Http.RateLimitDetails (RateLimiter.limit rateLimit)
                          (RateLimiter.reset rateLimit)
                          (RateLimiter.retryAfter rateLimit)))
                    r2)
       else mret (q, r1))
      (fun _ => mret (q, r)).

(** audit-log plugin, [onRequest]: the initial audit context. *)
Definition initial_auditContext : gmap string JS.value :=
  {[ "is_blocked" := JS.Bool false;
     "block_reason" := JS.Null;
     "detected_issues_count" := JS.Num 0;
     "security_confidence" := JS.Null;
     "llm_provider" := JS.Null;
     "metadata" := JS.Obj [] ]}.

Definition auditInitHook : hook := fun q r =>
  mret (Http.with_auditContext initial_auditContext q, r).

(** [request.setAuditContext(updates)]; the decorator exists when the
    audit-log plugin is registered. *)
Definition setAuditContext (updates : gmap string JS.value) (q : Http.request)
  : M Http.request :=
  if Config.auditLogging cfg then
    mret (Http.with_auditContext
            (JS.spread (default ∅ (Http.auditContext q)) updates) q)
  else World.throw (Err.typeError "request.setAuditContext is not a function").

(** audit-log plugin, [onResponse] *)
Definition auditResponseHook (q : Http.request) (r : Http.reply) : M unit :=
  if String.eqb (Http.url q) "/health" then mret tt
  else
    World.try_catch
      (AuditLogger.log cfg clock q r (default ∅ (Http.auditContext q)))
      (fun _ => mret tt).

(** The timing hook of [createServer], [onRequest]. *)
Definition timingHook : hook := fun q r =>
  t ← Date_now clock;
  mret (Http.with_startTime t q, r).

(** [setErrorHandler]: the uniform error body. *)
Definition nonzero (o : option Z) : option Z :=
  match o with
  | Some n => if n =? 0 then None else Some n
  | None => None
  end.

Definition or_string (s d : string) : string := if String.eqb s "" then d else s.

Definition errorHandler (e : Err.t) (q : Http.request) (r : Http.reply)
  : M (Http.request * Http.reply) :=
  let statusCode := default 500 (nonzero (Err.statusCode e)) in
  ts ← Date_now clock;
  let body :=
    Http.ErrorBody (or_string (Err.name e) "InternalServerError")
                   (or_string (Err.message e) "An unexpected error occurred")
                   (Http.id q) ts Http.NoDetails in
  let r1 :=
    match nonzero (Err.retryAfter e) with
    | Some n => Http.header "Retry-After" (Http.HNum n) r
    | None => r
    end in
  mret (q, Http.send body (Http.status statusCode r1)).

End plugins.

End Plugins.

(** ** Routes *)

Module Routes.

Section routes.
Variable env : Env.t.
Let cfg := Env.cfg env.
Let clock := Env.clock env.

(** Handlers answer by sending a body on the reply. *)
Definition respond (p : Http.payload) (q : Http.request) (r : Http.reply)
  : M (Http.request * Http.reply) :=
  mret (q, Http.send p r).

(** [reply.badRequest(message)] and [reply.serviceUnavailable(message)]
    throw the matching error class. *)
Definition badRequest {A} (msg : string) : M A := World.throw (Err.ValidationError msg).
Definition serviceUnavailable {A} (msg : string) : M A :=
  World.throw (Err.ServiceUnavailableError msg).

Definition totalContentLength (ms : list Http.message) : Z :=
  fold_left (fun sum len => sum + len)
            (map (fun m => Z.of_nat (String.length (Http.content m))) ms) 0.

(** [userMessages.map(msg => msg.content).join('\n')] *)
Definition userContent (ms : list Http.message) : string :=
  String.concat (String "010" "")
    (map Http.content (filter (fun m => Http.role m = "user") ms)).

Definition issue_view (i : AnalyzerClient.issue) : Http.issue_view :=
  Http.mkIssueView (AnalyzerClient.type i) (AnalyzerClient.text i)
                   (AnalyzerClient.start i) (AnalyzerClient.end_ i)
                   (AnalyzerClient.confidence i).

(** The audit patch of a blocked request. *)
Definition blocked_patch (a : AnalyzerClient.response) : gmap string JS.value :=
  {[ "is_blocked" := JS.Bool true;
     "block_reason" := JS.Str "CONTENT_POLICY_VIOLATION";
     "detected_issues_count" :=
       JS.Num (inject_Z (Z.of_nat (length (AnalyzerClient.detected_issues a))));
     "security_confidence" := JS.Num (AnalyzerClient.confidence_score a) ]}.

(** The verdict-dependent part of the chat route, inside its [try]. *)
Definition on_verdict (a : AnalyzerClient.response) (q : Http.request) (r : Http.reply)
  : M (Http.request * Http.reply) :=
  if negb (AnalyzerClient.is_safe a) then
    q1 ← Plugins.setAuditContext env (blocked_patch a) q;
    ts ← Date_now clock;
    respond
      (Http.ErrorBody "ContentPolicyViolation"
         "Content contains potential security issues and was blocked"
         (Http.id q1) ts
         (Http.ContentDetails false
            (map issue_view (AnalyzerClient.detected_issues a))
            (AnalyzerClient.confidence_score a)
            (JS.substring0 100 <$> AnalyzerClient.redacted_text a)))
      q1 (Http.status 403 r)
  else
    ts ← Date_now clock;
    respond
      (Http.ErrorBody "NotImplementedError"
         "Content passed security checks, but LLM integration is not yet implemented. This will be added in future phases."
         (Http.id q) ts
         (Http.SecurityCheckDetails true (AnalyzerClient.confidence_score a)
            (Z.of_nat (length (AnalyzerClient.detected_issues a)))))
      q (Http.status 501 r).

Definition unavailable_message : string :=
  "Security analysis service is temporarily unavailable. Please try again later.".

(** [POST /v1/chat/completions].  A request without a parsed body never
    reaches the handler: Fastify raises the error of its content-type
    parser or of its validator, which goes to the error handler like an
    error of the handler. *)
Definition chat : Plugins.hook := fun q r =>
  match Http.body q with
  | None => World.throw (Http.rejection_error (Env.intake env q))
  | Some b =>
      let messages := Http.messages b in
      if (length messages =? 0)%nat then
        badRequest "Messages array is required and must not be empty"
      else if totalContentLength messages <? Config.minContentLength cfg then
        badRequest ("Content too short. Minimum length: "
                    +:+ pretty (Config.minContentLength cfg) +:+ " characters")
      else if Config.maxContentLength cfg <? totalContentLength messages then
        badRequest ("Content too long. Maximum length: "
                    +:+ pretty (Config.maxContentLength cfg) +:+ " characters")
      else
        match fst (AnalyzerClient.checkContent (Config.maxRetries cfg)
                     (Env.analyzer env (userContent messages))) with
        | AnalyzerClient.Returned a =>
            World.try_catch (on_verdict a q r)
                            (fun _ => serviceUnavailable unavailable_message)
        | AnalyzerClient.Thrown (Some _) => serviceUnavailable unavailable_message
        | AnalyzerClient.Thrown None =>
            (* [error.message] on the thrown [null] raises inside the [catch] *)
            World.throw (Err.typeError "Cannot read properties of null")
        end
  end.

(** [GET /v1/models] *)
Definition models : Plugins.hook := fun q r =>
  t1 ← Date_now clock;
  t2 ← Date_now clock;
  respond (Http.ModelsBody [(Config.openaiModel cfg, t1 / 1000);
                            (Config.anthropicModel cfg, t2 / 1000)]) q r.


(** [healthResult && healthResult.status === 1] on a decoded response *)
Definition is_serving (status : JS.value) : bool :=
  match status with
  | JS.Num q => Qeq_bool q 1
  | _ => false
  end.

(** [GET /ready], with the analyzer and Redis checks. *)
Definition ready : Plugins.hook := fun q r =>
  let analyzer_ok :=
    match Env.analyzer_health env with
    | Ok status => is_serving status
    | Throw _ => false
    end in
  redis_ok ← World.try_catch RedisClient.healthCheck (fun _ => mret false);
  let postgres_ok := true in       (* Mock: Always true *)
  let isReady := analyzer_ok && redis_ok && postgres_ok in
  ts ← Date_now clock;
  if negb isReady then
    respond (Http.ReadyBody "not_ready" analyzer_ok redis_ok postgres_ok ts
               (Some "Service dependencies are not ready"))
            q (Http.status 503 r)
  else
    respond (Http.ReadyBody "ready" analyzer_ok redis_ok postgres_ok ts None) q r.

(** [GET /ready] of the skeleton phase: every check is a constant. *)
Definition ready_skeleton : Plugins.hook := fun q r =>
  ts ← Date_now clock;
  respond (Http.ReadyBody "ready" true true true ts None) q r.

End routes.

End Routes.

(** ** The server: request lifecycle *)

Module Server.

Section server.
Variable env : Env.t.
Let cfg := Env.cfg env.

(** The [onRequest] hooks in the order [createServer] registers them. *)
Definition onRequestHooks : list Plugins.hook :=
  [Plugins.requestIdHook env]
  ++ (if Config.rateLimiting cfg then [Plugins.rateLimitHook env] else [])
  ++ (if Config.auditLogging cfg then [Plugins.auditInitHook] else [])
  ++ [Plugins.timingHook env].

(** Hooks run in order; a hook that sends the reply ends the chain. *)
Fixpoint run_hooks (hooks : list Plugins.hook) (q : Http.request) (r : Http.reply)
  : M (Http.request * Http.reply) :=
  match hooks with
  | [] => mret (q, r)
  | h :: rest =>
      qr ← h q r;
      if Http.sent (snd qr) then mret qr else run_hooks rest (fst qr) (snd qr)
  end.

(** The [onResponse] hooks; they run once the reply is out.  Only the
    audit hook acts on the world: the metrics hook records, and the
    timing hook sets a header on a reply that has left. *)
Definition onResponse (q : Http.request) (r : Http.reply) : M unit :=
  if Config.auditLogging cfg then Plugins.auditResponseHook env q r else mret tt.

(** The hooks, then the handler unless a hook has answered; an error
    thrown by the handler goes to the error handler. *)
Definition answer (handler : Plugins.hook) (q : Http.request)
  : M (Http.request * Http.reply) :=
  qr ← run_hooks onRequestHooks q Http.fresh_reply;
  if Http.sent (snd qr) then mret qr
  else World.try_catch (handler (fst qr) (snd qr))
                       (fun e => Plugins.errorHandler env e (fst qr) (snd qr)).

(** One request through hooks, handler, error handler and [onResponse]. *)
Definition lifecycle (handler : Plugins.hook) (q : Http.request)
  : M (Http.request * Http.reply) :=
  qr ← World.try_catch (answer handler q)
         (fun e => Plugins.errorHandler env e q Http.fresh_reply);
  _ ← onResponse (fst qr) (snd qr);
  mret qr.

(** Requests served one after the other; the replies in order. *)
Fixpoint serve (handler : Plugins.hook) (qs : list Http.request) : M (list Http.reply) :=
  match qs with
  | [] => mret []
  | q :: rest =>
      qr ← lifecycle handler q;
      rs ← serve handler rest;
      mret (snd qr :: rs)
  end.

End server.

End Server.

(** ** Properties checked on audit rows *)

Module Privacy.

(** The identifiers and other inputs a request carries in the clear. *)
Definition raw_identifiers (q : Http.request) : list string :=
  filter (fun s => s ≠ "")
    [Http.ip q;
     default "" (Http.headers q !! "user-agent");
     default "" (Http.extractApiKey q)].

Definition raw_inputs (q : Http.request) : list string :=
  raw_identifiers q ++ filter (fun s => s ≠ "") [Http.url q; Http.method q].

Definition string_members (m : gmap string JS.value) : list string :=
  omap (fun kv => match snd kv with JS.Str s => Some s | _ => None end) (map_to_list m).

(** Every text cell of a row, the string members of [metadata] included. *)
Definition text_cells (row : Sql.audit_log) : list string :=
  [Sql.request_id row; Sql.method row; Sql.path row; Sql.client_ip_hash row]
  ++ omap id [Sql.user_agent_hash row; Sql.api_key_hash row; Sql.block_reason row;
              Sql.llm_provider row; Sql.llm_model row]
  ++ from_option string_members [] (Sql.metadata row).

(** Some cell of the row contains one of the given strings. *)
Definition exposes (secrets : list string) (row : Sql.audit_log) : bool :=
  existsb (fun s => existsb (JS.includes s) (text_cells row)) secrets.

(** A digest column: absent, or 64 hexadecimal characters. *)
Definition is_digest (h : string) : Prop :=
  String.length h = 64%nat ∧ Sha256.is_hex h = true.

End Privacy.

(** ** Sample inputs used by the examples below *)

Module Samples.

Definition clock : Clock := fun n => 1700000000000 + Z.of_nat n.

(** Global tier 2 per 60 s, the other tiers at their defaults;
    synchronous audit logging so that rows land at once. *)
Definition cfg : Config.t := {|
  Config.rateLimiting := true;
  Config.auditLogging := true;
  Config.auditAsync := false;
  Config.globalLimit := Config.mkLimit 2 60;
  Config.ipLimit := Config.mkLimit 100 3600;
  Config.apiKeyLimit := Config.mkLimit 1000 3600;
  Config.maxRetries := 3;
  Config.minContentLength := 1;
  Config.maxContentLength := 10240;
  Config.openaiModel := "gpt-4";
  Config.anthropicModel := "claude-3-5-sonnet-20241022" |}.

(** A verdict that blocks, with confidence 0. *)
Definition verdict : AnalyzerClient.response := {|
  AnalyzerClient.is_safe := false;
  AnalyzerClient.redacted_text := Some "My SSN is [SSN]";
  AnalyzerClient.detected_issues :=
    [AnalyzerClient.mkIssue "SSN" "123-45-6789" 13 24 (99 # 100) "[SSN]"];
  AnalyzerClient.confidence_score := 0;
  AnalyzerClient.request_id := "req-1" |}.

Definition env : Env.t := {|
  Env.cfg := cfg;
  Env.clock := clock;
  Env.generator := fun _ => "generated-id";
  Env.analyzer := fun _ _ => AnalyzerClient.Resolve verdict;
  Env.analyzer_health := Ok (AnalyzerClient.decode_status AnalyzerClient.SERVING);
  Env.intake := fun _ => Http.mkRejection Http.BadRequest "Error" "body must be object" |}.

(** [GET /v1/models] from a caller at [ip], without a key. *)
Definition get_models (ip : string) : Http.request := {|
  Http.id := "";
  Http.method := "GET";
  Http.url := "/v1/models";
  Http.ip := ip;
  Http.headers := {[ "user-agent" := "curl/8.0" ]};
  Http.body := None;
  Http.routeUrl := Some "/v1/models";
  Http.startTime := None;
  Http.auditContext := None |}.

(** A chat request carrying a key. *)
Definition post_chat : Http.request := {|
  Http.id := "req-1";
  Http.method := "POST";
  Http.url := "/v1/chat/completions";
  Http.ip := "203.0.113.7";
  Http.headers := {[ "user-agent" := "curl/8.0"; "x-api-key" := "sk-test-123" ]};
  Http.body := Some (Http.mkBody [Http.mkMessage "user" "My SSN is 123-45-6789"]
                                 (Some "gpt-4"));
  Http.routeUrl := Some "/v1/chat/completions";
  Http.startTime := Some 1700000000000;
  Http.auditContext := None |}.

Definition reply403 : Http.reply := Http.status 403 Http.fresh_reply.

(** Two audited requests with different statuses. *)
Definition row (i status : Z) (blocked : bool) (ip_hash : string) : Sql.audit_log := {|
  Sql.id := i;
  Sql.request_id := "r";
  Sql.timestamp := 1700000000000 + i;
  Sql.method := "POST";
  Sql.path := "/v1/chat/completions";
  Sql.client_ip_hash := ip_hash;
  Sql.user_agent_hash := None;
  Sql.api_key_hash := None;
  Sql.request_size_bytes := None;
  Sql.response_status := status;
  Sql.response_size_bytes := None;
  Sql.response_time_ms := 10;
  Sql.is_blocked := blocked;
  Sql.block_reason := if blocked then Some "CONTENT_POLICY_VIOLATION" else None;
  Sql.detected_issues_count := Some 0;
  Sql.security_confidence := None;
  Sql.llm_provider := None;
  Sql.llm_model := None;
  Sql.metadata := None |}.

Definition table : list Sql.audit_log :=
  [row 1 501 false "aa"; row 2 403 true "bb"].

(** An analyzer that is down, and one that rejects the input at once. *)
Definition down : nat → AnalyzerClient.outcome :=
  fun k => AnalyzerClient.Reject (Err.grpc Err.UNAVAILABLE ("down " +:+ pretty k)).

Definition picky : nat → AnalyzerClient.outcome :=
  fun k => match k with
           | O => AnalyzerClient.Reject (Err.grpc Err.DEADLINE_EXCEEDED "slow")
           | _ => AnalyzerClient.Reject (Err.grpc Err.INVALID_ARGUMENT "bad")
           end.

(** The same deployment with the audit queue in use. *)
Definition cfg_async : Config.t := {|
  Config.rateLimiting := true;
  Config.auditLogging := true;
  Config.auditAsync := true;
  Config.globalLimit := Config.mkLimit 2 60;
  Config.ipLimit := Config.mkLimit 100 3600;
  Config.apiKeyLimit := Config.mkLimit 1000 3600;
  Config.maxRetries := 3;
  Config.minContentLength := 1;
  Config.maxContentLength := 10240;
  Config.openaiModel := "gpt-4";
  Config.anthropicModel := "claude-3-5-sonnet-20241022" |}.

Definition env_async : Env.t :=
  Env.mk cfg_async clock (Env.generator env) (Env.analyzer env) (Env.analyzer_health env)
         (Env.intake env).



(** A health response whose status is the number 1. *)
Definition env_numeric : Env.t :=
  Env.mk cfg clock (Env.generator env) (Env.analyzer env) (Ok (JS.Num 1)) (Env.intake env).

Definition get_ready : Http.request := {|
  Http.id := "";
  Http.method := "GET";
  Http.url := "/ready";
  Http.ip := "203.0.113.7";
  Http.headers := ∅;
  Http.body := None;
  Http.routeUrl := Some "/ready";
  Http.startTime := None;
  Http.auditContext := None |}.

(** A world whose PostgreSQL pool is gone. *)
Definition no_pool : World.t := World.mk 0 true ∅ false [] 1 [] false.

(** The same deployment observed at one instant. *)
Definition env_frozen : Env.t :=
  Env.mk cfg (fun _ => 1700000000000) (Env.generator env) (Env.analyzer env)
         (Env.analyzer_health env) (Env.intake env).

(** The three callers of the rate-limit scenario. *)
Definition callers : list Http.request :=
  [get_models "198.51.100.1"; get_models "198.51.100.2"; get_models "198.51.100.3"].

(** A world in which the global bucket of the current window is full. *)
Definition saturated : World.t :=
  World.mk 0 true {[ "rate_limit:global:all:1699999980" := World.mkBucket 2 (Some 60) ]}
           true [] 1 [] false.

End Samples.

(** ** What one bucket check computes *)

Module Bucket.

(** The second the [n]-th clock read falls in, [Math.floor(Date.now() / 1000)]. *)
Definition second (clock : Clock) (n : nat) : Z := clock n / 1000.

(** The bucket after [INCR], with the expiry set when it had none. *)
Definition checked (lim : Config.limit) (b : option World.bucket) : World.bucket :=
  let b1 := RedisClient.incr_bucket b in
  World.mkBucket (World.count b1)
    (if RedisClient.ttl_reply b1 =? -1 then Some (Config.window lim) else World.ttl b1).

(** The record [_checkBucket] returns for a count read at second [now]. *)
Definition verdict (type : string) (lim : Config.limit) (now count : Z)
  : RateLimiter.decision :=
  let ws := RateLimiter.windowStart now (Config.window lim) in
  let allowed := count <=? Config.max lim in
  RateLimiter.mk allowed (Some (Config.max lim))
    (Some (Z.max 0 (Config.max lim - count)))
    (Some (ws + Config.window lim))
    (if allowed then None else Some (ws + Config.window lim - now))
    (Some type).

End Bucket.

(** ** Observations on a retry trace *)

Module Retry.

Definition is_request (e : AnalyzerClient.event) : bool :=
  match e with
  | AnalyzerClient.Request _ => true
  | _ => false
  end.

(** How many requests the loop issued. *)
Definition attempts_made (tr : list AnalyzerClient.event) : nat :=
  length (filter (fun e => is_request e = true) tr).

(** Attempt [j] was rejected with an error other than invalid-argument. *)
Definition retriable (analyzer : nat → AnalyzerClient.outcome) (j : nat) : Prop :=
  ∃ e, analyzer j = AnalyzerClient.Reject e
       ∧ AnalyzerClient.is_code Err.INVALID_ARGUMENT e = false.

(** Every attempt from [a] up to, and excluding, [k] was so rejected. *)
Definition retriable_from (analyzer : nat → AnalyzerClient.outcome) (a k : nat) : Prop :=
  ∀ j, (a ≤ j < k)%nat → retriable analyzer j.

End Retry.

(** ** Rate limiter: reading a bucket ([getStatus]) *)

Module RateLimiterStatus.

(** The record [getStatus] returns.  A number that is [undefined] or
    [NaN] is [None]. *)
Record status : Type := mk {
  type : string;
  identifier : string;
  limit : option Z;
  current : option Z;
  remaining : option Z;
  reset : option Z;
  resetIn : option Z;
  window : option Z }.

(** What [this.limits[type]] evaluates to. *)
Inductive slot : Type :=
| Own (l : Config.limit)     (* one of the three tiers *)
| Inherited                  (* a property of [Object.prototype] *)
| Missing.                   (* [undefined] *)

Definition object_prototype : list string :=
  ["constructor"; "__proto__"; "hasOwnProperty"; "isPrototypeOf";
   "propertyIsEnumerable"; "toLocaleString"; "toString"; "valueOf";
   "__defineGetter__"; "__defineSetter__"; "__lookupGetter__"; "__lookupSetter__"].

Section status.
Variable cfg : Config.t.
Variable clock : Clock.

(** [this.limits] has the own properties [global], [ip] and [apiKey]. *)
Definition limits (type : string) : slot :=
  if String.eqb type "global" then Own (Config.globalLimit cfg)
  else if String.eqb type "ip" then Own (Config.ipLimit cfg)
  else if String.eqb type "apiKey" then Own (Config.apiKeyLimit cfg)
  else if existsb (String.eqb type) object_prototype then Inherited
  else Missing.

(** [currentValue ? parseInt(currentValue, 10) : 0] *)
Definition count_of (currentValue : option string) : option Z :=
  match currentValue with
  | Some s =>
      if String.eqb s "" then Some 0
      else
        match AuditLogger.parseInt10 s with
        | JS.Num q => Some (Qfloor q)
        | _ => None
        end
  | None => Some 0
  end.

(** [getStatus(type, identifier)].  For a name inherited from
    [Object.prototype] the limit has neither [max] nor [window], and
    every number derived from them is [undefined] or [NaN]. *)
Definition getStatus (type identifier : string) : M status :=
  match limits type with
  | Missing => World.throw (Err.plain ("Invalid rate limit type: " +:+ type))
  | Own limit =>
      now_ms ← Date_now clock;
      let now := now_ms / 1000 in
      let ws := RateLimiter.windowStart now (Config.window limit) in
      let key := RateLimiter.bucket_key type identifier ws in
      currentValue ← RedisClient.get key;
      let currentCount := count_of currentValue in
      let reset := ws + Config.window limit in
      mret (mk type identifier (Some (Config.max limit)) currentCount
              ((fun c => Z.max 0 (Config.max limit - c)) <$> currentCount)
              (Some reset) (Some (reset - now)) (Some (Config.window limit)))
  | Inherited =>
      _ ← Date_now clock;
      currentValue ←
        RedisClient.get ("rate_limit:" +:+ type +:+ ":" +:+ identifier +:+ ":NaN");
      mret (mk type identifier None (count_of currentValue) None None None None)
  end.

End status.

End RateLimiterStatus.

(** ** Handlers of the admin routes *)

Module Admin.

(** The validated query string of [GET /admin/audit-logs]; the two
    times are the instants their strings denote. *)
Record logs_query : Type := mkQuery {
  start_time : option Z;
  end_time : option Z;
  client_ip_hash : option string;
  is_blocked : option bool;
  response_status : option Z;
  limit : option Z;
  offset : option Z }.

(** What a handler returns. *)
Inductive body : Type :=
| LogsBody (logs : list Sql.audit_log) (count limit offset : Z)
| FailureBody (type message : string).

(** The [filters] the handler builds from the query. *)
Definition filters_of (q : logs_query) : PgClient.filters := {|
  PgClient.f_start_time := start_time q;
  PgClient.f_end_time := end_time q;
  PgClient.f_client_ip_hash := PgClient.str_or_null (client_ip_hash q);
  PgClient.f_is_blocked := is_blocked q;
  PgClient.f_response_status := PgClient.num_or_null (response_status q);
  PgClient.f_limit := Some (default 100 (PgClient.num_or_null (limit q)));
  PgClient.f_offset := Some (default 0 (PgClient.num_or_null (offset q))) |}.

(** [GET /admin/audit-logs]: the status code and the body. *)
Definition auditLogs (q : logs_query) : M (Z * body) :=
  let filters := filters_of q in
  World.try_catch
    (logs ← PgClient.queryAuditLogs filters;
     mret (200, LogsBody logs (Z.of_nat (length logs))
                  (default 100 (PgClient.f_limit filters))
                  (default 0 (PgClient.f_offset filters))))
    (fun _ => mret (500, FailureBody "DatabaseError" "Failed to query audit logs")).

End Admin.

(** ** Consecutive checks of one bucket *)

Module Window.

Section burst.
Variable clock : Clock.
Variables (type identifier : string) (lim : Config.limit).

(** [n] checks of the same bucket, one after the other, and what they
    decide. *)
Fixpoint burst (n : nat) : M (list RateLimiter.decision) :=
  match n with
  | O => mret []
  | S n' =>
      d ← RateLimiter._checkBucket clock type identifier lim;
      ds ← burst n';
      mret (d :: ds)
  end.

End burst.

End Window.

(** ** What an operation leaves alone *)

Module Frame.

(** The audit side of the world: pool, table, sequence, queue and flag. *)
Definition audit_kept (w w' : World.t) : Prop :=
  World.pg_pool w' = World.pg_pool w
  ∧ World.audit_logs w' = World.audit_logs w
  ∧ World.next_id w' = World.next_id w
  ∧ World.queue w' = World.queue w
  ∧ World.processing w' = World.processing w.

(** The Redis side of the world. *)
Definition redis_kept (w w' : World.t) : Prop :=
  World.redis_connected w' = World.redis_connected w
  ∧ World.redis w' = World.redis w.

(** Every key of the store has an expiry ahead. *)
Definition all_expire (m : gmap string World.bucket) : Prop :=
  map_Forall (fun _ b => ∃ t, World.ttl b = Some t ∧ 0 < t) m.

(** The request as the hooks hand it on: only [id], [startTime] and
    [auditContext] can differ from what came in. *)
Definition same_call (q q' : Http.request) : Prop :=
  Http.method q' = Http.method q ∧ Http.url q' = Http.url q ∧ Http.ip q' = Http.ip q
  ∧ Http.headers q' = Http.headers q ∧ Http.body q' = Http.body q
  ∧ Http.routeUrl q' = Http.routeUrl q.

End Frame.

(** ** Observations on the drain of the audit queue *)

Module Drain.

(** The table takes the entry. *)
Definition accepted (e : Entry.t) : bool :=
  bool_decide (is_Some (PgClient.store 0 (PgClient.insert_params e))).



End Drain.

(** ** Time spent waiting by the retry loop *)

Module Backoff.

Definition pause (e : AnalyzerClient.event) : Z :=
  match e with
  | AnalyzerClient.Sleep ms => ms
  | _ => 0
  end.

(** The sum of all pauses of a trace, in milliseconds. *)
Definition slept (tr : list AnalyzerClient.event) : Z :=
  fold_right Z.add 0 (map pause tr).

End Backoff.

(** ** Further sample inputs *)

Module Cases.

(** A clock that advances thirty seconds with every reading. *)
Definition slow_clock : Clock := fun n => 1700000000000 + 30000 * Z.of_nat n.

(** A world whose Redis connection is down. *)
Definition offline : World.t := World.mk 0 false ∅ true [] 1 [] false.



(** A world whose table holds the two sample rows. *)
Definition audited : World.t := World.mk 0 true ∅ true Samples.table 3 [] false.

(** A pool that completes the inserts of a batch last first. *)
Definition last_first : World.t → list Entry.t → list Entry.t :=
  fun _ batch => rev batch.


(** A chat request that names its own identifier. *)
Definition traced_chat : Http.request := {|
  Http.id := "";
  Http.method := "POST";
  Http.url := "/v1/chat/completions";
  Http.ip := "203.0.113.7";
  Http.headers := {[ "x-request-id" := "trace-42" ]};
  Http.body := Some (Http.mkBody [Http.mkMessage "user" "hello"] None);
  Http.routeUrl := Some "/v1/chat/completions";
  Http.startTime := None;
  Http.auditContext := None |}.

(** The same question behind a system message. *)
Definition primed_chat : Http.request := {|
  Http.id := "";
  Http.method := "POST";
  Http.url := "/v1/chat/completions";
  Http.ip := "203.0.113.7";
  Http.headers := {[ "x-request-id" := "trace-42" ]};
  Http.body := Some (Http.mkBody [Http.mkMessage "system" "My SSN is 123-45-6789";
                                  Http.mkMessage "user" "hello"] None);
  Http.routeUrl := Some "/v1/chat/completions";
  Http.startTime := None;
  Http.auditContext := None |}.

(** A request that declares a body of three gibibytes. *)
Definition oversized : Http.request := {|
  Http.id := "";
  Http.method := "POST";
  Http.url := "/v1/chat/completions";
  Http.ip := "203.0.113.7";
  Http.headers := {[ "content-length" := "3221225472" ]};
  Http.body := None;
  Http.routeUrl := Some "/v1/chat/completions";
  Http.startTime := None;
  Http.auditContext := None |}.

End Cases.

(** * Verification *)

(** ** The digest *)

(** The implementation agrees with the FIPS 180-4 test vectors. *)
Example sha256_abc :
  Sha256.hexdigest "abc"
  = "ba7816bf8f01cfea414140de5dae2223b00361a396177a9cb410ff61f20015ad".
Proof. vm_compute. reflexivity. Qed.

Example sha256_empty :
  Sha256.hexdigest ""
  = "e3b0c44298fc1c149afbf4c8996fb92427ae41e4649b934ca495991b7852b855".
Proof. vm_compute. reflexivity. Qed.

(** A message whose padding spills into a second block. *)
Example sha256_two_blocks :
  Sha256.hexdigest "aaaaaaaaaaaaaaaaaaaaaaaaaaaaaaaaaaaaaaaaaaaaaaaaaaaaaaaa"
  = "b35439a4ac6f0948b6d6f9e3c6af0f5f590ce20f1bde7090ef7970686ec6738a".
Proof. vm_compute. reflexivity. Qed.

Lemma hex_table_entries (n : nat) :
  Sha256.is_hex_char (nth n Sha256.hex_table "0"%char) = true.
Proof. do 17 (destruct n as [|n]; [reflexivity|]). reflexivity. Qed.

Lemma hex_digit_is_hex (x : Z) : Sha256.is_hex_char (Sha256.hex_digit x) = true.
Proof. apply hex_table_entries. Qed.

Lemma hex_word_is_hex (w : Z) (rest : string) :
  Sha256.is_hex rest = true → Sha256.is_hex (Sha256.hex_word w rest) = true.
Proof.
  intros Hrest. unfold Sha256.is_hex, Sha256.hex_word. cbn [list_ascii_of_string forallb].
  rewrite !hex_digit_is_hex. exact Hrest.
Qed.

Lemma hexdigest_length (s : string) : String.length (Sha256.hexdigest s) = 64%nat.
Proof. reflexivity. Qed.

Lemma hexdigest_is_hex (s : string) : Sha256.is_hex (Sha256.hexdigest s) = true.
Proof.
  unfold Sha256.hexdigest, Sha256.hex_state.
  repeat apply hex_word_is_hex. reflexivity.
Qed.

Lemma hexdigest_is_digest (s : string) : Privacy.is_digest (Sha256.hexdigest s).
Proof. split; [apply hexdigest_length | apply hexdigest_is_hex]. Qed.

Lemma hash_present (s : string) :
  s ≠ "" → AuditLogger._hash (Some s) = Some (Sha256.hexdigest s).
Proof.
  intros Hs. unfold AuditLogger._hash.
  destruct (String.eqb_spec s "") as [->|_]; [contradiction|reflexivity].
Qed.

Lemma hash_some_inv (d : option string) (h : string) :
  AuditLogger._hash d = Some h →
  ∃ s, d = Some s ∧ s ≠ "" ∧ h = Sha256.hexdigest s.
Proof.
  destruct d as [s|]; [|discriminate]. unfold AuditLogger._hash.
  destruct (String.eqb_spec s "") as [->|Hne]; [discriminate|].
  intros [= <-]. eauto.
Qed.

(** C4, as stated, fails: the digest of [null] and the digest of the
    empty string are the same value, [null]. *)
Lemma C4_null_equals_empty :
  ¬ (AuditLogger._hash None ≠ AuditLogger._hash (Some "")).
Proof. intros H. apply H. reflexivity. Qed.

(** C4, amended: the digest is a function of its input alone; a
    non-empty input [s] yields [Sha256.hexdigest s], its SHA-256 digest
    (the function checked against the FIPS 180-4 vectors above), which
    has 64 lower-case hexadecimal characters; a missing and an empty
    input both yield [null], which is the digest of no non-empty input
    (and not the hash of the empty string). *)
Theorem C4_digest (s : string) :
  s ≠ "" →
  (∀ d1 d2 : option string, d1 = d2 → AuditLogger._hash d1 = AuditLogger._hash d2)
  ∧ AuditLogger._hash (Some s) = Some (Sha256.hexdigest s)
  ∧ String.length (Sha256.hexdigest s) = 64%nat
  ∧ Sha256.is_hex (Sha256.hexdigest s) = true
  ∧ AuditLogger._hash None = None
  ∧ AuditLogger._hash (Some "") = None
  ∧ AuditLogger._hash (Some "") ≠ Some (Sha256.hexdigest "")
  ∧ AuditLogger._hash (Some s) ≠ AuditLogger._hash None.
Proof.
  intros Hs. rewrite (hash_present s Hs).
  split; [intros d1 d2 ->; reflexivity|].
  split; [reflexivity|].
  split; [apply hexdigest_length|].
  split; [apply hexdigest_is_hex|].
  repeat split; discriminate.
Qed.

Lemma C4_digest_witness :
  "203.0.113.7" ≠ ""
  ∧ AuditLogger._hash (Some "203.0.113.7")
    = Some "fec52565aa0cf18f57d7cf5b3ac728503b8992d2d6f7d46da1d1201090902b02"
  ∧ AuditLogger._hash (Some "203.0.113.7") ≠ AuditLogger._hash None.
Proof.
  split; [discriminate|].
  split; [vm_compute; reflexivity|].
  apply (C4_digest "203.0.113.7"). discriminate.
Defined.

(** ** Audit entries and rows *)

Lemma varchar_inv (n : nat) (s s' : string) :
  PgClient.varchar n s = Some s' → s' = s.
Proof. unfold PgClient.varchar. case_match; congruence. Qed.

Lemma opt_varchar_inv (n : nat) (o o' : option string) :
  PgClient.opt_varchar n o = Some o' → o' = o.
Proof.
  destruct o as [s|]; simpl; [|congruence].
  destruct (PgClient.varchar n s) eqn:E; simpl; [|discriminate].
  apply varchar_inv in E. congruence.
Qed.

(** What an accepted [INSERT] stores in the columns of interest. *)
Lemma store_columns (i : Z) (p : PgClient.params) (row : Sql.audit_log) :
  PgClient.store i p = Some row →
  PgClient.p_client_ip_hash p = Some (Sql.client_ip_hash row)
  ∧ Sql.user_agent_hash row = PgClient.p_user_agent_hash p
  ∧ Sql.api_key_hash row = PgClient.p_api_key_hash p
  ∧ Sql.request_id row = PgClient.p_request_id p
  ∧ Sql.method row = PgClient.p_method p
  ∧ Sql.path row = PgClient.p_path p
  ∧ PgClient.col_confidence (PgClient.p_security_confidence p)
    = Some (Sql.security_confidence row)
  ∧ Sql.metadata row = PgClient.p_metadata p.
Proof.
  unfold PgClient.store. intros H.
  repeat match type of H with
         | (mbind _ ?o) = Some _ =>
             let E := fresh "E" in destruct o eqn:E; simpl in H; [|discriminate H]
         end.
  injection H as <-. simpl.
  destruct (PgClient.p_client_ip_hash p) as [h|]; [|discriminate].
  simpl in *.
  repeat match goal with
         | E : PgClient.varchar _ _ = Some _ |- _ => apply varchar_inv in E; subst
         | E : PgClient.opt_varchar _ _ = Some _ |- _ => apply opt_varchar_inv in E; subst
         end.
  auto 10.
Qed.

Lemma str_or_null_inv (o : option string) (h : string) :
  PgClient.str_or_null o = Some h → o = Some h.
Proof.
  destruct o as [s|]; simpl; [|discriminate]. case_match; congruence.
Qed.

Lemma truthy_header_inv (q : Http.request) (k v : string) :
  Http.truthy_header q k = Some v → Http.headers q !! k = Some v.
Proof.
  unfold Http.truthy_header. destruct (Http.headers q !! k); [|discriminate].
  case_match; congruence.
Qed.

(** The synchronous path of [log] persists the row built from the entry. *)
Lemma log_sync_row (cfg : Config.t) (clock : Clock) (q : Http.request)
    (r : Http.reply) (options : gmap string JS.value) (w : World.t)
    (row : Sql.audit_log) :
  Config.auditLogging cfg = true →
  Config.auditAsync cfg = false →
  World.pg_pool w = true →
  PgClient.store (World.next_id w)
    (PgClient.insert_params
       (AuditLogger.build_entry q r options (clock (World.ticks w))
                                (clock (S (World.ticks w))))) = Some row →
  World.audit_logs (snd (AuditLogger.log cfg clock q r options w))
  = World.audit_logs w ++ [row].
Proof.
  intros Hlog Hsync Hpool Hrow.
  unfold AuditLogger.log, World.try_catch, mbind, World.M_bind, World.bind,
    Date_now, PgClient.insertAuditLog.
  rewrite Hlog, Hsync. simpl. rewrite Hpool, Hrow. reflexivity.
Qed.

(** The asynchronous path of [log] queues the entry unless the queue is full. *)
Lemma log_async_queue (cfg : Config.t) (clock : Clock) (q : Http.request)
    (r : Http.reply) (options : gmap string JS.value) (w : World.t) :
  Config.auditLogging cfg = true →
  Config.auditAsync cfg = true →
  (length (World.queue w) < AuditLogger.maxQueueSize)%nat →
  World.queue (snd (AuditLogger.log cfg clock q r options w))
  = World.queue w
    ++ [AuditLogger.build_entry q r options (clock (World.ticks w))
                                (clock (S (World.ticks w)))].
Proof.
  intros Hlog Hasync Hroom.
  unfold AuditLogger.log, World.try_catch, mbind, World.M_bind, World.bind,
    Date_now, AuditLogger._queueLog.
  rewrite Hlog, Hasync. cbn -[Nat.leb AuditLogger.maxQueueSize].
  destruct (Nat.leb_spec AuditLogger.maxQueueSize (length (World.queue w))); [lia|].
  reflexivity.
Qed.

(** Unless [options.metadata] overrides it, the [metadata] of every
    entry carries the first 100 characters of the user agent as sent. *)
Lemma metadata_keeps_user_agent (q : Http.request) (options : gmap string JS.value) :
  JS.props_of (JS.get options "metadata") !! "user_agent_truncated" = None →
  AuditLogger.build_metadata q options !! "user_agent_truncated"
  = Some (JS.Str (JS.substring0 100 (default "" (Http.truthy_header q "user-agent")))).
Proof.
  intros Hfree. unfold AuditLogger.build_metadata, JS.spread.
  rewrite lookup_union_r by exact Hfree. by simplify_map_eq.
Qed.

(** C1, as stated, fails: the row persisted for a request from
    203.0.113.7 with user agent curl/8.0 keeps the request path as
    received and carries the user agent itself in [metadata]. *)
Lemma C1_row_exposes_inputs :
  ∃ row,
    PgClient.store 1
      (PgClient.insert_params
         (AuditLogger.build_entry Samples.post_chat Samples.reply403 ∅
                                  1700000000005 1700000000006)) = Some row
    ∧ Sql.path row = Http.url Samples.post_chat
    ∧ Sql.metadata row ≫= (.!! "user_agent_truncated") = Some (JS.Str "curl/8.0")
    ∧ Privacy.exposes (Privacy.raw_identifiers Samples.post_chat) row = true
    ∧ Privacy.exposes (Privacy.raw_inputs Samples.post_chat) row = true.
Proof.
  eexists. split; [vm_compute; reflexivity|].
  repeat split; vm_compute; reflexivity.
Qed.

(** C1, amended: in every row persisted for an audited request the
    columns [client_ip_hash], [user_agent_hash] and [api_key_hash] hold
    the SHA-256 digest (64 hexadecimal characters) of the caller
    address, of the user agent and of the presented key, or are null;
    [request_id], [method] and [path] hold the values of the request. *)
Theorem C1_identifier_columns (q : Http.request) (r : Http.reply)
    (options : gmap string JS.value) (date now i : Z) (row : Sql.audit_log) :
  PgClient.store i
    (PgClient.insert_params (AuditLogger.build_entry q r options date now)) = Some row →
  Sql.client_ip_hash row = Sha256.hexdigest (Http.ip q)
  ∧ Privacy.is_digest (Sql.client_ip_hash row)
  ∧ (∀ h, Sql.user_agent_hash row = Some h →
          ∃ ua, Http.headers q !! "user-agent" = Some ua
                ∧ h = Sha256.hexdigest ua ∧ Privacy.is_digest h)
  ∧ (∀ h, Sql.api_key_hash row = Some h →
          ∃ k, Http.extractApiKey q = Some k
               ∧ h = Sha256.hexdigest k ∧ Privacy.is_digest h)
  ∧ Sql.request_id row = Http.id q
  ∧ Sql.method row = Http.method q
  ∧ Sql.path row = Http.url q.
Proof.
  intros Hrow.
  destruct (store_columns _ _ _ Hrow) as (Hip & Hua & Hkey & Hid & Hm & Hp & _ & _).
  change (AuditLogger._hash (Some (Http.ip q)) = Some (Sql.client_ip_hash row)) in Hip.
  change (Sql.user_agent_hash row
          = PgClient.str_or_null
              (AuditLogger._hash
                 (Some (default "" (Http.truthy_header q "user-agent"))))) in Hua.
  change (Sql.api_key_hash row
          = PgClient.str_or_null
              (match Http.extractApiKey q with
               | Some k => if String.eqb k "" then None else AuditLogger._hash (Some k)
               | None => None
               end)) in Hkey.
  apply hash_some_inv in Hip as (s & [= <-] & _ & Hip).
  split; [exact Hip|]. split; [rewrite Hip; apply hexdigest_is_digest|].
  split.
  { intros h Hh. rewrite Hua in Hh. apply str_or_null_inv in Hh.
    apply hash_some_inv in Hh as (s & [= <-] & Hne & ->).
    destruct (Http.truthy_header q "user-agent") as [ua|] eqn:E; [|contradiction].
    exists ua. auto using truthy_header_inv, hexdigest_is_digest. }
  split; [|auto].
  intros h Hh. rewrite Hkey in Hh. apply str_or_null_inv in Hh.
  destruct (Http.extractApiKey q) as [k|]; [|discriminate].
  destruct (String.eqb k ""); [discriminate|].
  apply hash_some_inv in Hh as (s & [= <-] & _ & ->).
  exists k. auto using hexdigest_is_digest.
Qed.

Lemma C1_identifier_columns_witness :
  ∃ row,
    Sql.client_ip_hash row
    = "fec52565aa0cf18f57d7cf5b3ac728503b8992d2d6f7d46da1d1201090902b02"
    ∧ Sql.path row = "/v1/chat/completions".
Proof.
  destruct (PgClient.store 1
              (PgClient.insert_params
                 (AuditLogger.build_entry Samples.post_chat Samples.reply403 ∅
                                          1700000000005 1700000000006)))
    as [row|] eqn:Hrow; [|vm_compute in Hrow; discriminate Hrow].
  exists row.
  pose proof (C1_identifier_columns _ _ _ _ _ _ _ Hrow) as (Hip & _ & _ & _ & _ & _ & Hp).
  split; [rewrite Hip; vm_compute; reflexivity | exact Hp].
Defined.

Lemma get_delete_ne (options : gmap string JS.value) (k k' : string) :
  k ≠ k' → JS.get (delete k options) k' = JS.get options k'.
Proof. intros Hne. unfold JS.get. by rewrite lookup_delete_ne. Qed.

Lemma or_falsy (v d : JS.value) : JS.truthy v = false → JS.or v d = d.
Proof. unfold JS.or. by intros ->. Qed.

(** C10: a security confidence that is the number 0 is falsy, so the
    entry built by the logger and the row persisted from it hold null,
    exactly as if no confidence had been supplied; the issue count, the
    block reason and the blocked flag fall back to their defaults in
    the same way whenever the supplied value is falsy. *)
Theorem C10_zero_confidence_is_null (q : Http.request) (r : Http.reply)
    (options : gmap string JS.value) (date now : Z) (zero : Q) :
  Qnum zero = 0 →
  options !! "security_confidence" = Some (JS.Num zero) →
  let e := AuditLogger.build_entry q r options date now in
  Entry.security_confidence e = JS.Null
  ∧ PgClient.p_security_confidence (PgClient.insert_params e) = JS.Null
  ∧ (∀ i row, PgClient.store i (PgClient.insert_params e) = Some row →
              Sql.security_confidence row = None)
  ∧ e = AuditLogger.build_entry q r (delete "security_confidence" options) date now
  ∧ (JS.truthy (JS.get options "detected_issues_count") = false →
     Entry.detected_issues_count e = JS.Num 0)
  ∧ (JS.truthy (JS.get options "block_reason") = false →
     Entry.block_reason e = JS.Null)
  ∧ (JS.truthy (JS.get options "is_blocked") = false →
     Entry.is_blocked e = JS.Bool false).
Proof.
  intros Hzero Hconf e.
  assert (Hfalsy : JS.truthy (JS.get options "security_confidence") = false).
  { unfold JS.get. rewrite Hconf. simpl. rewrite Hzero. reflexivity. }
  assert (He : Entry.security_confidence e = JS.Null) by (apply or_falsy, Hfalsy).
  assert (Hp : PgClient.p_security_confidence (PgClient.insert_params e) = JS.Null).
  { change (JS.or (Entry.security_confidence e) JS.Null = JS.Null). by rewrite He. }
  split; [exact He|]. split; [exact Hp|]. split.
  { intros i row Hrow. apply store_columns in Hrow as (_ & _ & _ & _ & _ & _ & Hc & _).
    rewrite Hp in Hc. simpl in Hc. congruence. }
  split.
  { subst e. unfold AuditLogger.build_entry, AuditLogger.build_metadata.
    f_equal; try (rewrite get_delete_ne by discriminate; reflexivity).
    rewrite (or_falsy _ _ Hfalsy).
    unfold JS.get. by rewrite lookup_delete_eq. }
  repeat split; intros H; apply or_falsy, H.
Qed.

Lemma C10_zero_confidence_is_null_witness :
  Entry.security_confidence
    (AuditLogger.build_entry Samples.post_chat Samples.reply403
       (Routes.blocked_patch Samples.verdict) 1700000000005 1700000000006)
  = JS.Null.
Proof.
  refine (proj1 (C10_zero_confidence_is_null Samples.post_chat Samples.reply403
                   (Routes.blocked_patch Samples.verdict)
                   1700000000005 1700000000006 0 _ _)).
  - reflexivity.
  - vm_compute. reflexivity.
Defined.

(** ** The retry loop of the analyzer client *)

Section retry_loop_facts.
Variable maxRetries : Z.
Variable analyzer : nat → AnalyzerClient.outcome.

Local Abbreviation loop := (AnalyzerClient.retry_loop maxRetries analyzer).

Lemma attempts_made_cons_request (k : nat) (tr : list AnalyzerClient.event) :
  Retry.attempts_made (AnalyzerClient.Request k :: tr) = S (Retry.attempts_made tr).
Proof. reflexivity. Qed.

Lemma attempts_made_backoff (k : nat) (e : Err.t) (tr : list AnalyzerClient.event) :
  Retry.attempts_made (AnalyzerClient.backoff maxRetries k e ++ tr)
  = Retry.attempts_made tr.
Proof.
  unfold AnalyzerClient.backoff.
  destruct (Z.of_nat k <? maxRetries); [|reflexivity].
  destruct (AnalyzerClient.lost_connection e); reflexivity.
Qed.

Lemma loop_attempts_bound (fuel a : nat) (le : option Err.t) :
  (Retry.attempts_made (snd (loop fuel a le)) ≤ fuel)%nat.
Proof.
  revert a le. induction fuel as [|fuel IH]; intros a le; simpl; [reflexivity|].
  destruct (analyzer a) as [r|e]; simpl; [unfold Retry.attempts_made; simpl; lia|].
  destruct (AnalyzerClient.is_code Err.INVALID_ARGUMENT e); simpl.
  - unfold Retry.attempts_made; simpl; lia.
  - rewrite attempts_made_cons_request, attempts_made_backoff.
    specialize (IH (S a) (Some e)). lia.
Qed.

(** Every iteration opens with its request. *)
Lemma loop_head (fuel a : nat) (le : option Err.t) :
  ∃ post, snd (loop (S fuel) a le) = AnalyzerClient.Request a :: post.
Proof.
  simpl. destruct (analyzer a) as [r|e]; simpl; [eauto|].
  destruct (AnalyzerClient.is_code Err.INVALID_ARGUMENT e); simpl; eauto.
Qed.

Lemma loop_step (fuel a : nat) (le : option Err.t) (e : Err.t) :
  analyzer a = AnalyzerClient.Reject e →
  AnalyzerClient.is_code Err.INVALID_ARGUMENT e = false →
  loop (S fuel) a le
  = (fst (loop fuel (S a) (Some e)),
     AnalyzerClient.Request a
       :: AnalyzerClient.backoff maxRetries a e ++ snd (loop fuel (S a) (Some e))).
Proof. intros Ha He. simpl. rewrite Ha, He. reflexivity. Qed.

Lemma last_cons_app {A} (x : A) (l1 l2 : list A) (y : A) :
  last l2 = Some y → last (x :: l1 ++ l2) = Some y.
Proof.
  intros H. destruct l2 as [|z l2]; [discriminate|].
  change (x :: l1 ++ z :: l2) with ((x :: l1) ++ z :: l2).
  rewrite last_app, H. reflexivity.
Qed.

Lemma loop_invalid (fuel a k : nat) (le : option Err.t) (e : Err.t) :
  (a ≤ k < a + fuel)%nat →
  Retry.retriable_from analyzer a k →
  analyzer k = AnalyzerClient.Reject e →
  AnalyzerClient.is_code Err.INVALID_ARGUMENT e = true →
  fst (loop fuel a le) = AnalyzerClient.Thrown (Some e)
  ∧ Retry.attempts_made (snd (loop fuel a le)) = S (k - a)
  ∧ last (snd (loop fuel a le)) = Some (AnalyzerClient.Request k).
Proof.
  revert a le. induction fuel as [|fuel IH]; intros a le Hk Hpre Hrej Hinv; [lia|].
  destruct (decide (a = k)) as [->|Hne].
  - simpl. rewrite Hrej, Hinv. simpl. rewrite Nat.sub_diag. auto.
  - destruct (Hpre a ltac:(lia)) as (e' & Ha & He').
    rewrite (loop_step _ _ _ _ Ha He'). simpl.
    destruct (IH (S a) (Some e')) as (Hres & Hn & Hlast); auto; [lia| |].
    { intros j Hj. apply Hpre. lia. }
    split; [exact Hres|]. split.
    + rewrite attempts_made_cons_request, attempts_made_backoff, Hn. f_equal. lia.
    + by apply last_cons_app.
Qed.

Lemma loop_exhausted (fuel a : nat) (le : option Err.t) (e : Err.t) :
  Retry.retriable_from analyzer a (a + fuel) →
  analyzer (a + fuel) = AnalyzerClient.Reject e →
  AnalyzerClient.is_code Err.INVALID_ARGUMENT e = false →
  fst (loop (S fuel) a le) = AnalyzerClient.Thrown (Some e)
  ∧ Retry.attempts_made (snd (loop (S fuel) a le)) = S fuel.
Proof.
  revert a le. induction fuel as [|fuel IH]; intros a le Hpre Hrej He.
  - rewrite Nat.add_0_r in Hrej. rewrite (loop_step _ _ _ _ Hrej He). simpl.
    by rewrite attempts_made_cons_request, attempts_made_backoff.
  - destruct (Hpre a ltac:(lia)) as (e' & Ha & He').
    rewrite (loop_step _ _ _ _ Ha He').
    destruct (IH (S a) (Some e')) as (Hres & Hn).
    { intros j Hj. apply Hpre. lia. }
    { by replace (S a + fuel)%nat with (a + S fuel)%nat by lia. }
    { exact He. }
    cbn [fst snd]. split; [exact Hres|].
    by rewrite attempts_made_cons_request, attempts_made_backoff, Hn.
Qed.

Lemma loop_retry (fuel a k : nat) (le : option Err.t) (e : Err.t) :
  (a ≤ k)%nat → (S k < a + fuel)%nat →
  Z.of_nat k < maxRetries →
  Retry.retriable_from analyzer a k →
  analyzer k = AnalyzerClient.Reject e →
  AnalyzerClient.lost_connection e = true →
  AnalyzerClient.is_code Err.INVALID_ARGUMENT e = false →
  ∃ pre post,
    snd (loop fuel a le)
    = pre ++ [AnalyzerClient.Request k; AnalyzerClient.Sleep (1000 * 2 ^ Z.of_nat k);
              AnalyzerClient.Reconnect; AnalyzerClient.Request (S k)] ++ post.
Proof.
  revert a le. induction fuel as [|fuel IH]; intros a le Hak Hk Hlt Hpre Hrej Hlost He; [lia|].
  destruct (decide (a = k)) as [->|Hne].
  - rewrite (loop_step _ _ _ _ Hrej He). cbn [snd].
    destruct fuel as [|fuel]; [lia|].
    destruct (loop_head fuel (S k) (Some e)) as (post & ->).
    exists [], post. unfold AnalyzerClient.backoff, AnalyzerClient.delay.
    destruct (Z.ltb_spec (Z.of_nat k) maxRetries); [|lia].
    rewrite Hlost, (Z.mul_comm 1000). reflexivity.
  - destruct (Hpre a ltac:(lia)) as (e' & Ha & He').
    rewrite (loop_step _ _ _ _ Ha He'). cbn [snd].
    destruct (IH (S a) (Some e')) as (pre & post & ->); auto; try lia.
    { intros j Hj. apply Hpre. lia. }
    exists (AnalyzerClient.Request a :: AnalyzerClient.backoff maxRetries a e' ++ pre), post.
    simpl. f_equal. by rewrite app_assoc.
Qed.

End retry_loop_facts.

Lemma lost_connection_not_invalid (e : Err.t) :
  AnalyzerClient.lost_connection e = true →
  AnalyzerClient.is_code Err.INVALID_ARGUMENT e = false.
Proof.
  unfold AnalyzerClient.lost_connection, AnalyzerClient.is_code.
  destruct (Err.code e) as [c|]; [|done].
  unfold Err.UNAVAILABLE, Err.DEADLINE_EXCEEDED, Err.INVALID_ARGUMENT. lia.
Qed.

(** ** The rate limiter *)

Lemma checkBucket_connected (clock : Clock) (type identifier : string)
    (lim : Config.limit) (w : World.t) :
  World.redis_connected w = true →
  let now := Bucket.second clock (World.ticks w) in
  let key := RateLimiter.bucket_key type identifier
               (RateLimiter.windowStart now (Config.window lim)) in
  let b := Bucket.checked lim (World.redis w !! key) in
  RateLimiter._checkBucket clock type identifier lim w
  = (Ok (Bucket.verdict type lim now (World.count b)),
     RedisClient.set_redis (<[key := b]> (World.redis w)) (World.tick w)).
Proof.
  intros Hconn. cbv zeta. unfold Bucket.second.
  set (now := clock (World.ticks w) / 1000).
  set (key := RateLimiter.bucket_key type identifier
                (RateLimiter.windowStart now (Config.window lim))).
  unfold RateLimiter._checkBucket, mbind, World.M_bind, World.bind, Date_now,
    RedisClient.pipeline_incr_ttl, mret, World.M_ret, World.ret.
  cbn [World.redis_connected World.tick World.redis fst snd]. rewrite Hconn.
  fold now. fold key. cbn [fst snd].
  unfold Bucket.checked, Bucket.verdict.
  destruct (RedisClient.ttl_reply (RedisClient.incr_bucket (World.redis w !! key)) =? -1).
  - unfold RedisClient.expire.
    cbn [RedisClient.set_redis World.redis World.redis_connected World.tick].
    rewrite Hconn, lookup_insert_eq.
    cbn [World.count RedisClient.set_redis World.redis World.ticks World.redis_connected
         World.pg_pool World.audit_logs World.next_id World.queue World.processing].
    rewrite insert_insert_eq. reflexivity.
  - destruct (RedisClient.incr_bucket (World.redis w !! key)) as [c t]. reflexivity.
Qed.

(** The global bucket and the per-caller and per-key buckets never share a key. *)
Lemma global_key_not_ip (a b : string) (s s' : Z) :
  RateLimiter.bucket_key "ip" b s' ≠ RateLimiter.bucket_key "global" a s.
Proof. unfold RateLimiter.bucket_key. simpl. discriminate. Qed.

Lemma global_key_not_apikey (a b : string) (s s' : Z) :
  RateLimiter.bucket_key "apikey" b s' ≠ RateLimiter.bucket_key "global" a s.
Proof. unfold RateLimiter.bucket_key. simpl. discriminate. Qed.

Lemma checkBucket_disconnected (clock : Clock) (type identifier : string)
    (lim : Config.limit) (w : World.t) :
  World.redis_connected w = false →
  RateLimiter._checkBucket clock type identifier lim w
  = (Throw RedisClient.not_connected, World.tick w).
Proof.
  intros Hconn.
  unfold RateLimiter._checkBucket, mbind, World.M_bind, World.bind, Date_now,
    RedisClient.pipeline_incr_ttl.
  cbn [World.redis_connected World.tick]. rewrite Hconn. reflexivity.
Qed.

(** C7: when the global tier denies, [checkLimit] returns the global
    record at once; the record has [allowed=false], [limit=max],
    [remaining=0], [reset=windowStart+window], [retryAfter=reset-now];
    the clock was read once, and no per-caller and no per-key bucket
    changed (only the global key did). *)
Theorem C7_global_denial_short_circuits (cfg : Config.t) (clock : Clock)
    (ip : string) (apiKey : option string) (w w1 : World.t)
    (g : RateLimiter.decision) :
  let lim := Config.globalLimit cfg in
  let now := Bucket.second clock (World.ticks w) in
  let ws := RateLimiter.windowStart now (Config.window lim) in
  Config.rateLimiting cfg = true →
  RateLimiter._checkBucket clock "global" "all" lim w = (Ok g, w1) →
  RateLimiter.allowed g = false →
  RateLimiter.checkLimit cfg clock ip apiKey w = (Ok g, w1)
  ∧ g = RateLimiter.mk false (Some (Config.max lim)) (Some 0)
          (Some (ws + Config.window lim))
          (Some (ws + Config.window lim - now)) (Some "global")
  ∧ World.ticks w1 = S (World.ticks w)
  ∧ (∀ identifier s,
       World.redis w1 !! RateLimiter.bucket_key "ip" identifier s
       = World.redis w !! RateLimiter.bucket_key "ip" identifier s)
  ∧ (∀ identifier s,
       World.redis w1 !! RateLimiter.bucket_key "apikey" identifier s
       = World.redis w !! RateLimiter.bucket_key "apikey" identifier s)
  ∧ (∀ k, k ≠ RateLimiter.bucket_key "global" "all" ws →
          World.redis w1 !! k = World.redis w !! k).
Proof.
  intros lim now ws Hon Hglobal Hdenied.
  split.
  { unfold RateLimiter.checkLimit, World.try_catch, mbind, World.M_bind, World.bind.
    rewrite Hon. cbn [negb]. fold lim. rewrite Hglobal, Hdenied. reflexivity. }
  destruct (World.redis_connected w) eqn:Hconn;
    [|rewrite checkBucket_disconnected in Hglobal by exact Hconn; discriminate].
  rewrite (checkBucket_connected clock "global" "all" lim w Hconn) in Hglobal.
  cbv zeta in Hglobal. fold now ws in Hglobal.
  injection Hglobal as <- <-.
  unfold Bucket.verdict in *. cbn [RateLimiter.allowed] in Hdenied.
  fold ws. rewrite Hdenied.
  apply Z.leb_gt in Hdenied.
  split; [f_equal; f_equal; lia|].
  split; [reflexivity|].
  cbn [RedisClient.set_redis World.redis].
  split; [intros; apply lookup_insert_ne, not_eq_sym, global_key_not_ip|].
  split; [intros; apply lookup_insert_ne, not_eq_sym, global_key_not_apikey|].
  intros k Hk. by apply lookup_insert_ne.
Qed.

Lemma C7_global_denial_short_circuits_witness :
  fst (RateLimiter.checkLimit Samples.cfg Samples.clock "203.0.113.7" None
         Samples.saturated)
  = Ok (RateLimiter.mk false (Some 2) (Some 0) (Some 1700000040) (Some 40)
          (Some "global")).
Proof.
  pose proof (C7_global_denial_short_circuits Samples.cfg Samples.clock
                "203.0.113.7" None Samples.saturated
                (snd (RateLimiter._checkBucket Samples.clock "global" "all"
                        (Config.mkLimit 2 60) Samples.saturated))
                (RateLimiter.mk false (Some 2) (Some 0) (Some 1700000040) (Some 40)
                   (Some "global"))
                eq_refl) as H.
  cbv zeta in H.
  destruct H as (-> & _); [vm_compute; reflexivity | reflexivity | reflexivity].
Defined.

(** ** The analyzer client *)

(** An analyzer that is down is asked four times, with pauses of one,
    two and four seconds and a reconnect after each pause. *)
Example checkContent_outage :
  AnalyzerClient.checkContent 3 Samples.down
  = (AnalyzerClient.Thrown (Some (Err.grpc Err.UNAVAILABLE "down 3")),
     [AnalyzerClient.Request 0; AnalyzerClient.Sleep 1000; AnalyzerClient.Reconnect;
      AnalyzerClient.Request 1; AnalyzerClient.Sleep 2000; AnalyzerClient.Reconnect;
      AnalyzerClient.Request 2; AnalyzerClient.Sleep 4000; AnalyzerClient.Reconnect;
      AnalyzerClient.Request 3]).
Proof. vm_compute. reflexivity. Qed.

(** An invalid-argument answer to the second attempt ends the loop. *)
Example checkContent_invalid :
  AnalyzerClient.checkContent 3 Samples.picky
  = (AnalyzerClient.Thrown (Some (Err.grpc Err.INVALID_ARGUMENT "bad")),
     [AnalyzerClient.Request 0; AnalyzerClient.Sleep 1000; AnalyzerClient.Reconnect;
      AnalyzerClient.Request 1]).
Proof. vm_compute. reflexivity. Qed.

(** C6: with [maxRetries = N >= 0] (3 by default), [checkContent]
    issues at most [1 + N] requests; an invalid-argument rejection is
    thrown at once and is the last thing that happens; after a rejection
    of attempt [k < N] with unavailable or deadline-exceeded the client
    sleeps [1000 * 2^k] ms, reconnects and issues attempt [k + 1]; when
    all [1 + N] attempts are rejected the error of the last one is
    thrown. *)
Theorem C6_checkContent_retries (maxRetries : Z) (analyzer : nat → AnalyzerClient.outcome) :
  0 ≤ maxRetries →
  let run := AnalyzerClient.checkContent maxRetries analyzer in
  let N := Z.to_nat maxRetries in
  Config.maxRetries Config.defaults = 3
  ∧ Z.of_nat (Retry.attempts_made (snd run)) ≤ 1 + maxRetries
  ∧ (∀ k e, (k ≤ N)%nat →
       Retry.retriable_from analyzer 0 k →
       analyzer k = AnalyzerClient.Reject e →
       AnalyzerClient.is_code Err.INVALID_ARGUMENT e = true →
       fst run = AnalyzerClient.Thrown (Some e)
       ∧ Retry.attempts_made (snd run) = S k
       ∧ last (snd run) = Some (AnalyzerClient.Request k))
  ∧ (∀ k e, (k < N)%nat →
       Retry.retriable_from analyzer 0 k →
       analyzer k = AnalyzerClient.Reject e →
       AnalyzerClient.lost_connection e = true →
       ∃ pre post,
         snd run
         = pre ++ [AnalyzerClient.Request k;
                   AnalyzerClient.Sleep (1000 * 2 ^ Z.of_nat k);
                   AnalyzerClient.Reconnect;
                   AnalyzerClient.Request (S k)] ++ post)
  ∧ (∀ e, Retry.retriable_from analyzer 0 N →
       analyzer N = AnalyzerClient.Reject e →
       AnalyzerClient.is_code Err.INVALID_ARGUMENT e = false →
       fst run = AnalyzerClient.Thrown (Some e)
       ∧ Retry.attempts_made (snd run) = S N).
Proof.
  intros Hpos run N.
  assert (Hfuel : Z.to_nat (maxRetries + 1) = S N) by (subst N; lia).
  subst run. unfold AnalyzerClient.checkContent. rewrite Hfuel.
  split; [reflexivity|]. split.
  { pose proof (loop_attempts_bound maxRetries analyzer (S N) 0 None). lia. }
  split.
  { intros k e Hk Hpre Hrej Hinv.
    destruct (loop_invalid maxRetries analyzer (S N) 0 k None e) as (H1 & H2 & H3);
      auto; [lia|].
    rewrite Nat.sub_0_r in H2. auto. }
  split.
  { intros k e Hk Hpre Hrej Hlost.
    apply (loop_retry maxRetries analyzer (S N) 0 k None e); auto; try lia.
    by apply lost_connection_not_invalid. }
  intros e Hpre Hrej He.
  apply (loop_exhausted maxRetries analyzer N 0 None e); auto.
Qed.

Lemma C6_checkContent_retries_witness :
  0 ≤ 3
  ∧ fst (AnalyzerClient.checkContent 3 Samples.down)
    = AnalyzerClient.Thrown (Some (Err.grpc Err.UNAVAILABLE "down 3"))
  ∧ Retry.attempts_made (snd (AnalyzerClient.checkContent 3 Samples.down)) = 4%nat.
Proof.
  split; [lia|].
  refine (proj2 (proj2 (proj2 (proj2
            (C6_checkContent_retries 3 Samples.down _))))
            (Err.grpc Err.UNAVAILABLE "down 3") _ _ _).
  - lia.
  - intros j _. eexists. split; reflexivity.
  - reflexivity.
  - reflexivity.
Defined.

(** ** The chat route *)

Lemma substring0_length (n : nat) (s : string) :
  (String.length (JS.substring0 n s) ≤ n)%nat.
Proof.
  unfold JS.substring0. revert s.
  induction n as [|n IH]; intros [|c s]; simpl; try lia.
  specialize (IH s). lia.
Qed.

Lemma blocked_patch_lookup (a : AnalyzerClient.response) (ctx : gmap string JS.value) :
  let ctx' := JS.spread ctx (Routes.blocked_patch a) in
  JS.get ctx' "is_blocked" = JS.Bool true
  ∧ JS.get ctx' "block_reason" = JS.Str "CONTENT_POLICY_VIOLATION"
  ∧ JS.get ctx' "detected_issues_count"
    = JS.Num (inject_Z (Z.of_nat (length (AnalyzerClient.detected_issues a))))
  ∧ JS.get ctx' "security_confidence" = JS.Num (AnalyzerClient.confidence_score a).
Proof.
  unfold JS.spread, JS.get, Routes.blocked_patch.
  repeat split; erewrite lookup_union_Some_l; try reflexivity;
    by simplify_map_eq.
Qed.







(** ** Rate-limit denials and the audit trail *)

(** The rate-limit hook hands the request on as it received it: it
    never touches the audit context. *)
Lemma rateLimitHook_keeps_request (env : Env.t) (q q' : Http.request)
    (r r' : Http.reply) (w w' : World.t) :
  Plugins.rateLimitHook env q r w = (Ok (q', r'), w') → q' = q.
Proof.
  unfold Plugins.rateLimitHook.
  destruct (_ || _); [by intros [= <- _ _]|].
  unfold World.try_catch, mbind, World.M_bind, World.bind, mret, World.M_ret, World.ret,
    Date_now.
  destruct (RateLimiter.checkLimit _ _ _ _ w) as [[d|e] w1]; [|by intros [= <- _ _]].
  destruct (negb (RateLimiter.allowed d)); by intros [= <- _ _].
Qed.

(** Whatever the route, a denial by the rate limiter is answered by the
    hook itself with 429, and the request leaves the hooks with the
    audit context it came with: no later hook and no handler runs. *)
Lemma denied_request_keeps_audit_context (env : Env.t) (handler : Plugins.hook)
    (q : Http.request) (w w1 : World.t) (d : RateLimiter.decision) :
  Config.rateLimiting (Env.cfg env) = true →
  Http.url q ≠ "/health" → Http.url q ≠ "/ready" →
  RateLimiter.checkLimit (Env.cfg env) (Env.clock env) (Http.ip q)
    (Http.extractApiKey q) w = (Ok d, w1) →
  RateLimiter.allowed d = false →
  ∃ q' r',
    Server.answer env handler q w = (Ok (q', r'), World.tick w1)
    ∧ Http.statusCode r' = 429
    ∧ Http.sent r' = true
    ∧ Http.auditContext q' = Http.auditContext q
    ∧ Http.startTime q' = Http.startTime q.
Proof.
  intros Hon Hh Hr Hcheck Hdenied.
  apply String.eqb_neq in Hh, Hr.
  unfold Server.answer, Server.onRequestHooks. rewrite Hon.
  unfold mbind at 1, World.M_bind at 1, World.bind at 1.
  cbn [app Server.run_hooks].
  unfold mbind at 1, World.M_bind at 1, World.bind at 1.
  unfold Plugins.requestIdHook at 1. cbn [snd fst Http.sent Http.header Http.fresh_reply].
  unfold mbind at 1, World.M_bind at 1, World.bind at 1.
  unfold Plugins.rateLimitHook at 1.
  cbn [Http.url Http.with_id Http.ip]. rewrite Hh, Hr. cbn [orb].
  unfold World.try_catch at 1.
  unfold mbind at 1, World.M_bind at 1, World.bind at 1.
  change (Http.extractApiKey (Http.with_id ?i q)) with (Http.extractApiKey q).
  rewrite Hcheck, Hdenied. cbn [negb].
  unfold mbind, World.M_bind, World.bind, mret, World.M_ret, World.ret, Date_now.
  cbn [snd fst Http.sent Http.send].
  eexists _, _. split; [reflexivity|]. repeat split.
Qed.

(** C2, evaluated: a request that meets a full global bucket is
    answered 429 with the structured body and [Retry-After], but the
    audit entry queued for it has [is_blocked=false] and a null
    [block_reason]: the hook that would create the audit context never
    runs and the rate-limit hook sets no patch. *)
Theorem C2_rate_limited_entry_not_blocked :
  ∃ q r w e,
    Server.lifecycle Samples.env_async (Routes.models Samples.env_async)
      (Samples.get_models "198.51.100.3") Samples.saturated = (Ok (q, r), w)
    ∧ Http.statusCode r = 429
    ∧ Http.rheaders r !! "Retry-After" = Some (Http.HNum 40)
    ∧ Http.sent_body r
      = Some (Http.ErrorBody "RateLimitExceeded"
                "Too many requests. Please try again later."
                "generated-id" 1700000000001
                (Http.RateLimitDetails (Some 2) (Some 1700000040) (Some 40)))
    ∧ Http.auditContext q = None
    ∧ World.queue w = [e]
    ∧ Entry.response_status e = 429
    ∧ Entry.is_blocked e = JS.Bool false
    ∧ Entry.block_reason e = JS.Null.
Proof.
  eexists _, _, _, _. split; [vm_compute; reflexivity|].
  repeat split; vm_compute; reflexivity.
Qed.

(** ** Readiness *)

Lemma named_status_never_serving (s : AnalyzerClient.ServingStatus) :
  Routes.is_serving (AnalyzerClient.decode_status s) = false.
Proof. reflexivity. Qed.

(** Whatever the analyzer reports by name, the route answers 503. *)
Lemma ready_named_status_is_503 (env : Env.t) (s : AnalyzerClient.ServingStatus)
    (q : Http.request) (r : Http.reply) (w : World.t) :
  Env.analyzer_health env = Ok (AnalyzerClient.decode_status s) →
  ∃ q' r' w', Routes.ready env q r w = (Ok (q', r'), w')
              ∧ Http.statusCode r' = 503.
Proof.
  intros Hhealth. unfold Routes.ready. rewrite Hhealth.
  rewrite named_status_never_serving.
  unfold World.try_catch, RedisClient.healthCheck, mbind, World.M_bind, World.bind,
    Date_now, Routes.respond, mret, World.M_ret, World.ret.
  cbn [andb negb]. eexists _, _, _. split; reflexivity.
Qed.

(** The state of the PostgreSQL pool has no bearing on the answer. *)
Lemma ready_ignores_postgres (env : Env.t) (q : Http.request) (r : Http.reply)
    (w : World.t) (pool : bool) :
  fst (Routes.ready env q r
         (World.mk (World.ticks w) (World.redis_connected w) (World.redis w) pool
                   (World.audit_logs w) (World.next_id w) (World.queue w)
                   (World.processing w)))
  = fst (Routes.ready env q r w).
Proof.
  unfold Routes.ready, World.try_catch, RedisClient.healthCheck, mbind, World.M_bind,
    World.bind, Date_now, Routes.respond, mret, World.M_ret, World.ret.
  cbn [World.redis_connected World.ticks].
  destruct (negb _); reflexivity.
Qed.

(** The route of the skeleton phase answers 200 in every world. *)
Lemma ready_skeleton_is_200 (env : Env.t) (q : Http.request) (w : World.t) :
  ∃ q' r' w', Routes.ready_skeleton env q Http.fresh_reply w = (Ok (q', r'), w')
              ∧ Http.statusCode r' = 200.
Proof. eexists _, _, _. split; reflexivity. Qed.

(** C3, evaluated: with the analyzer serving (its status decoded as
    the client's loader delivers it), Redis answering and the pool up,
    [/ready] answers 503 and reports the analyzer as down; with a
    numeric status 1 and the PostgreSQL pool gone it answers 200 and
    reports [postgres=true]. *)
Theorem C3_ready_misreports :
  (∃ q r w,
     Routes.ready Samples.env Samples.get_ready Http.fresh_reply World.initial
     = (Ok (q, r), w)
     ∧ PgClient.healthCheck World.initial = (Ok true, World.initial)
     ∧ Http.statusCode r = 503
     ∧ Http.sent_body r
       = Some (Http.ReadyBody "not_ready" false true true 1700000000000
                 (Some "Service dependencies are not ready")))
  ∧ (∃ q r w,
       Routes.ready Samples.env_numeric Samples.get_ready Http.fresh_reply Samples.no_pool
       = (Ok (q, r), w)
       ∧ PgClient.healthCheck Samples.no_pool = (Ok false, Samples.no_pool)
       ∧ Http.statusCode r = 200
       ∧ Http.sent_body r
         = Some (Http.ReadyBody "ready" true true true 1700000000000 None)).
Proof.
  split; eexists _, _, _; (split; [vm_compute; reflexivity|]);
    repeat split; vm_compute; reflexivity.
Qed.

(** ** Statistics *)

(** Both items of the [FROM] list have a column [response_status]. *)
Lemma response_status_is_ambiguous :
  Stats.resolve (Stats.Bare "response_status") = Stats.Ambiguous
  ∧ Stats.unresolved = Some (Stats.Bare "response_status").
Proof. split; reflexivity. Qed.

(** The routine never returns a row. *)
Lemma get_audit_stats_refused (p_start p_end : Z) (table : list Sql.audit_log) :
  Stats.get_audit_stats p_start p_end table = None.
Proof. reflexivity. Qed.

(** C9, evaluated: the routine reads [response_status] in its outer
    query without naming the relation, both joined relations have a
    column of that name, and PostgreSQL refuses the statement.  Every
    call of [getAuditStats] therefore throws, whatever the range and the
    table: over the two sample rows, both in range, no count is
    returned. *)
Theorem C9_stats_are_refused (clock : Clock) (startTime endTime : option Z)
    (w : World.t) :
  (∃ e w', Stats.getAuditStats clock startTime endTime w = (Throw e, w'))
  ∧ length (filter (fun r => Stats.in_range 1700000000000 1700000000010 r = true)
              Samples.table) = 2%nat
  ∧ ∃ e w',
      Stats.getAuditStats Samples.clock (Some 1700000000000) (Some 1700000000010)
        Cases.audited = (Throw e, w').
Proof.
  split; [|split; [reflexivity | by eexists _, _]].
  unfold Stats.getAuditStats, mbind, World.M_bind, World.bind, Date_now,
    mret, World.M_ret, World.ret.
  destruct startTime, endTime; cbn [from_option]; cbn;
    destruct (World.pg_pool w); by eexists _, _.
Qed.

(** ** Three callers against a global limit of two *)

(** Audit logging works on the queue and the table only, and settles. *)
Lemma log_effects (cfg : Config.t) (clock : Clock) (q : Http.request)
    (r : Http.reply) (options : gmap string JS.value) (w : World.t) :
  ∃ w', AuditLogger.log cfg clock q r options w = (Ok tt, w')
        ∧ World.redis w' = World.redis w
        ∧ World.redis_connected w' = World.redis_connected w.
Proof.
  unfold AuditLogger.log, World.try_catch, mbind, World.M_bind, World.bind,
    Date_now, mret, World.M_ret, World.ret.
  destruct (Config.auditLogging cfg); cbn [negb]; [|eauto].
  destruct (Config.auditAsync cfg).
  - unfold AuditLogger._queueLog.
    destruct (AuditLogger.maxQueueSize <=? _)%nat; eauto.
  - unfold PgClient.insertAuditLog. cbn [World.pg_pool World.tick].
    destruct (World.pg_pool w); [|eauto].
    destruct (PgClient.store _ _); eauto.
Qed.

Lemma onResponse_effects (env : Env.t) (q : Http.request) (r : Http.reply) (w : World.t) :
  ∃ w', Server.onResponse env q r w = (Ok tt, w')
        ∧ World.redis w' = World.redis w
        ∧ World.redis_connected w' = World.redis_connected w.
Proof.
  unfold Server.onResponse, Plugins.auditResponseHook, World.try_catch.
  destruct (Config.auditLogging (Env.cfg env)); [|by eexists].
  destruct (String.eqb (Http.url q) "/health"); [by eexists|].
  destruct (log_effects (Env.cfg env) (Env.clock env) q r
              (default ∅ (Http.auditContext q)) w) as (w' & -> & ? & ?).
  eauto.
Qed.

Lemma addRateLimitHeaders_shape (r : Http.reply) (d : RateLimiter.decision) :
  Http.sent (Plugins.addRateLimitHeaders r d) = Http.sent r
  ∧ Http.statusCode (Plugins.addRateLimitHeaders r d) = Http.statusCode r
  ∧ Http.rheaders (Plugins.addRateLimitHeaders r d) !! "X-RateLimit-Remaining"
    = match RateLimiter.remaining d with
      | Some n => Some (Http.HNum n)
      | None => Http.rheaders r !! "X-RateLimit-Remaining"
      end
  ∧ Http.rheaders (Plugins.addRateLimitHeaders r d) !! "Retry-After"
    = Http.rheaders r !! "Retry-After".
Proof.
  unfold Plugins.addRateLimitHeaders.
  destruct (RateLimiter.limit d), (RateLimiter.remaining d), (RateLimiter.reset d);
    cbn [Http.header Http.sent Http.statusCode Http.rheaders];
    repeat split; by simplify_map_eq.
Qed.

Lemma addRetryAfter_shape (r : Http.reply) (d : RateLimiter.decision) :
  Http.sent (Plugins.addRetryAfter r d) = Http.sent r
  ∧ Http.rheaders (Plugins.addRetryAfter r d) !! "X-RateLimit-Remaining"
    = Http.rheaders r !! "X-RateLimit-Remaining"
  ∧ Http.rheaders (Plugins.addRetryAfter r d) !! "Retry-After"
    = match Plugins.nonzero (RateLimiter.retryAfter d) with
      | Some n => Some (Http.HNum n)
      | None => Http.rheaders r !! "Retry-After"
      end.
Proof.
  unfold Plugins.addRetryAfter, Plugins.nonzero.
  destruct (RateLimiter.retryAfter d) as [n|]; [|done].
  destruct (n =? 0); cbn [Http.header Http.sent Http.rheaders];
    repeat split; by simplify_map_eq.
Qed.

(** The hooks and the models route, up to the answer. *)
Lemma answer_models (env : Env.t) (q : Http.request) (w w1 : World.t)
    (d : RateLimiter.decision) :
  Config.rateLimiting (Env.cfg env) = true →
  Http.url q ≠ "/health" → Http.url q ≠ "/ready" →
  RateLimiter.checkLimit (Env.cfg env) (Env.clock env) (Http.ip q)
    (Http.extractApiKey q) w = (Ok d, w1) →
  ∃ q' r' w',
    Server.answer env (Routes.models env) q w = (Ok (q', r'), w')
    ∧ World.redis w' = World.redis w1
    ∧ World.redis_connected w' = World.redis_connected w1
    ∧ Http.statusCode r' = (if RateLimiter.allowed d then 200 else 429)
    ∧ Http.rheaders r' !! "X-RateLimit-Remaining"
      = Http.HNum <$> RateLimiter.remaining d
    ∧ (RateLimiter.allowed d = false →
       Http.rheaders r' !! "Retry-After"
       = Http.HNum <$> Plugins.nonzero (RateLimiter.retryAfter d)).
Proof.
  intros Hon Hh Hr Hcheck.
  apply String.eqb_neq in Hh, Hr.
  unfold Server.answer, Server.onRequestHooks. rewrite Hon.
  unfold mbind at 1, World.M_bind at 1, World.bind at 1.
  cbn [app Server.run_hooks].
  unfold mbind at 1, World.M_bind at 1, World.bind at 1.
  unfold Plugins.requestIdHook at 1. cbn [snd fst Http.sent Http.header Http.fresh_reply].
  unfold mbind at 1, World.M_bind at 1, World.bind at 1.
  unfold Plugins.rateLimitHook at 1.
  cbn [Http.url Http.with_id Http.ip]. rewrite Hh, Hr. cbn [orb].
  unfold World.try_catch at 1.
  unfold mbind at 1, World.M_bind at 1, World.bind at 1.
  change (Http.extractApiKey (Http.with_id ?i q)) with (Http.extractApiKey q).
  rewrite Hcheck.
  set (rid := default (Env.generator env (World.ticks w))
                (Http.truthy_header q "x-request-id")).
  set (r0 := Http.header "x-request-id" (Http.HStr rid) Http.fresh_reply).
  assert (Hsent0 : Http.sent r0 = false) by reflexivity.
  assert (Hstat0 : Http.statusCode r0 = 200) by reflexivity.
  assert (Hrem0 : Http.rheaders r0 !! "X-RateLimit-Remaining" = None)
    by (subst r0; unfold Http.header; cbn [Http.rheaders]; by simplify_map_eq).
  assert (Hra0 : Http.rheaders r0 !! "Retry-After" = None)
    by (subst r0; unfold Http.header; cbn [Http.rheaders]; by simplify_map_eq).
  clearbody r0.
  destruct (addRateLimitHeaders_shape r0 d) as (Hs1 & Hc1 & Hrem1 & Hra1).
  destruct (addRetryAfter_shape (Plugins.addRateLimitHeaders r0 d) d)
    as (Hs2 & Hrem2 & Hra2).
  rewrite Hsent0 in Hs1. rewrite Hstat0 in Hc1. rewrite Hrem0 in Hrem1.
  rewrite Hra0 in Hra1. rewrite Hrem1 in Hrem2. rewrite Hra1 in Hra2.
  destruct (RateLimiter.allowed d) eqn:Hallowed; cbn [negb].
  - (* admitted: the remaining hooks and the route *)
    unfold mret at 1, World.M_ret at 1, World.ret at 1. cbn [snd fst].
    rewrite Hs1.
    destruct (Config.auditLogging (Env.cfg env)); cbn [app Server.run_hooks];
      unfold Plugins.auditInitHook, Plugins.timingHook, Routes.models, Routes.respond,
        World.try_catch, mbind, World.M_bind, World.bind, mret, World.M_ret, World.ret,
        Date_now;
      cbn [snd fst]; repeat (rewrite Hs1; cbn [snd fst]);
      (eexists _, _, _; split; [reflexivity|]);
      cbn [World.redis World.redis_connected World.tick Http.send Http.statusCode
           Http.rheaders];
      rewrite Hc1, Hrem1;
      repeat split; try done; by destruct (RateLimiter.remaining d).
  - (* denied: the hook answers *)
    unfold mbind, World.M_bind, World.bind, mret, World.M_ret, World.ret, Date_now.
    cbn [snd fst Http.sent Http.send].
    eexists _, _, _. split; [reflexivity|].
    cbn [World.redis World.redis_connected World.tick Http.send Http.status
         Http.statusCode Http.rheaders].
    rewrite Hrem2, Hra2.
    repeat split; try done.
    all: try (by destruct (RateLimiter.remaining d)).
    all: intros _; by destruct (Plugins.nonzero (RateLimiter.retryAfter d)).
Qed.

(** A request to the models route: the rate limiter decides between
    the route's 200 and a 429, and its decision fills the headers. *)
Lemma serve_models (env : Env.t) (q : Http.request) (w w1 : World.t)
    (d : RateLimiter.decision) :
  Config.rateLimiting (Env.cfg env) = true →
  Http.url q ≠ "/health" → Http.url q ≠ "/ready" →
  RateLimiter.checkLimit (Env.cfg env) (Env.clock env) (Http.ip q)
    (Http.extractApiKey q) w = (Ok d, w1) →
  ∃ q' r' w',
    Server.lifecycle env (Routes.models env) q w = (Ok (q', r'), w')
    ∧ World.redis w' = World.redis w1
    ∧ World.redis_connected w' = World.redis_connected w1
    ∧ Http.statusCode r' = (if RateLimiter.allowed d then 200 else 429)
    ∧ Http.rheaders r' !! "X-RateLimit-Remaining"
      = Http.HNum <$> RateLimiter.remaining d
    ∧ (RateLimiter.allowed d = false →
       Http.rheaders r' !! "Retry-After"
       = Http.HNum <$> Plugins.nonzero (RateLimiter.retryAfter d)).
Proof.
  intros Hon Hh Hr Hcheck.
  destruct (answer_models env q w w1 d Hon Hh Hr Hcheck)
    as (q' & r' & w' & Hanswer & Hredis & Hconn & Hfacts).
  destruct (onResponse_effects env q' r' w') as (w'' & Hresp & Hredis' & Hconn').
  exists q', r', w''.
  split.
  { unfold Server.lifecycle, World.try_catch,
      mbind, World.M_bind, World.bind, mret, World.M_ret, World.ret.
    rewrite Hanswer. cbn [fst snd]. rewrite Hresp. reflexivity. }
  rewrite Hredis', Hconn'. auto.
Qed.

Lemma string_length_app (s t : string) :
  String.length (s +:+ t) = (String.length s + String.length t)%nat.
Proof.
  induction s as [|c s IH]; [reflexivity|].
  change (S (String.length (s +:+ t)) = S (String.length s + String.length t)).
  by rewrite IH.
Qed.

Lemma string_app_inv_tail (s1 s2 t : string) : s1 +:+ t = s2 +:+ t → s1 = s2.
Proof.
  revert s2. induction s1 as [|c s1 IH]; intros [|c2 s2] H.
  - reflexivity.
  - apply (f_equal String.length) in H.
    change (String.length t = S (String.length (s2 +:+ t))) in H.
    rewrite string_length_app in H. lia.
  - apply (f_equal String.length) in H.
    change (S (String.length (s1 +:+ t)) = String.length t) in H.
    rewrite string_length_app in H. lia.
  - change (String c (s1 +:+ t) = String c2 (s2 +:+ t)) in H.
    injection H as -> H. f_equal. by apply IH.
Qed.

(** Two callers never share a per-caller bucket of one window. *)
Lemma ip_keys_distinct (ip1 ip2 : string) (s : Z) :
  ip1 ≠ ip2 → RateLimiter.bucket_key "ip" ip1 s ≠ RateLimiter.bucket_key "ip" ip2 s.
Proof.
  intros Hne H. apply Hne. unfold RateLimiter.bucket_key in H.
  change ("rate_limit:ip:" +:+ (ip1 +:+ (":" +:+ pretty s))
          = "rate_limit:ip:" +:+ (ip2 +:+ (":" +:+ pretty s))) in H.
  apply (inj (String.app "rate_limit:ip:")) in H.
  by apply string_app_inv_tail in H.
Qed.

(** [checkLimit] for a caller that presents no key, on a connected
    store: the global bucket is checked, then the caller's. *)
Lemma checkLimit_no_key (cfg : Config.t) (clock : Clock) (ip : string)
    (apiKey : option string) (w : World.t) :
  Config.rateLimiting cfg = true →
  World.redis_connected w = true →
  RateLimiter.presented apiKey = None →
  let glim := Config.globalLimit cfg in
  let ilim := Config.ipLimit cfg in
  let t0 := Bucket.second clock (World.ticks w) in
  let t1 := Bucket.second clock (S (World.ticks w)) in
  let gkey := RateLimiter.bucket_key "global" "all"
                (RateLimiter.windowStart t0 (Config.window glim)) in
  let ikey := RateLimiter.bucket_key "ip" ip
                (RateLimiter.windowStart t1 (Config.window ilim)) in
  let gb := Bucket.checked glim (World.redis w !! gkey) in
  let redis1 := <[gkey := gb]> (World.redis w) in
  let ib := Bucket.checked ilim (redis1 !! ikey) in
  RateLimiter.checkLimit cfg clock ip apiKey w
  = if World.count gb <=? Config.max glim then
      (Ok (Bucket.verdict "ip" ilim t1 (World.count ib)),
       RedisClient.set_redis (<[ikey := ib]> redis1) (World.tick (World.tick w)))
    else
      (Ok (Bucket.verdict "global" glim t0 (World.count gb)),
       RedisClient.set_redis redis1 (World.tick w)).
Proof.
  intros Hon Hconn Hkey. cbv zeta.
  unfold RateLimiter.checkLimit, World.try_catch. rewrite Hon. cbn [negb].
  unfold mbind at 1, World.M_bind at 1, World.bind at 1.
  rewrite (checkBucket_connected clock "global" "all" _ w Hconn). cbv zeta.
  cbn [RateLimiter.allowed Bucket.verdict].
  destruct (World.count _ <=? Config.max (Config.globalLimit cfg)); cbn [negb];
    [|reflexivity].
  unfold mbind at 1, World.M_bind at 1, World.bind at 1.
  rewrite checkBucket_connected by exact Hconn. cbv zeta.
  cbn [RedisClient.set_redis World.tick World.ticks World.redis].
  rewrite Hkey.
  match goal with |- context [negb ?b] => destruct b end; reflexivity.
Qed.

(** The scenario of C8: global tier 2 per 60 s, a per-caller tier of
    [m] per [W] seconds, all clock reads in one global and one
    per-caller window, callers without a key. *)
Section three_callers.
Variable env : Env.t.
Variables m W gw iw : Z.
Hypothesis Hon : Config.rateLimiting (Env.cfg env) = true.
Hypothesis Hglobal : Config.globalLimit (Env.cfg env) = Config.mkLimit 2 60.
Hypothesis Hip : Config.ipLimit (Env.cfg env) = Config.mkLimit m W.
Hypothesis Hclock : ∀ n, 0 ≤ Env.clock env n.
Hypothesis Hgw : ∀ n, RateLimiter.windowStart (Bucket.second (Env.clock env) n) 60 = gw.
Hypothesis Hiw : ∀ n, RateLimiter.windowStart (Bucket.second (Env.clock env) n) W = iw.

Local Abbreviation gkey := (RateLimiter.bucket_key "global" "all" gw).
Local Abbreviation ikey q := (RateLimiter.bucket_key "ip" (Http.ip q) iw).

Lemma retry_after_bounds (n : nat) :
  1 ≤ gw + 60 - Bucket.second (Env.clock env) n ≤ 60.
Proof.
  rewrite <- (Hgw n). unfold RateLimiter.windowStart, Bucket.second.
  pose proof (Hclock n).
  assert (0 ≤ Env.clock env n / 1000) by (apply Z.div_pos; lia).
  pose proof (Z.rem_bound_pos (Env.clock env n / 1000) 60). lia.
Qed.

Lemma models_step (q : Http.request) (w : World.t) :
  Http.url q ≠ "/health" → Http.url q ≠ "/ready" →
  Http.extractApiKey q = None →
  World.redis_connected w = true →
  let gb := Bucket.checked (Config.mkLimit 2 60) (World.redis w !! gkey) in
  let ib := Bucket.checked (Config.mkLimit m W) (World.redis w !! ikey q) in
  ∃ q' r' w',
    Server.lifecycle env (Routes.models env) q w = (Ok (q', r'), w')
    ∧ World.redis_connected w' = true
    ∧ if World.count gb <=? 2 then
        World.redis w' = <[ikey q := ib]> (<[gkey := gb]> (World.redis w))
        ∧ Http.statusCode r' = (if World.count ib <=? m then 200 else 429)
        ∧ Http.rheaders r' !! "X-RateLimit-Remaining"
          = Some (Http.HNum (Z.max 0 (m - World.count ib)))
      else
        World.redis w' = <[gkey := gb]> (World.redis w)
        ∧ Http.statusCode r' = 429
        ∧ Http.rheaders r' !! "X-RateLimit-Remaining"
          = Some (Http.HNum (Z.max 0 (2 - World.count gb)))
        ∧ ∃ ra, Http.rheaders r' !! "Retry-After" = Some (Http.HNum ra)
                ∧ 1 ≤ ra ≤ 60.
Proof.
  intros Hh Hr Hkey Hconn gb ib.
  pose proof (checkLimit_no_key (Env.cfg env) (Env.clock env) (Http.ip q)
                (Http.extractApiKey q) w Hon Hconn) as Hcheck.
  assert (Hp : RateLimiter.presented (Http.extractApiKey q) = None)
    by (by rewrite Hkey).
  specialize (Hcheck Hp). cbv zeta in Hcheck.
  rewrite Hglobal, Hip in Hcheck. cbn [Config.window Config.max] in Hcheck.
  rewrite !Hgw, !Hiw in Hcheck.
  rewrite (lookup_insert_ne _ gkey (ikey q)) in Hcheck
    by (apply not_eq_sym, global_key_not_ip).
  fold gb ib in Hcheck.
  destruct (World.count gb <=? 2) eqn:Hg.
  - destruct (serve_models env q w _ _ Hon Hh Hr Hcheck)
      as (q' & r' & w' & Hrun & Hredis & Hconn' & Hstatus & Hrem & _).
    exists q', r', w'. split; [exact Hrun|]. split; [by rewrite Hconn'|].
    split; [exact Hredis|]. split; [exact Hstatus | exact Hrem].
  - destruct (serve_models env q w _ _ Hon Hh Hr Hcheck)
      as (q' & r' & w' & Hrun & Hredis & Hconn' & Hstatus & Hrem & Hra).
    exists q', r', w'. split; [exact Hrun|]. split; [by rewrite Hconn'|].
    split; [exact Hredis|].
    cbn [Bucket.verdict RateLimiter.allowed RateLimiter.remaining
         RateLimiter.retryAfter Config.max Config.window] in Hstatus, Hrem, Hra.
    rewrite Hg in Hstatus, Hra. rewrite Hgw in Hra.
    split; [exact Hstatus|]. split; [exact Hrem|].
    pose proof (retry_after_bounds (World.ticks w)) as Hb.
    eexists. split; [|exact Hb].
    rewrite (Hra eq_refl). unfold Plugins.nonzero.
    destruct (Z.eqb_spec (gw + 60 - Bucket.second (Env.clock env) (World.ticks w)) 0);
      [lia | reflexivity].
Qed.

End three_callers.

(** C8, as stated, fails: with the global tier at 2 per 60 s and the
    per-caller tier at its default of 100 per hour, the three replies
    carry [X-RateLimit-Remaining] 99, 99, 0 and not 1, 0, 0: an admitted
    request reports the caller's own bucket. *)
Lemma C8_remaining_is_per_caller :
  ∃ rs w,
    Server.serve Samples.env (Routes.models Samples.env) Samples.callers World.initial
    = (Ok rs, w)
    ∧ map Http.statusCode rs = [200; 200; 429]
    ∧ map (fun r => Http.rheaders r !! "X-RateLimit-Remaining") rs
      = [Some (Http.HNum 99); Some (Http.HNum 99); Some (Http.HNum 0)]
    ∧ map (fun r => Http.rheaders r !! "X-RateLimit-Remaining") rs
      ≠ [Some (Http.HNum 1); Some (Http.HNum 0); Some (Http.HNum 0)].
Proof.
  eexists _, _. split; [vm_compute; reflexivity|].
  split; [vm_compute; reflexivity|].
  split; [vm_compute; reflexivity|].
  vm_compute. discriminate.
Qed.

(** C8, amended: with the global tier at 2 per 60 s, a per-caller tier
    of [m >= 1] requests, an empty store and all clock reads in one
    window, three consecutive requests to the models route from three
    distinct callers without a key are answered 200, 200, 429; the
    [X-RateLimit-Remaining] headers are [m - 1], [m - 1], 0 (the first
    two report the caller's own bucket, the third the exhausted global
    one); the third reply carries a [Retry-After] between 1 and 60. *)
Theorem C8_three_callers (env : Env.t) (q1 q2 q3 : Http.request) (w : World.t)
    (m W gw iw : Z) :
  Config.rateLimiting (Env.cfg env) = true →
  Config.globalLimit (Env.cfg env) = Config.mkLimit 2 60 →
  Config.ipLimit (Env.cfg env) = Config.mkLimit m W →
  1 ≤ m →
  (∀ n, 0 ≤ Env.clock env n) →
  (∀ n, RateLimiter.windowStart (Bucket.second (Env.clock env) n) 60 = gw) →
  (∀ n, RateLimiter.windowStart (Bucket.second (Env.clock env) n) W = iw) →
  World.redis w = ∅ →
  World.redis_connected w = true →
  Forall (fun q => Http.url q ≠ "/health" ∧ Http.url q ≠ "/ready"
                   ∧ Http.extractApiKey q = None) [q1; q2; q3] →
  Http.ip q1 ≠ Http.ip q2 → Http.ip q1 ≠ Http.ip q3 → Http.ip q2 ≠ Http.ip q3 →
  ∃ r1 r2 r3 w',
    Server.serve env (Routes.models env) [q1; q2; q3] w = (Ok [r1; r2; r3], w')
    ∧ map Http.statusCode [r1; r2; r3] = [200; 200; 429]
    ∧ map (fun r => Http.rheaders r !! "X-RateLimit-Remaining") [r1; r2; r3]
      = [Some (Http.HNum (m - 1)); Some (Http.HNum (m - 1)); Some (Http.HNum 0)]
    ∧ ∃ ra, Http.rheaders r3 !! "Retry-After" = Some (Http.HNum ra) ∧ 1 ≤ ra ≤ 60.
Proof.
  intros Hon Hglobal Hip Hm Hclock Hgw Hiw Hempty Hconn Hqs H12 H13 H23.
  apply Forall_cons in Hqs as [(Hh1 & Hr1 & Hk1) Hqs].
  apply Forall_cons in Hqs as [(Hh2 & Hr2 & Hk2) Hqs].
  apply Forall_cons in Hqs as [(Hh3 & Hr3 & Hk3) _].
  pose proof (models_step env m W gw iw Hon Hglobal Hip Hclock Hgw Hiw) as Hstep.
  assert (Hm1 : (1 <=? m) = true) by (apply Z.leb_le; lia).
  (* first caller: both buckets are new *)
  destruct (Hstep q1 w Hh1 Hr1 Hk1 Hconn) as (q1' & r1 & w1 & Hrun1 & Hconn1 & Hfacts1).
  rewrite Hempty, !lookup_empty in Hfacts1.
  cbn [Bucket.checked RedisClient.incr_bucket World.count RedisClient.ttl_reply World.ttl
       default Config.window Z.eqb Z.leb Z.compare Pos.compare Pos.compare_cont Pos.eqb]
    in Hfacts1.
  rewrite Hm1 in Hfacts1. destruct Hfacts1 as (Hredis1 & Hstatus1 & Hrem1).
  (* second caller: the global bucket holds one request *)
  destruct (Hstep q2 w1 Hh2 Hr2 Hk2 Hconn1) as (q2' & r2 & w2 & Hrun2 & Hconn2 & Hfacts2).
  rewrite Hredis1 in Hfacts2.
  rewrite (lookup_insert_ne _ _ (RateLimiter.bucket_key "global" "all" gw)) in Hfacts2
    by apply global_key_not_ip.
  rewrite lookup_insert_eq in Hfacts2.
  rewrite !lookup_insert_ne, lookup_empty in Hfacts2
    by first [by apply ip_keys_distinct | apply not_eq_sym, global_key_not_ip].
  cbn [Bucket.checked RedisClient.incr_bucket World.count RedisClient.ttl_reply World.ttl
       default Config.window Z.eqb Z.leb Z.compare Pos.compare Pos.compare_cont Pos.eqb
       Z.add Pos.add Pos.succ]
    in Hfacts2.
  rewrite Hm1 in Hfacts2. destruct Hfacts2 as (Hredis2 & Hstatus2 & Hrem2).
  (* third caller: the global bucket is full *)
  destruct (Hstep q3 w2 Hh3 Hr3 Hk3 Hconn2) as (q3' & r3 & w3 & Hrun3 & Hconn3 & Hfacts3).
  rewrite Hredis2 in Hfacts3.
  rewrite (lookup_insert_ne _ _ (RateLimiter.bucket_key "global" "all" gw)) in Hfacts3
    by apply global_key_not_ip.
  rewrite lookup_insert_eq in Hfacts3.
  cbn [Bucket.checked RedisClient.incr_bucket World.count RedisClient.ttl_reply World.ttl
       default Config.window Z.eqb Z.leb Z.compare Pos.compare Pos.compare_cont Pos.eqb
       Z.add Pos.add Pos.succ]
    in Hfacts3.
  destruct Hfacts3 as (Hredis3 & Hstatus3 & Hrem3 & ra & Hra & Hbounds).
  exists r1, r2, r3, w3. split.
  { unfold Server.serve, mbind, World.M_bind, World.bind, mret, World.M_ret, World.ret.
    rewrite Hrun1, Hrun2, Hrun3. reflexivity. }
  cbn [map]. rewrite Hstatus1, Hstatus2, Hstatus3, Hrem1, Hrem2, Hrem3.
  split; [reflexivity|]. split; [|eauto].
  repeat f_equal; lia.
Qed.

Lemma C8_three_callers_witness :
  ∃ r1 r2 r3 w',
    Server.serve Samples.env_frozen (Routes.models Samples.env_frozen)
      Samples.callers World.initial = (Ok [r1; r2; r3], w')
    ∧ map Http.statusCode [r1; r2; r3] = [200; 200; 429]
    ∧ map (fun r => Http.rheaders r !! "X-RateLimit-Remaining") [r1; r2; r3]
      = [Some (Http.HNum 99); Some (Http.HNum 99); Some (Http.HNum 0)].
Proof.
  destruct (C8_three_callers Samples.env_frozen
              (Samples.get_models "198.51.100.1") (Samples.get_models "198.51.100.2")
              (Samples.get_models "198.51.100.3") World.initial
              100 3600 1699999980 1699999200)
    as (r1 & r2 & r3 & w' & Hrun & Hstatus & Hrem & _).
  - reflexivity.
  - reflexivity.
  - reflexivity.
  - lia.
  - intros n. cbn. lia.
  - intros n. vm_compute. reflexivity.
  - intros n. vm_compute. reflexivity.
  - reflexivity.
  - reflexivity.
  - repeat constructor; try discriminate; vm_compute; reflexivity.
  - discriminate.
  - discriminate.
  - discriminate.
  - exists r1, r2, r3, w'. auto.
Defined.

(** ** Buckets: counting, expiry, windows *)

Lemma checked_count (lim : Config.limit) (b : option World.bucket) :
  World.count (Bucket.checked lim b) = from_option World.count 0 b + 1.
Proof. destruct b as [[c t]|]; reflexivity. Qed.

Lemma checked_ttl_new (lim : Config.limit) :
  World.ttl (Bucket.checked lim None) = Some (Config.window lim).
Proof. reflexivity. Qed.

Lemma checked_ttl_kept (lim : Config.limit) (b : World.bucket) (t : Z) :
  World.ttl b = Some t → 0 < t → World.ttl (Bucket.checked lim (Some b)) = Some t.
Proof.
  destruct b as [c o]. cbn. intros -> Ht. unfold Bucket.checked. cbn.
  destruct (Z.eqb_spec t (-1)); [lia | reflexivity].
Qed.

Lemma checked_expires (lim : Config.limit) (b : option World.bucket) :
  0 < Config.window lim →
  (∀ b0, b = Some b0 → ∃ t, World.ttl b0 = Some t ∧ 0 < t) →
  ∃ t, World.ttl (Bucket.checked lim b) = Some t ∧ 0 < t.
Proof.
  intros Hw Hb. destruct b as [b0|].
  - destruct (Hb b0 eq_refl) as (t & Ht & Hpos).
    exists t. split; [by apply checked_ttl_kept | exact Hpos].
  - exists (Config.window lim). split; [reflexivity | exact Hw].
Qed.

(** One check, whatever the state of the connection. *)
Lemma checkBucket_cases (clock : Clock) (type identifier : string)
    (lim : Config.limit) (w : World.t) :
  let now := Bucket.second clock (World.ticks w) in
  let key := RateLimiter.bucket_key type identifier
               (RateLimiter.windowStart now (Config.window lim)) in
  let b := Bucket.checked lim (World.redis w !! key) in
  RateLimiter._checkBucket clock type identifier lim w
  = if World.redis_connected w then
      (Ok (Bucket.verdict type lim now (World.count b)),
       RedisClient.set_redis (<[key := b]> (World.redis w)) (World.tick w))
    else (Throw RedisClient.not_connected, World.tick w).
Proof.
  cbv zeta. destruct (World.redis_connected w) eqn:Hconn.
  - by apply checkBucket_connected.
  - by apply checkBucket_disconnected.
Qed.

Lemma apikey_key_not_ip (a b : string) (s s' : Z) :
  RateLimiter.bucket_key "apikey" a s ≠ RateLimiter.bucket_key "ip" b s'.
Proof. unfold RateLimiter.bucket_key. simpl. discriminate. Qed.

(** [checkLimit] for a caller that presents a key, on a connected
    store: the three buckets are checked in turn. *)
Lemma checkLimit_with_key (cfg : Config.t) (clock : Clock) (ip k : string)
    (apiKey : option string) (w : World.t) :
  Config.rateLimiting cfg = true →
  World.redis_connected w = true →
  RateLimiter.presented apiKey = Some k →
  let glim := Config.globalLimit cfg in
  let ilim := Config.ipLimit cfg in
  let klim := Config.apiKeyLimit cfg in
  let t0 := Bucket.second clock (World.ticks w) in
  let t1 := Bucket.second clock (S (World.ticks w)) in
  let t2 := Bucket.second clock (S (S (World.ticks w))) in
  let gkey := RateLimiter.bucket_key "global" "all"
                (RateLimiter.windowStart t0 (Config.window glim)) in
  let ikey := RateLimiter.bucket_key "ip" ip
                (RateLimiter.windowStart t1 (Config.window ilim)) in
  let kkey := RateLimiter.bucket_key "apikey" k
                (RateLimiter.windowStart t2 (Config.window klim)) in
  let gb := Bucket.checked glim (World.redis w !! gkey) in
  let redis1 := <[gkey := gb]> (World.redis w) in
  let ib := Bucket.checked ilim (redis1 !! ikey) in
  let redis2 := <[ikey := ib]> redis1 in
  let kb := Bucket.checked klim (redis2 !! kkey) in
  RateLimiter.checkLimit cfg clock ip apiKey w
  = if World.count gb <=? Config.max glim then
      if World.count ib <=? Config.max ilim then
        (Ok (Bucket.verdict "apikey" klim t2 (World.count kb)),
         RedisClient.set_redis (<[kkey := kb]> redis2)
           (World.tick (World.tick (World.tick w))))
      else
        (Ok (Bucket.verdict "ip" ilim t1 (World.count ib)),
         RedisClient.set_redis redis2 (World.tick (World.tick w)))
    else
      (Ok (Bucket.verdict "global" glim t0 (World.count gb)),
       RedisClient.set_redis redis1 (World.tick w)).
Proof.
  intros Hon Hconn Hkey. cbv zeta.
  unfold RateLimiter.checkLimit, World.try_catch. rewrite Hon. cbn [negb].
  unfold mbind at 1, World.M_bind at 1, World.bind at 1.
  rewrite (checkBucket_connected clock "global" "all" _ w Hconn). cbv zeta.
  cbn [RateLimiter.allowed Bucket.verdict].
  destruct (World.count _ <=? Config.max (Config.globalLimit cfg)); cbn [negb];
    [|reflexivity].
  unfold mbind at 1, World.M_bind at 1, World.bind at 1.
  rewrite checkBucket_connected by exact Hconn. cbv zeta.
  cbn [RedisClient.set_redis World.tick World.ticks World.redis].
  rewrite Hkey.
  cbn [RateLimiter.allowed Bucket.verdict].
  match goal with |- context [negb (?c <=? ?m)] => destruct (c <=? m) end;
    cbn [negb]; [|reflexivity].
  rewrite checkBucket_connected by exact Hconn. cbv zeta.
  cbn [RedisClient.set_redis World.tick World.ticks World.redis].
  reflexivity.
Qed.

Lemma checkLimit_disabled (cfg : Config.t) (clock : Clock) (ip : string)
    (apiKey : option string) (w : World.t) :
  Config.rateLimiting cfg = false →
  RateLimiter.checkLimit cfg clock ip apiKey w = (Ok RateLimiter.unlimited, w).
Proof. intros Hoff. unfold RateLimiter.checkLimit. by rewrite Hoff. Qed.

Lemma checkLimit_disconnected (cfg : Config.t) (clock : Clock) (ip : string)
    (apiKey : option string) (w : World.t) :
  Config.rateLimiting cfg = true →
  World.redis_connected w = false →
  RateLimiter.checkLimit cfg clock ip apiKey w
  = (Ok RateLimiter.unlimited, World.tick w).
Proof.
  intros Hon Hconn. unfold RateLimiter.checkLimit, World.try_catch. rewrite Hon.
  cbn [negb]. unfold mbind at 1, World.M_bind at 1, World.bind at 1.
  by rewrite checkBucket_disconnected.
Qed.

(** Case analysis on a run of [checkLimit]. *)
Ltac limiter_cases cfg clock ip apiKey w :=
  let Hon := fresh "Hon" in
  let Hconn := fresh "Hconn" in
  let Hp := fresh "Hp" in
  let k := fresh "k" in
  destruct (Config.rateLimiting cfg) eqn:Hon;
    [ destruct (World.redis_connected w) eqn:Hconn;
      [ destruct (RateLimiter.presented apiKey) as [k|] eqn:Hp;
        [ rewrite (checkLimit_with_key cfg clock ip k apiKey w Hon Hconn Hp)
        | rewrite (checkLimit_no_key cfg clock ip apiKey w Hon Hconn Hp) ];
        cbv zeta;
        repeat match goal with
               | |- context [if ?c <=? ?m then _ else _] => destruct (c <=? m) eqn:?
               end
      | rewrite (checkLimit_disconnected cfg clock ip apiKey w Hon Hconn) ]
    | rewrite (checkLimit_disabled cfg clock ip apiKey w Hon) ].

Lemma insert_checked_expire (m : gmap string World.bucket) (key : string)
    (lim : Config.limit) :
  0 < Config.window lim →
  Frame.all_expire m →
  Frame.all_expire (<[key := Bucket.checked lim (m !! key)]> m).
Proof.
  intros Hw Hm. apply map_Forall_insert_2; [|exact Hm].
  apply checked_expires; [exact Hw|]. intros b0 Hb0. exact (Hm key b0 Hb0).
Qed.

Lemma insert_checked_keeps_ttl (m : gmap string World.bucket) (key : string)
    (lim : Config.limit) (k : string) (b : World.bucket) (t : Z) :
  m !! k = Some b → World.ttl b = Some t → 0 < t →
  ∃ b', <[key := Bucket.checked lim (m !! key)]> m !! k = Some b'
        ∧ World.ttl b' = Some t.
Proof.
  intros Hk Ht Hpos. destruct (decide (key = k)) as [->|Hne].
  - rewrite lookup_insert_eq, Hk. eexists. split; [reflexivity|].
    by apply checked_ttl_kept.
  - rewrite lookup_insert_ne by exact Hne. eauto.
Qed.

Ltac keep_ttl :=
  lazymatch goal with
  | |- ∃ b', <[?key := Bucket.checked ?lim (?m !! ?key)]> ?m !! ?k = Some b'
             ∧ World.ttl b' = Some ?t =>
      let b1 := fresh "b" in
      let H1 := fresh in
      let H2 := fresh in
      assert (∃ b1, m !! k = Some b1 ∧ World.ttl b1 = Some t) as (b1 & H1 & H2);
      [ keep_ttl
      | exact (insert_checked_keeps_ttl m key lim k b1 t H1 H2 ltac:(assumption)) ]
  | |- _ => eauto
  end.

(** X1: a check never leaves a bucket without an expiry.  When the
    three windows are positive and every key of the store has a positive
    time to live, the same holds after [checkLimit], and the time to
    live of a key that was there before is not renewed. *)
Theorem buckets_always_expire (cfg : Config.t) (clock : Clock) (ip : string)
    (apiKey : option string) (w : World.t) :
  0 < Config.window (Config.globalLimit cfg) →
  0 < Config.window (Config.ipLimit cfg) →
  0 < Config.window (Config.apiKeyLimit cfg) →
  Frame.all_expire (World.redis w) →
  let w1 := snd (RateLimiter.checkLimit cfg clock ip apiKey w) in
  Frame.all_expire (World.redis w1)
  ∧ ∀ k b t, World.redis w !! k = Some b → World.ttl b = Some t →
             ∃ b', World.redis w1 !! k = Some b' ∧ World.ttl b' = Some t.
Proof.
  intros Hg Hi Hk Hall. cbv zeta.
  assert (Hpos : ∀ k b t, World.redis w !! k = Some b → World.ttl b = Some t → 0 < t).
  { intros k b t Hb Ht. destruct (Hall k b Hb) as (t' & Ht' & Hpos). congruence. }
  limiter_cases cfg clock ip apiKey w; cbn [snd RedisClient.set_redis World.redis World.tick];
    (split; [ repeat apply insert_checked_expire; assumption |]);
    intros k0 b t Hb Ht; pose proof (Hpos _ _ _ Hb Ht) as Ht0; keep_ttl.
Qed.

(** X2: with the limiter on and Redis connected, every call of
    [checkLimit] adds one to the global bucket of the current window,
    whatever it decides: a request that is turned away still spends
    global budget. *)
Theorem every_check_spends_global_budget (cfg : Config.t) (clock : Clock) (ip : string)
    (apiKey : option string) (w : World.t) :
  Config.rateLimiting cfg = true →
  World.redis_connected w = true →
  let gkey := RateLimiter.bucket_key "global" "all"
                (RateLimiter.windowStart (Bucket.second clock (World.ticks w))
                   (Config.window (Config.globalLimit cfg))) in
  ∃ d w1,
    RateLimiter.checkLimit cfg clock ip apiKey w = (Ok d, w1)
    ∧ World.count <$> World.redis w1 !! gkey
      = Some (from_option World.count 0 (World.redis w !! gkey) + 1).
Proof.
  intros Hon0 Hconn0. cbv zeta.
  limiter_cases cfg clock ip apiKey w; try discriminate;
    (eexists _, _; split; [reflexivity|]);
    cbn [RedisClient.set_redis World.redis World.tick];
    rewrite ?(lookup_insert_ne _ (RateLimiter.bucket_key "apikey" _ _))
      by apply global_key_not_apikey;
    rewrite ?(lookup_insert_ne _ (RateLimiter.bucket_key "ip" _ _))
      by apply global_key_not_ip;
    rewrite lookup_insert_eq; cbn [fmap option_fmap option_map];
    by rewrite checked_count.
Qed.

Lemma every_check_spends_global_budget_witness :
  ∃ d w1,
    RateLimiter.checkLimit Samples.cfg Samples.clock "203.0.113.7" None Samples.saturated
    = (Ok d, w1)
    ∧ World.count <$> World.redis w1 !! "rate_limit:global:all:1699999980" = Some 3.
Proof.
  exact (every_check_spends_global_budget Samples.cfg Samples.clock "203.0.113.7" None
           Samples.saturated eq_refl eq_refl).
Defined.

(** X3: when a key is presented, an admitted request is reported
    with the figures of the key tier (type [apikey], the key limit), not
    with those of the address tier; a decision of another tier is a
    denial, and then no bucket of the key is touched. *)
Theorem presented_key_tier_decides (cfg : Config.t) (clock : Clock) (ip k : string)
    (w : World.t) :
  Config.rateLimiting cfg = true →
  World.redis_connected w = true →
  k ≠ "" →
  ∃ d w1,
    RateLimiter.checkLimit cfg clock ip (Some k) w = (Ok d, w1)
    ∧ (RateLimiter.allowed d = true →
       RateLimiter.type d = Some "apikey"
       ∧ RateLimiter.limit d = Some (Config.max (Config.apiKeyLimit cfg)))
    ∧ (RateLimiter.type d ≠ Some "apikey" →
       RateLimiter.allowed d = false
       ∧ ∀ s, World.redis w1 !! RateLimiter.bucket_key "apikey" k s
              = World.redis w !! RateLimiter.bucket_key "apikey" k s).
Proof.
  intros Hon Hconn Hk.
  assert (Hp : RateLimiter.presented (Some k) = Some k).
  { unfold RateLimiter.presented. by destruct (String.eqb_spec k ""). }
  rewrite (checkLimit_with_key cfg clock ip k (Some k) w Hon Hconn Hp). cbv zeta.
  destruct (_ <=? Config.max (Config.globalLimit cfg)) eqn:Hg.
  - destruct (_ <=? Config.max (Config.ipLimit cfg)) eqn:Hi.
    + eexists _, _. split; [reflexivity|].
      cbn [Bucket.verdict RateLimiter.type RateLimiter.allowed RateLimiter.limit].
      split; [done|]. done.
    + eexists _, _. split; [reflexivity|].
      cbn [Bucket.verdict RateLimiter.type RateLimiter.allowed RateLimiter.limit].
      rewrite Hi. split; [done|]. intros _. split; [done|].
      intros s. cbn [RedisClient.set_redis World.redis].
      rewrite lookup_insert_ne by (apply not_eq_sym, apikey_key_not_ip).
      by rewrite lookup_insert_ne by (apply not_eq_sym, global_key_not_apikey).
  - eexists _, _. split; [reflexivity|].
    cbn [Bucket.verdict RateLimiter.type RateLimiter.allowed RateLimiter.limit].
    rewrite Hg. split; [done|]. intros _. split; [done|].
    intros s. cbn [RedisClient.set_redis World.redis].
    by rewrite lookup_insert_ne by (apply not_eq_sym, global_key_not_apikey).
Qed.

(** X4: while Redis is disconnected the limiter admits everything:
    [checkLimit] answers the record without figures for every caller,
    and the rate-limit hook hands request and reply on unchanged, with
    the stores untouched. *)
Theorem limiter_fails_open (env : Env.t) (q : Http.request) (r : Http.reply)
    (w : World.t) :
  World.redis_connected w = false →
  ∃ w',
    Plugins.rateLimitHook env q r w = (Ok (q, r), w')
    ∧ Frame.redis_kept w w' ∧ Frame.audit_kept w w'
    ∧ ∀ ip apiKey,
        fst (RateLimiter.checkLimit (Env.cfg env) (Env.clock env) ip apiKey w)
        = Ok RateLimiter.unlimited.
Proof.
  intros Hdown.
  assert (Hcheck : ∀ ip apiKey,
            ∃ w1, RateLimiter.checkLimit (Env.cfg env) (Env.clock env) ip apiKey w
                  = (Ok RateLimiter.unlimited, w1)
                  ∧ Frame.redis_kept w w1 ∧ Frame.audit_kept w w1).
  { intros ip apiKey. destruct (Config.rateLimiting (Env.cfg env)) eqn:Hon.
    - rewrite checkLimit_disconnected by assumption. eexists. split; [reflexivity|].
      by repeat split.
    - rewrite checkLimit_disabled by assumption. eexists. split; [reflexivity|].
      by repeat split. }
  assert (Hfst : ∀ ip apiKey,
            fst (RateLimiter.checkLimit (Env.cfg env) (Env.clock env) ip apiKey w)
            = Ok RateLimiter.unlimited).
  { intros ip apiKey. by destruct (Hcheck ip apiKey) as (w1 & -> & _). }
  unfold Plugins.rateLimitHook.
  destruct (_ || _).
  - exists w. split; [reflexivity|]. by repeat split.
  - destruct (Hcheck (Http.ip q) (Http.extractApiKey q)) as (w1 & Hrun & Hr & Ha).
    unfold World.try_catch, mbind, World.M_bind, World.bind. rewrite Hrun.
    cbn [RateLimiter.allowed RateLimiter.unlimited negb].
    exists w1. split; [|auto].
    unfold mret, World.M_ret, World.ret, Plugins.addRateLimitHeaders. cbn.
    by destruct r.
Qed.

(** X5: the figures of a decision of [_checkBucket].  For a positive
    window and a clock after the epoch, [remaining] is never negative,
    [reset] lies after now and at most one window ahead; an admitted
    request has no [retryAfter], a denied one has [remaining = 0] and a
    [retryAfter] between 1 and the window, equal to [reset - now]. *)
Theorem decision_bounds (clock : Clock) (type identifier : string)
    (lim : Config.limit) (w w1 : World.t) (d : RateLimiter.decision) :
  0 < Config.window lim →
  0 ≤ clock (World.ticks w) →
  RateLimiter._checkBucket clock type identifier lim w = (Ok d, w1) →
  let now := Bucket.second clock (World.ticks w) in
  ∃ rem rst,
    RateLimiter.remaining d = Some rem
    ∧ RateLimiter.reset d = Some rst
    ∧ 0 ≤ rem
    ∧ now < rst ≤ now + Config.window lim
    ∧ (RateLimiter.allowed d = true → RateLimiter.retryAfter d = None)
    ∧ (RateLimiter.allowed d = false →
       rem = 0
       ∧ ∃ ra, RateLimiter.retryAfter d = Some ra
               ∧ ra = rst - now ∧ 1 ≤ ra ≤ Config.window lim).
Proof.
  intros Hw Hclock Hrun now.
  rewrite checkBucket_cases in Hrun. cbv zeta in Hrun.
  destruct (World.redis_connected w); [|discriminate].
  injection Hrun as <- _. fold now.
  match goal with |- context [Bucket.verdict _ _ _ ?x] => generalize x end. intros c.
  unfold Bucket.verdict.
  cbn [RateLimiter.remaining RateLimiter.reset RateLimiter.allowed RateLimiter.retryAfter].
  assert (Hnow : 0 ≤ now) by (apply Z.div_pos; lia).
  pose proof (Z.rem_bound_pos now (Config.window lim) Hnow Hw) as Hrem.
  eexists _, _. split; [reflexivity|]. split; [reflexivity|].
  unfold RateLimiter.windowStart.
  split; [lia|]. split; [lia|].
  destruct (Z.leb_spec c (Config.max lim)).
  - split; [done|]. discriminate.
  - split; [discriminate|]. intros _. split; [lia|].
    eexists. split; [reflexivity|]. lia.
Qed.

(** Buckets of one caller in two windows never share a key. *)
Lemma window_keys_distinct (type identifier : string) (s s' : Z) :
  s ≠ s' →
  RateLimiter.bucket_key type identifier s ≠ RateLimiter.bucket_key type identifier s'.
Proof.
  intros Hne H. apply Hne. unfold RateLimiter.bucket_key in H.
  do 5 apply (inj (String.app _)) in H.
  by apply (inj pretty) in H.
Qed.

Section burst_facts.
Variable clock : Clock.
Variables (type identifier : string) (lim : Config.limit).
Variable ws : Z.

Local Abbreviation key := (RateLimiter.bucket_key type identifier ws).
Local Abbreviation held w := (from_option World.count 0 (World.redis w !! key)).

Lemma burst_from (n : nat) (w : World.t) :
  World.redis_connected w = true →
  (∀ i, (i < n)%nat →
        RateLimiter.windowStart (Bucket.second clock (World.ticks w + i)) (Config.window lim)
        = ws) →
  ∃ ds w',
    Window.burst clock type identifier lim n w = (Ok ds, w')
    ∧ map RateLimiter.allowed ds
      = map (fun i => held w + Z.of_nat i <=? Config.max lim) (seq 1 n)
    ∧ map RateLimiter.remaining ds
      = map (fun i => Some (Z.max 0 (Config.max lim - (held w + Z.of_nat i)))) (seq 1 n)
    ∧ World.ticks w' = (World.ticks w + n)%nat
    ∧ World.redis_connected w' = true
    ∧ Frame.audit_kept w w'
    ∧ held w' = held w + Z.of_nat n
    ∧ ∀ k, k ≠ key → World.redis w' !! k = World.redis w !! k.
Proof.
  revert w. induction n as [|n IH]; intros w Hconn Hwin.
  - exists [], w. cbn [Window.burst]. split; [reflexivity|].
    rewrite Nat.add_0_r, Z.add_0_r. by repeat split.
  - cbn [Window.burst].
    unfold mbind at 1, World.M_bind at 1, World.bind at 1.
    rewrite checkBucket_connected by exact Hconn. cbv zeta.
    pose proof (Hwin O ltac:(lia)) as H0. rewrite Nat.add_0_r in H0. rewrite H0.
    set (b := Bucket.checked lim (World.redis w !! key)).
    set (w1 := RedisClient.set_redis (<[key := b]> (World.redis w)) (World.tick w)).
    assert (Hheld1 : held w1 = held w + 1).
    { subst w1. cbn [RedisClient.set_redis World.redis]. rewrite lookup_insert_eq.
      cbn [from_option]. subst b. apply checked_count. }
    destruct (IH w1) as (ds & w' & Hrun & Hal & Hrem & Hticks & Hconn' & Hkept & Hheld & Hframe).
    { exact Hconn. }
    { intros i Hi. replace (World.ticks w1 + i)%nat with (World.ticks w + S i)%nat
        by (subst w1; cbn; lia).
      apply Hwin. lia. }
    unfold mbind, World.M_bind, World.bind. rewrite Hrun.
    eexists _, w'. split; [reflexivity|].
    assert (Hcount : World.count b = held w + Z.of_nat 1).
    { subst b. rewrite checked_count. lia. }
    cbn [map seq]. rewrite <- (seq_shift n 1), !map_map.
    unfold Bucket.verdict. cbn [RateLimiter.allowed RateLimiter.remaining].
    rewrite Hcount, Hal, Hrem, Hheld1.
    split.
    { f_equal. apply map_ext. intros i. f_equal. lia. }
    split.
    { f_equal. apply map_ext. intros i. do 3 f_equal. lia. }
    split; [rewrite Hticks; subst w1; cbn; lia|].
    split; [exact Hconn'|].
    split.
    { destruct Hkept as (? & ? & ? & ? & ?). by repeat split. }
    split; [rewrite Hheld, Hheld1; lia|].
    intros k Hk. rewrite (Hframe k Hk). subst w1.
    cbn [RedisClient.set_redis World.redis]. by rewrite lookup_insert_ne.
Qed.

End burst_facts.


(** X6: [n] consecutive checks of a fresh bucket inside one window:
    the i-th is admitted exactly when [i <= max], and reports
    [max(0, max - i)] as remaining. *)
Theorem window_admits_exactly_max (clock : Clock) (type identifier : string)
    (lim : Config.limit) (n : nat) (w : World.t) (ws : Z) :
  World.redis_connected w = true →
  (∀ i, (i < n)%nat →
        RateLimiter.windowStart (Bucket.second clock (World.ticks w + i)) (Config.window lim)
        = ws) →
  World.redis w !! RateLimiter.bucket_key type identifier ws = None →
  ∃ ds w',
    Window.burst clock type identifier lim n w = (Ok ds, w')
    ∧ map RateLimiter.allowed ds
      = map (fun i => Z.of_nat i <=? Config.max lim) (seq 1 n)
    ∧ map RateLimiter.remaining ds
      = map (fun i => Some (Z.max 0 (Config.max lim - Z.of_nat i))) (seq 1 n).
Proof.
  intros Hconn Hwin Hfresh.
  destruct (burst_from clock type identifier lim ws n w Hconn Hwin)
    as (ds & w' & Hrun & Hal & Hrem & _).
  rewrite Hfresh in Hal, Hrem. cbn [from_option] in Hal, Hrem.
  exists ds, w'. split; [exact Hrun|]. split.
  - rewrite Hal. apply map_ext. intros i. f_equal.
  - rewrite Hrem. apply map_ext. intros i. do 3 f_equal.
Qed.

Lemma window_admits_exactly_max_witness :
  ∃ ds w',
    Window.burst Samples.clock "ip" "198.51.100.1" (Config.mkLimit 2 60) 4 World.initial
    = (Ok ds, w')
    ∧ map RateLimiter.allowed ds = [true; true; false; false]
    ∧ map RateLimiter.remaining ds = [Some 1; Some 0; Some 0; Some 0].
Proof.
  apply (window_admits_exactly_max Samples.clock "ip" "198.51.100.1"
           (Config.mkLimit 2 60) 4 World.initial 1699999980).
  - reflexivity.
  - intros i Hi. do 4 (destruct i as [|i]; [vm_compute; reflexivity|]). lia.
  - reflexivity.
Defined.

(** X7: counts do not carry over.  After any number of checks in
    one window, the first check that falls into another window, whose
    bucket does not exist yet, counts from one again. *)
Theorem next_window_starts_afresh (clock : Clock) (type identifier : string)
    (lim : Config.limit) (n : nat) (w : World.t) (ws ws' : Z) :
  World.redis_connected w = true →
  (∀ i, (i < n)%nat →
        RateLimiter.windowStart (Bucket.second clock (World.ticks w + i)) (Config.window lim)
        = ws) →
  RateLimiter.windowStart (Bucket.second clock (World.ticks w + n)) (Config.window lim)
  = ws' →
  ws' ≠ ws →
  World.redis w !! RateLimiter.bucket_key type identifier ws' = None →
  ∃ d w',
    RateLimiter._checkBucket clock type identifier lim
      (snd (Window.burst clock type identifier lim n w)) = (Ok d, w')
    ∧ RateLimiter.allowed d = (1 <=? Config.max lim)
    ∧ RateLimiter.remaining d = Some (Z.max 0 (Config.max lim - 1)).
Proof.
  intros Hconn Hwin Hnext Hne Hfresh.
  destruct (burst_from clock type identifier lim ws n w Hconn Hwin)
    as (ds & w1 & Hrun & _ & _ & Hticks & Hconn1 & _ & _ & Hframe).
  rewrite Hrun. cbn [snd].
  rewrite checkBucket_connected by exact Hconn1. cbv zeta.
  rewrite Hticks, Hnext, Hframe by (by apply window_keys_distinct).
  rewrite Hfresh. eexists _, _. split; [reflexivity|]. split; reflexivity.
Qed.

Lemma next_window_starts_afresh_witness :
  ∃ d w',
    RateLimiter._checkBucket Cases.slow_clock "ip" "198.51.100.1" (Config.mkLimit 1 60)
      (snd (Window.burst Cases.slow_clock "ip" "198.51.100.1" (Config.mkLimit 1 60) 2
              World.initial)) = (Ok d, w')
    ∧ RateLimiter.allowed d = true
    ∧ RateLimiter.remaining d = Some 0.
Proof.
  apply (next_window_starts_afresh Cases.slow_clock "ip" "198.51.100.1"
           (Config.mkLimit 1 60) 2 World.initial 1699999980 1700000040).
  - reflexivity.
  - intros i Hi. do 2 (destruct i as [|i]; [vm_compute; reflexivity|]). lia.
  - vm_compute. reflexivity.
  - discriminate.
  - reflexivity.
Defined.

Lemma buckets_always_expire_witness :
  Frame.all_expire
    (World.redis (snd (RateLimiter.checkLimit Samples.cfg Samples.clock "203.0.113.7"
                         (Some "sk-test-123") Samples.saturated))).
Proof.
  refine (proj1 (buckets_always_expire Samples.cfg Samples.clock "203.0.113.7"
                   (Some "sk-test-123") Samples.saturated _ _ _ _)); try reflexivity.
  apply map_Forall_singleton. exists 60. split; reflexivity.
Defined.

Lemma presented_key_tier_decides_witness :
  ∃ d w1,
    RateLimiter.checkLimit Samples.cfg Samples.clock "203.0.113.7" (Some "sk-test-123")
      World.initial = (Ok d, w1)
    ∧ (RateLimiter.allowed d = true →
       RateLimiter.type d = Some "apikey" ∧ RateLimiter.limit d = Some 1000).
Proof.
  destruct (presented_key_tier_decides Samples.cfg Samples.clock "203.0.113.7"
              "sk-test-123" World.initial eq_refl eq_refl)
    as (d & w1 & Hrun & Hallowed & _); [discriminate|].
  exists d, w1. split; [exact Hrun | exact Hallowed].
Defined.

Lemma limiter_fails_open_witness :
  ∃ w',
    Plugins.rateLimitHook Samples.env (Samples.get_models "198.51.100.1")
      Http.fresh_reply Cases.offline
    = (Ok (Samples.get_models "198.51.100.1", Http.fresh_reply), w')
    ∧ Frame.redis_kept Cases.offline w'.
Proof.
  destruct (limiter_fails_open Samples.env (Samples.get_models "198.51.100.1")
              Http.fresh_reply Cases.offline eq_refl) as (w' & Hrun & Hkept & _).
  exists w'. split; [exact Hrun | exact Hkept].
Defined.

Lemma decision_bounds_witness :
  ∃ rem rst,
    RateLimiter.remaining
      (Bucket.verdict "global" (Config.mkLimit 2 60) 1700000000 3) = Some rem
    ∧ RateLimiter.reset
        (Bucket.verdict "global" (Config.mkLimit 2 60) 1700000000 3) = Some rst
    ∧ 0 ≤ rem
    ∧ 1700000000 < rst ≤ 1700000000 + 60.
Proof.
  destruct (decision_bounds Samples.clock "global" "all" (Config.mkLimit 2 60)
              Samples.saturated
              (snd (RateLimiter._checkBucket Samples.clock "global" "all"
                      (Config.mkLimit 2 60) Samples.saturated))
              (Bucket.verdict "global" (Config.mkLimit 2 60) 1700000000 3))
    as (rem & rst & H1 & H2 & H3 & H4 & _).
  - reflexivity.
  - vm_compute. discriminate.
  - vm_compute. reflexivity.
  - exists rem, rst. auto.
Defined.

(** ** Numbers through Redis: printing and [parseInt] *)

Lemma decimal_digit (d : N) :
  (d < 10)%N →
  (d = 0 ∨ d = 1 ∨ d = 2 ∨ d = 3 ∨ d = 4 ∨ d = 5 ∨ d = 6 ∨ d = 7 ∨ d = 8 ∨ d = 9)%N.
Proof. lia. Qed.

Lemma digit_of_char (d : N) :
  (d < 10)%N → AuditLogger.digit_of (pretty_N_char d) = Some (Z.of_N d).
Proof.
  intros Hd. apply decimal_digit in Hd. destruct_or! Hd; subst d; reflexivity.
Qed.

Lemma char_not_sign (d : N) (t : string) :
  (d < 10)%N →
  AuditLogger.skip_blanks (String (pretty_N_char d) t) = String (pretty_N_char d) t
  ∧ pretty_N_char d ≠ "-"%char ∧ pretty_N_char d ≠ "+"%char.
Proof.
  intros Hd. apply decimal_digit in Hd.
  destruct_or! Hd; subst d; (split; [|by split]);
    destruct t as [|c2 [|c3 t]]; reflexivity.
Qed.

(** The digits of a positive number, read back after an accumulator. *)
Lemma digits_pretty_go (x : N) :
  (0 < x)%N →
  ∃ k, 0 < k ∧ ∀ acc s,
    AuditLogger.digits acc (pretty_N_go x s)
    = AuditLogger.digits (Some (default 0 acc * k + Z.of_N x)) s.
Proof.
  induction (N.lt_wf_0 x) as [x _ IH]. intros Hx.
  assert (Hd : (x `mod` 10 < 10)%N) by (apply N.mod_lt; lia).
  destruct (decide (x `div` 10 = 0)%N) as [Hz|Hnz].
  - exists 10. split; [lia|]. intros acc s.
    rewrite pretty_N_go_step by exact Hx. rewrite Hz, pretty_N_go_0.
    cbn [AuditLogger.digits]. rewrite digit_of_char by exact Hd.
    do 2 f_equal.
    pose proof (N.div_mod x 10 ltac:(lia)) as Hdm. rewrite Hz in Hdm.
    generalize dependent (x `mod` 10)%N. intros r _ Hdm.
    generalize (default 0 acc). intros a. clear -Hdm. lia.
  - destruct (IH (x `div` 10)%N) as (k & Hk & Hgo).
    { apply N.div_lt; lia. }
    { by apply N.neq_0_lt_0. }
    exists (10 * k). split; [lia|]. intros acc s.
    rewrite pretty_N_go_step by exact Hx. rewrite Hgo.
    cbn [AuditLogger.digits]. rewrite digit_of_char by exact Hd.
    cbn [default]. do 2 f_equal.
    pose proof (N.div_mod x 10 ltac:(lia)) as Hdm.
    generalize dependent (x `mod` 10)%N. generalize dependent (x `div` 10)%N.
    intros q _ _ r _ Hdm. unfold id. generalize (default 0 acc). intros a.
    clear -Hdm. lia.
Qed.

Lemma pretty_go_head (x : N) (s : string) :
  (0 < x)%N → ∃ d t, (d < 10)%N ∧ pretty_N_go x s = String (pretty_N_char d) t.
Proof.
  revert s. induction (N.lt_wf_0 x) as [x _ IH]. intros s Hx.
  rewrite pretty_N_go_step by exact Hx.
  destruct (decide (x `div` 10 = 0)%N) as [Hz|Hnz].
  - rewrite Hz, pretty_N_go_0. eexists _, _. split; [|reflexivity].
    apply N.mod_lt. lia.
  - apply IH; [apply N.div_lt; lia | by apply N.neq_0_lt_0].
Qed.

Lemma parseInt10_positive (p : positive) :
  AuditLogger.parseInt10 (pretty p) = JS.Num (inject_Z (Z.pos p)).
Proof.
  change (pretty p) with (pretty (N.pos p)).
  unfold pretty, pretty_N. destruct (decide (N.pos p = 0%N)) as [|_]; [lia|].
  destruct (pretty_go_head (N.pos p) "" ltac:(lia)) as (d & t & Hd & Hhead).
  destruct (digits_pretty_go (N.pos p) ltac:(lia)) as (k & _ & Hgo).
  specialize (Hgo None ""). cbn [AuditLogger.digits default] in Hgo.
  destruct (char_not_sign d t Hd) as (Hskip & Hminus & Hplus).
  unfold AuditLogger.parseInt10. rewrite Hhead, Hskip.
  assert (Hdigits : AuditLogger.digits None (String (pretty_N_char d) t)
                    = Some (Z.pos p)).
  { by rewrite <- Hhead, Hgo. }
  destruct (pretty_N_char d) as [b0 b1 b2 b3 b4 b5 b6 b7] eqn:Hc.
  destruct b0, b1, b2, b3, b4, b5, b6, b7;
    try (rewrite Hdigits; reflexivity); contradiction.
Qed.

Lemma skip_blanks_minus (t : string) :
  AuditLogger.skip_blanks (String "-" t) = String "-" t.
Proof. destruct t as [|c2 [|c3 t]]; reflexivity. Qed.

(** What Redis prints for a counter, [parseInt] reads back. *)
Lemma parseInt10_pretty (z : Z) :
  AuditLogger.parseInt10 (pretty z) = JS.Num (inject_Z z).
Proof.
  destruct z as [|p|p].
  - reflexivity.
  - apply parseInt10_positive.
  - change (pretty (Z.neg p)) with (String "-" (pretty p)).
    pose proof (parseInt10_positive p) as Hp.
    change (pretty p) with (pretty (N.pos p)) in *.
    unfold pretty, pretty_N in *. destruct (decide (N.pos p = 0%N)) as [|_]; [lia|].
    destruct (pretty_go_head (N.pos p) "" ltac:(lia)) as (d & t & Hd & Hhead).
    destruct (digits_pretty_go (N.pos p) ltac:(lia)) as (k & _ & Hgo).
    specialize (Hgo None ""). cbn [AuditLogger.digits default] in Hgo.
    unfold AuditLogger.parseInt10. rewrite skip_blanks_minus.
    by rewrite Hgo.
Qed.

Lemma pretty_not_empty (z : Z) : pretty z ≠ "".
Proof.
  destruct z as [|p|p]; [discriminate| |discriminate].
  change (pretty (Z.pos p)) with (pretty (N.pos p)).
  unfold pretty, pretty_N. destruct (decide (N.pos p = 0%N)) as [|_]; [lia|].
  destruct (pretty_go_head (N.pos p) "" ltac:(lia)) as (d & t & _ & ->). discriminate.
Qed.

Lemma count_of_pretty (z : Z) :
  RateLimiterStatus.count_of (Some (pretty z)) = Some z.
Proof.
  unfold RateLimiterStatus.count_of.
  destruct (String.eqb_spec (pretty z) "") as [H|_]; [by apply pretty_not_empty in H|].
  by rewrite parseInt10_pretty, Qfloor_Z.
Qed.

(** ** [getStatus] *)

(** X8: [getStatus] reads what [_checkBucket] wrote.  For a tier
    name that [limits] knows, and within the same window, the status
    read after a check reports the count that decided it and the same
    [limit], [remaining] and [reset] as the decision. *)
Theorem getStatus_reads_the_bucket (cfg : Config.t) (clock : Clock)
    (type identifier : string) (lim : Config.limit) (w w1 : World.t)
    (d : RateLimiter.decision) :
  RateLimiterStatus.limits cfg type = RateLimiterStatus.Own lim →
  RateLimiter._checkBucket clock type identifier lim w = (Ok d, w1) →
  RateLimiter.windowStart (Bucket.second clock (World.ticks w1)) (Config.window lim)
  = RateLimiter.windowStart (Bucket.second clock (World.ticks w)) (Config.window lim) →
  ∃ s c,
    RateLimiterStatus.getStatus cfg clock type identifier w1 = (Ok s, World.tick w1)
    ∧ RateLimiterStatus.current s = Some c
    ∧ RateLimiter.allowed d = (c <=? Config.max lim)
    ∧ RateLimiterStatus.limit s = RateLimiter.limit d
    ∧ RateLimiterStatus.remaining s = RateLimiter.remaining d
    ∧ RateLimiterStatus.reset s = RateLimiter.reset d.
Proof.
  intros Hown Hrun Hwin.
  rewrite checkBucket_cases in Hrun. cbv zeta in Hrun.
  destruct (World.redis_connected w) eqn:Hconn; [|discriminate].
  injection Hrun as <- <-.
  unfold RateLimiterStatus.getStatus. rewrite Hown.
  unfold mbind, World.M_bind, World.bind, Date_now, RedisClient.get,
    mret, World.M_ret, World.ret.
  cbn [RedisClient.set_redis World.redis_connected World.tick World.redis World.ticks].
  rewrite Hconn.
  change (clock (S (World.ticks w)) / 1000)
    with (Bucket.second clock (World.ticks (World.tick w))).
  cbn [RedisClient.set_redis World.tick World.ticks] in Hwin.
  change (Bucket.second clock (World.ticks (World.tick w)))
    with (Bucket.second clock (S (World.ticks w))).
  rewrite Hwin, lookup_insert_eq. cbn [fmap option_fmap option_map].
  rewrite count_of_pretty.
  eexists _, _. split; [reflexivity|].
  cbn [RateLimiterStatus.current RateLimiterStatus.limit RateLimiterStatus.remaining
       RateLimiterStatus.reset Bucket.verdict RateLimiter.allowed RateLimiter.limit
       RateLimiter.remaining RateLimiter.reset fmap option_fmap option_map].
  by repeat split.
Qed.

Lemma getStatus_reads_the_bucket_witness :
  ∃ s c,
    RateLimiterStatus.getStatus Samples.cfg Samples.clock "global" "all"
      (snd (RateLimiter._checkBucket Samples.clock "global" "all" (Config.mkLimit 2 60)
              Samples.saturated))
    = (Ok s, World.tick
               (snd (RateLimiter._checkBucket Samples.clock "global" "all"
                       (Config.mkLimit 2 60) Samples.saturated)))
    ∧ RateLimiterStatus.current s = Some c
    ∧ false = (c <=? 2)
    ∧ RateLimiterStatus.limit s = Some 2
    ∧ RateLimiterStatus.remaining s = Some 0
    ∧ RateLimiterStatus.reset s = Some 1700000040.
Proof.
  exact (getStatus_reads_the_bucket Samples.cfg Samples.clock "global" "all"
           (Config.mkLimit 2 60) Samples.saturated _ _ eq_refl eq_refl eq_refl).
Defined.

Lemma status_key_not_global (a b : string) (s s' : Z) :
  RateLimiter.bucket_key "apiKey" a s ≠ RateLimiter.bucket_key "global" b s'.
Proof. unfold RateLimiter.bucket_key. simpl. discriminate. Qed.

Lemma status_key_not_ip (a b : string) (s s' : Z) :
  RateLimiter.bucket_key "apiKey" a s ≠ RateLimiter.bucket_key "ip" b s'.
Proof. unfold RateLimiter.bucket_key. simpl. discriminate. Qed.

Lemma status_key_not_apikey (a b : string) (s s' : Z) :
  RateLimiter.bucket_key "apiKey" a s ≠ RateLimiter.bucket_key "apikey" b s'.
Proof. unfold RateLimiter.bucket_key. simpl. discriminate. Qed.

(** No check ever writes a key that [getStatus('apiKey', ...)] reads. *)
Lemma checkLimit_keeps_status_keys (cfg : Config.t) (clock : Clock) (ip : string)
    (apiKey : option string) (w : World.t) (identifier : string) (s : Z) :
  World.redis (snd (RateLimiter.checkLimit cfg clock ip apiKey w))
    !! RateLimiter.bucket_key "apiKey" identifier s
  = World.redis w !! RateLimiter.bucket_key "apiKey" identifier s.
Proof.
  limiter_cases cfg clock ip apiKey w;
    cbn [snd RedisClient.set_redis World.redis World.tick];
    rewrite ?lookup_insert_ne
      by first [ apply not_eq_sym, status_key_not_global
               | apply not_eq_sym, status_key_not_ip
               | apply not_eq_sym, status_key_not_apikey ];
    reflexivity.
Qed.

Lemma checkLimit_keeps_connection (cfg : Config.t) (clock : Clock) (ip : string)
    (apiKey : option string) (w : World.t) :
  World.redis_connected (snd (RateLimiter.checkLimit cfg clock ip apiKey w))
  = World.redis_connected w.
Proof.
  limiter_cases cfg clock ip apiKey w;
    cbn [snd RedisClient.set_redis World.redis_connected World.tick]; congruence.
Qed.

(** X9: the key tier cannot be read back.  [checkLimit] counts
    keys under the type [apikey]; [getStatus] rejects that name as an
    invalid type, and under the name it accepts, [apiKey], it looks up
    a key that no check writes: after a request with a key on an empty
    store it reports a count of zero. *)
Theorem getStatus_cannot_see_key_tier (cfg : Config.t) (clock : Clock) (ip k : string)
    (w : World.t) :
  Config.rateLimiting cfg = true →
  World.redis_connected w = true →
  World.redis w = ∅ →
  k ≠ "" →
  ∃ d w1,
    RateLimiter.checkLimit cfg clock ip (Some k) w = (Ok d, w1)
    ∧ (RateLimiter.type d = Some "apikey" →
       ∃ s b, World.redis w1 !! RateLimiter.bucket_key "apikey" k s = Some b
              ∧ World.count b = 1)
    ∧ RateLimiterStatus.getStatus cfg clock "apikey" k w1
      = (Throw (Err.plain "Invalid rate limit type: apikey"), w1)
    ∧ ∃ st,
        RateLimiterStatus.getStatus cfg clock "apiKey" k w1 = (Ok st, World.tick w1)
        ∧ RateLimiterStatus.current st = Some 0
        ∧ RateLimiterStatus.remaining st
          = Some (Z.max 0 (Config.max (Config.apiKeyLimit cfg))).
Proof.
  intros Hon Hconn Hempty Hk.
  pose proof (checkLimit_keeps_status_keys cfg clock ip (Some k) w k) as Hkeys.
  pose proof (checkLimit_keeps_connection cfg clock ip (Some k) w) as Hconn1.
  assert (Hp : RateLimiter.presented (Some k) = Some k).
  { unfold RateLimiter.presented. by destruct (String.eqb_spec k ""). }
  assert (Hbucket :
    ∀ d w1, RateLimiter.checkLimit cfg clock ip (Some k) w = (Ok d, w1) →
            RateLimiter.type d = Some "apikey" →
            ∃ s b, World.redis w1 !! RateLimiter.bucket_key "apikey" k s = Some b
                   ∧ World.count b = 1).
  { intros d w1. rewrite (checkLimit_with_key cfg clock ip k (Some k) w Hon Hconn Hp).
    cbv zeta. rewrite Hempty.
    destruct (_ <=? Config.max (Config.globalLimit cfg));
      [destruct (_ <=? Config.max (Config.ipLimit cfg))|];
      intros [= <- <-]; cbn [Bucket.verdict RateLimiter.type]; try discriminate.
    intros _. eexists _, _. cbn [RedisClient.set_redis World.redis].
    rewrite lookup_insert_eq. split; [reflexivity|].
    rewrite lookup_insert_ne by (apply not_eq_sym, apikey_key_not_ip).
    rewrite lookup_insert_ne by (apply not_eq_sym, global_key_not_apikey).
    by rewrite lookup_empty. }
  destruct (RateLimiter.checkLimit cfg clock ip (Some k) w) as [[d|e] w1] eqn:Hrun.
  2:{ exfalso. revert Hrun.
      rewrite (checkLimit_with_key cfg clock ip k (Some k) w Hon Hconn Hp). cbv zeta.
      repeat case_match; discriminate. }
  cbn [snd] in Hkeys, Hconn1.
  exists d, w1. split; [reflexivity|]. split; [by apply Hbucket|].
  split; [reflexivity|].
  unfold RateLimiterStatus.getStatus. cbn [RateLimiterStatus.limits String.eqb Ascii.eqb
    Bool.eqb andb].
  unfold mbind, World.M_bind, World.bind, Date_now, RedisClient.get,
    mret, World.M_ret, World.ret.
  cbn [World.redis_connected World.tick World.redis].
  rewrite Hconn1, Hconn, Hkeys, Hempty, lookup_empty.
  eexists. split; [reflexivity|]. cbn. split; [reflexivity|]. by rewrite Z.sub_0_r.
Qed.

Lemma getStatus_cannot_see_key_tier_witness :
  ∃ d w1,
    RateLimiter.checkLimit Samples.cfg Samples.clock "203.0.113.7" (Some "sk-test-123")
      World.initial = (Ok d, w1)
    ∧ RateLimiter.type d = Some "apikey"
    ∧ fst (RateLimiterStatus.getStatus Samples.cfg Samples.clock "apikey" "sk-test-123" w1)
      = Throw (Err.plain "Invalid rate limit type: apikey")
    ∧ ∃ st,
        fst (RateLimiterStatus.getStatus Samples.cfg Samples.clock "apiKey"
               "sk-test-123" w1) = Ok st
        ∧ RateLimiterStatus.current st = Some 0.
Proof.
  destruct (getStatus_cannot_see_key_tier Samples.cfg Samples.clock "203.0.113.7"
              "sk-test-123" World.initial eq_refl eq_refl eq_refl)
    as (d & w1 & Hrun & _ & Hthrow & st & Hst & Hcur & _); [discriminate|].
  exists d, w1. split; [exact Hrun|]. split.
  - revert Hrun. vm_compute. by intros [= <- _].
  - split; [by rewrite Hthrow|]. exists st. by rewrite Hst.
Defined.

(** ** The audit queue and its drain *)


(** Whether the table takes a statement does not depend on the
    identifier the sequence hands out. *)
Lemma store_any_id (i j : Z) (p : PgClient.params) :
  is_Some (PgClient.store i p) → is_Some (PgClient.store j p).
Proof.
  unfold PgClient.store.
  repeat match goal with
         | |- context [mbind _ ?o] =>
             lazymatch o with
             | context [mbind] => fail
             | _ => destruct o; simpl; [|by intros []]
             end
         end.
  eauto.
Qed.

Lemma accepted_spec (e : Entry.t) (i : Z) :
  Drain.accepted e = true ↔ is_Some (PgClient.store i (PgClient.insert_params e)).
Proof.
  unfold Drain.accepted. rewrite bool_decide_eq_true.
  split; apply store_any_id.
Qed.





Section drain_facts.
Variable served : World.t → list Entry.t → list Entry.t.
(** The pool completes every insert of the batch, each once. *)
Hypothesis served_all : ∀ w batch, served w batch ≡ₚ batch.



End drain_facts.




(** X12: [log] never throws, and it never lets the queue grow past
    [maxQueueSize] (1000) entries: on a full queue the entry is dropped
    and the audit side of the world is left as it was. *)
Theorem audit_queue_is_bounded (cfg : Config.t) (clock : Clock) (q : Http.request)
    (r : Http.reply) (options : gmap string JS.value) (w : World.t) :
  ∃ w',
    AuditLogger.log cfg clock q r options w = (Ok tt, w')
    ∧ (length (World.queue w') ≤ Nat.max (length (World.queue w)) AuditLogger.maxQueueSize)%nat
    ∧ (Config.auditAsync cfg = true →
       (AuditLogger.maxQueueSize ≤ length (World.queue w))%nat →
       Frame.audit_kept w w').
Proof.
  unfold AuditLogger.log, World.try_catch, mbind, World.M_bind, World.bind,
    Date_now, mret, World.M_ret, World.ret.
  destruct (Config.auditLogging cfg); cbn [negb].
  2:{ exists w. split; [reflexivity|]. split; [lia|]. by repeat split. }
  destruct (Config.auditAsync cfg).
  - unfold AuditLogger._queueLog. cbn [World.queue World.tick].
    destruct (Nat.leb_spec AuditLogger.maxQueueSize (length (World.queue w))).
    + eexists. split; [reflexivity|]. cbn. split; [lia|]. by repeat split.
    + eexists. split; [reflexivity|]. cbn [AuditLogger.set_queue World.queue].
      rewrite length_app. cbn [length]. split; [lia|]. intros _ ?. lia.
  - unfold PgClient.insertAuditLog. cbn [World.pg_pool World.tick].
    destruct (World.pg_pool w).
    + destruct (PgClient.store _ _); eexists; (split; [reflexivity|]); cbn;
        (split; [lia|]); discriminate.
    + eexists. split; [reflexivity|]. cbn. split; [lia|]. discriminate.
Qed.

(** ** Erasure and queries *)

Lemma filter_filter_neg {A} (P : A → Prop) `{∀ x, Decision (P x)} (l : list A) :
  filter P (filter (fun x => ¬ P x) l) = [].
Proof.
  induction l as [|x l IH]; [reflexivity|].
  rewrite (filter_cons (fun x => ¬ P x)).
  destruct (decide (¬ P x)) as [Hn|Hp]; [|exact IH].
  rewrite filter_cons. by destruct (decide (P x)).
Qed.

Lemma filter_idemp {A} (P : A → Prop) `{∀ x, Decision (P x)} (l : list A) :
  filter P (filter P l) = filter P l.
Proof.
  induction l as [|x l IH]; [reflexivity|].
  rewrite (filter_cons P x l).
  destruct (decide (P x)) as [Hp|Hn]; [|exact IH].
  rewrite filter_cons. destruct (decide (P x)); [by f_equal | done].
Qed.

Lemma filter_split_length {A} (P : A → Prop) `{∀ x, Decision (P x)} (l : list A) :
  (length (filter P l) + length (filter (fun x => ¬ P x) l) = length l)%nat.
Proof.
  induction l as [|x l IH]; [reflexivity|].
  rewrite !filter_cons. destruct (decide (P x)), (decide (¬ P x)); cbn; try lia; done.
Qed.

(** X13: [deleteClientAuditLogs] with the pool up removes exactly
    the rows whose [client_ip_hash] is the given digest: the rows kept
    are the others, in their order; the number returned is the number
    of rows removed; the sequence and the queue are untouched; and a
    second call removes nothing. *)
Theorem erasure_is_exact (clientIpHash : string) (w : World.t) :
  World.pg_pool w = true →
  ∃ n w',
    PgClient.deleteClientAuditLogs clientIpHash w = (Ok n, w')
    ∧ (∀ row, row ∈ World.audit_logs w' ↔
              row ∈ World.audit_logs w ∧ Sql.client_ip_hash row ≠ clientIpHash)
    ∧ World.audit_logs w' `sublist_of` World.audit_logs w
    ∧ n + Z.of_nat (length (World.audit_logs w')) = Z.of_nat (length (World.audit_logs w))
    ∧ World.next_id w' = World.next_id w
    ∧ World.queue w' = World.queue w
    ∧ PgClient.deleteClientAuditLogs clientIpHash w' = (Ok 0, w').
Proof.
  intros Hpool. unfold PgClient.deleteClientAuditLogs. rewrite Hpool.
  eexists _, _. split; [reflexivity|].
  cbn [PgClient.set_table World.audit_logs World.next_id World.queue World.pg_pool
       PgClient.delete_audit_logs_by_client fst snd].
  split.
  { intros row. by rewrite list_elem_of_filter, (comm and). }
  split; [apply sublist_filter|].
  split.
  { pose proof (filter_split_length (fun r => Sql.client_ip_hash r = clientIpHash)
                  (World.audit_logs w)). lia. }
  split; [reflexivity|]. split; [reflexivity|].
  rewrite Hpool. unfold Sql.client_ip_hash at 1.
  rewrite (filter_filter_neg (fun r => Sql.client_ip_hash r = clientIpHash)).
  rewrite (filter_idemp (fun r => Sql.client_ip_hash r ≠ clientIpHash)).
  reflexivity.
Qed.

(** The row stored for an entry carries the digest of the caller's address. *)
Lemma stored_row_client (q : Http.request) (r : Http.reply)
    (options : gmap string JS.value) (date now i : Z) (row : Sql.audit_log) :
  PgClient.store i
    (PgClient.insert_params (AuditLogger.build_entry q r options date now)) = Some row →
  Sql.client_ip_hash row = Sha256.hexdigest (Http.ip q)
  ∧ Sql.request_id row = Http.id q.
Proof.
  intros Hrow.
  destruct (store_columns _ _ _ Hrow) as (Hip & _ & _ & Hid & _).
  change (AuditLogger._hash (Some (Http.ip q)) = Some (Sql.client_ip_hash row)) in Hip.
  apply hash_some_inv in Hip as (s & [= <-] & _ & Hip). by split.
Qed.

(** X14: erasing by the digest of an address removes the row that
    [log] has just written for a request from that address: after
    logging and then deleting, the table holds the earlier rows of other
    addresses and nothing else. *)
Theorem erasure_reaches_logged_rows (cfg : Config.t) (clock : Clock) (q : Http.request)
    (r : Http.reply) (options : gmap string JS.value) (w : World.t) :
  World.pg_pool w = true →
  let h := Sha256.hexdigest (Http.ip q) in
  let w1 := snd (AuditLogger.log cfg clock q r options w) in
  let w2 := snd (PgClient.deleteClientAuditLogs h w1) in
  World.audit_logs w2
  = filter (fun row => Sql.client_ip_hash row ≠ h) (World.audit_logs w).
Proof.
  intros Hpool h w1 w2. subst w2 w1.
  unfold AuditLogger.log, World.try_catch, mbind, World.M_bind, World.bind,
    Date_now, mret, World.M_ret, World.ret.
  destruct (Config.auditLogging cfg); cbn [negb snd].
  2:{ unfold PgClient.deleteClientAuditLogs. by rewrite Hpool. }
  destruct (Config.auditAsync cfg).
  - unfold AuditLogger._queueLog. cbn [World.queue World.tick].
    destruct (_ <=? _)%nat; cbn [snd]; unfold PgClient.deleteClientAuditLogs; cbn;
      by rewrite Hpool.
  - unfold PgClient.insertAuditLog. cbn [World.pg_pool World.tick World.next_id].
    rewrite Hpool.
    destruct (PgClient.store _ _) as [row|] eqn:Hrow; cbn [snd];
      unfold PgClient.deleteClientAuditLogs; cbn; rewrite Hpool; cbn; [|reflexivity].
    apply stored_row_client in Hrow as [Hh _].
    rewrite filter_app, filter_cons.
    destruct (decide (Sql.client_ip_hash row ≠ h)) as [Hne|_]; [by destruct Hne|].
    by rewrite filter_nil, app_nil_r.
Qed.

(** X15: erasure does not reach the queue.  With asynchronous
    logging, an entry that is still queued when the rows of its address
    are deleted is written by the next drain: the table is clean right
    after the deletion and holds a row of that address again afterwards. *)
Theorem erasure_misses_queued_entries (cfg : Config.t) (clock : Clock)
    (served : World.t → list Entry.t → list Entry.t)
    (q : Http.request) (r : Http.reply) (options : gmap string JS.value) (w : World.t) :
  (∀ w0 batch, served w0 batch ≡ₚ batch) →
  Config.auditLogging cfg = true →
  Config.auditAsync cfg = true →
  World.pg_pool w = true →
  World.processing w = false →
  World.queue w = [] →
  Drain.accepted (AuditLogger.build_entry q r options (clock (World.ticks w))
                    (clock (S (World.ticks w)))) = true →
  let h := Sha256.hexdigest (Http.ip q) in
  let w1 := snd (AuditLogger.log cfg clock q r options w) in
  let w2 := snd (PgClient.deleteClientAuditLogs h w1) in
  let w3 := snd (AuditLogger._processQueue served w2) in
  (∀ row, row ∈ World.audit_logs w2 → Sql.client_ip_hash row ≠ h)
  ∧ ∃ row, row ∈ World.audit_logs w3
           ∧ Sql.client_ip_hash row = h
           ∧ Sql.request_id row = Http.id q.
Proof.
  intros Hserved Hlog Hasync Hpool Hidle Hq Hacc h w1 w2 w3.
  assert (Hw1 : w1 = AuditLogger.set_queue
                       [AuditLogger.build_entry q r options (clock (World.ticks w))
                          (clock (S (World.ticks w)))]
                       false (World.tick (World.tick w))).
  { subst w1. unfold AuditLogger.log, World.try_catch, mbind, World.M_bind, World.bind,
      Date_now, mret, World.M_ret, World.ret, AuditLogger._queueLog.
    rewrite Hlog, Hasync. cbn [negb World.queue World.tick World.ticks World.processing].
    rewrite Hq, Hidle. reflexivity. }
  assert (Hw2 : World.audit_logs w2
                = filter (fun row => Sql.client_ip_hash row ≠ h) (World.audit_logs w)
                ∧ World.queue w2 = World.queue w1 ∧ World.pg_pool w2 = true
                ∧ World.processing w2 = false ∧ World.next_id w2 = World.next_id w).
  { subst w2. rewrite Hw1. unfold PgClient.deleteClientAuditLogs. cbn. rewrite Hpool. cbn.
    by repeat split. }
  destruct Hw2 as (Hrows2 & Hq2 & Hpool2 & Hidle2 & Hnext2).
  split.
  { intros row. rewrite Hrows2, list_elem_of_filter. tauto. }
  apply (accepted_spec _ (World.next_id w)) in Hacc as [row Hrow].
  exists row. split; [|by apply stored_row_client in Hrow].
  subst w3. unfold AuditLogger._processQueue. rewrite Hidle2, Hq2, Hw1.
  cbn [orb AuditLogger.set_queue World.queue length Nat.eqb take drop AuditLogger.batchSize].
  match goal with
  | |- context [served ?w0 [?e]] =>
      rewrite (proj1 (Permutation_singleton_r (served w0 [e]) e) (Hserved w0 [e]))
  end.
  cbn [AuditLogger.insert_all].
  unfold AuditLogger.insert_quietly, World.try_catch, mbind, World.M_bind, World.bind,
    PgClient.insertAuditLog, mret, World.M_ret, World.ret.
  cbn [AuditLogger.set_queue World.pg_pool World.next_id].
  rewrite Hpool2, Hnext2, Hrow. cbn.
  apply elem_of_app. right. by apply list_elem_of_singleton.
Qed.

#[local] Instance newest_first_trans : Transitive PgClient.newest_first.
Proof. intros x y z. unfold PgClient.newest_first. lia. Qed.

#[local] Instance newest_first_total : Total PgClient.newest_first.
Proof. intros x y. unfold PgClient.newest_first. lia. Qed.

Lemma StronglySorted_sublist {A} (R : relation A) (l k : list A) :
  k `sublist_of` l → StronglySorted R l → StronglySorted R k.
Proof.
  induction 1 as [|x k l Hsub IH|x k l Hsub IH]; intros Hsorted.
  - constructor.
  - apply StronglySorted_inv in Hsorted as [Hl Hx].
    constructor; [by apply IH|].
    apply Forall_forall. intros y Hy. rewrite Forall_forall in Hx.
    apply Hx. by eapply elem_of_sublist.
  - apply StronglySorted_inv in Hsorted as [Hl _]. by apply IH.
Qed.

Section listing.
Variable q : Admin.logs_query.

(** A row meets the query: every filter that is given and truthy holds
    of it.  An empty [client_ip_hash] and a [response_status] of 0 are
    falsy and count as not given. *)
Local Abbreviation meets row :=
  ((∀ t, Admin.start_time q = Some t → t ≤ Sql.timestamp row)
   ∧ (∀ t, Admin.end_time q = Some t → Sql.timestamp row ≤ t)
   ∧ (∀ h, Admin.client_ip_hash q = Some h → h ≠ "" → Sql.client_ip_hash row = h)
   ∧ (∀ b, Admin.is_blocked q = Some b → Sql.is_blocked row = b)
   ∧ (∀ s, Admin.response_status q = Some s → s ≠ 0 → Sql.response_status row = s)).

(** The [limit] and [offset] of the answer: [query.limit || 100] and
    [query.offset || 0]. *)
Local Abbreviation limit_of :=
  (match Admin.limit q with
   | Some n => if n =? 0 then 100 else n
   | None => 100
   end).
Local Abbreviation offset_of := (default 0 (Admin.offset q)).

Lemma limit_of_filters :
  default 100 (PgClient.num_or_null (Admin.limit q)) = limit_of.
Proof. destruct (Admin.limit q) as [n|]; [|reflexivity]. cbn. by destruct (n =? 0). Qed.

Lemma offset_of_filters :
  default 0 (PgClient.num_or_null (Admin.offset q)) = offset_of.
Proof.
  destruct (Admin.offset q) as [n|]; [|reflexivity]. cbn.
  by destruct (Z.eqb_spec n 0) as [->|].
Qed.

(** The [WHERE] clause holds of exactly the rows that meet the query. *)
Lemma matches_filters (row : Sql.audit_log) :
  PgClient.matches (Admin.filters_of q) row = true ↔ meets row.
Proof.
  unfold PgClient.matches, Admin.filters_of. cbn.
  rewrite !andb_true_iff. split.
  - intros ((((H1 & H2) & H3) & H4) & H5).
    repeat split.
    + intros t Ht. rewrite Ht in H1. cbn in H1. lia.
    + intros t Ht. rewrite Ht in H2. cbn in H2. lia.
    + intros h Hh Hne. rewrite Hh in H3. cbn in H3.
      destruct (String.eqb_spec h "") as [|_]; [done|]. cbn in H3.
      destruct (String.eqb_spec h "") as [|_]; [done|]. cbn in H3.
      by apply String.eqb_eq in H3.
    + intros b Hb. rewrite Hb in H4. cbn in H4. by apply Bool.eqb_prop in H4.
    + intros s Hs Hne. rewrite Hs in H5. cbn in H5.
      destruct (Z.eqb_spec s 0) as [|_]; [done|]. cbn in H5.
      destruct (Z.eqb_spec s 0) as [|_]; [done|]. cbn in H5. lia.
  - intros (H1 & H2 & H3 & H4 & H5).
    repeat split.
    + destruct (Admin.start_time q) as [t|]; [|reflexivity]. cbn.
      specialize (H1 t eq_refl). lia.
    + destruct (Admin.end_time q) as [t|]; [|reflexivity]. cbn.
      specialize (H2 t eq_refl). lia.
    + destruct (Admin.client_ip_hash q) as [h|]; [|reflexivity]. cbn.
      destruct (String.eqb_spec h "") as [|Hne]; [reflexivity|]. cbn.
      destruct (String.eqb_spec h "") as [|_]; [done|]. cbn.
      apply String.eqb_eq. by apply H3.
    + destruct (Admin.is_blocked q) as [b|]; [|reflexivity]. cbn.
      rewrite (H4 b eq_refl). by destruct b.
    + destruct (Admin.response_status q) as [s|]; [|reflexivity]. cbn.
      destruct (Z.eqb_spec s 0) as [|Hne]; [reflexivity|]. cbn.
      destruct (Z.eqb_spec s 0) as [|_]; [done|]. cbn.
      specialize (H5 s eq_refl Hne). lia.
Qed.

(** X16: the handler of [GET /admin/audit-logs], taken by itself (the
    hooks of the server run before and after it), settles without
    changing the stores.  It answers 500 with the fixed failure body,
    or 200 with [limit] and [offset] as it read them ([limit] 100 and
    [offset] 0 when absent or 0), [count] the number of rows, and rows
    that are in the table and meet the query (a filter that is absent
    or falsy is not applied), newest first, at most [limit] of them;
    when [offset] is 0 and fewer than [limit] rows come back, every row
    of the table that meets the query is among them.  With the pool up,
    [limit] and [offset] in the range of a row count and no status
    filter beyond 32 bits, the answer is 200. *)
Theorem admin_listing_answers (w : World.t) :
  ∃ st body,
    Admin.auditLogs q w = (Ok (st, body), w)
    ∧ ((st = 500
        ∧ body = Admin.FailureBody "DatabaseError" "Failed to query audit logs")
       ∨ ∃ logs,
           st = 200
           ∧ World.pg_pool w = true
           ∧ body = Admin.LogsBody logs (Z.of_nat (length logs)) limit_of offset_of
           ∧ Z.of_nat (length logs) ≤ limit_of
           ∧ StronglySorted (fun r1 r2 => Sql.timestamp r2 ≤ Sql.timestamp r1) logs
           ∧ (∀ row, row ∈ logs → row ∈ World.audit_logs w ∧ meets row)
           ∧ (offset_of = 0 → Z.of_nat (length logs) < limit_of →
              ∀ row, row ∈ World.audit_logs w → meets row → row ∈ logs))
    ∧ (World.pg_pool w = true →
       0 ≤ limit_of ≤ 9223372036854775807 →
       0 ≤ offset_of ≤ 9223372036854775807 →
       (∀ s, Admin.response_status q = Some s → -2147483648 ≤ s ≤ 2147483647) →
       st = 200).
Proof.
  unfold Admin.auditLogs, World.try_catch, mbind, World.M_bind, World.bind,
    PgClient.queryAuditLogs, mret, World.M_ret, World.ret.
  cbn [Admin.filters_of PgClient.f_limit PgClient.f_offset default from_option id].
  rewrite limit_of_filters, offset_of_filters.
  destruct (World.pg_pool w) eqn:Hpool;
    [|eexists _, _; split; [reflexivity|]; split; [by left | discriminate]].
  unfold PgClient.select_audit_logs.
  cbn [Admin.filters_of PgClient.f_limit PgClient.f_offset PgClient.f_response_status
       default from_option id].
  rewrite limit_of_filters, offset_of_filters.
  set (limit := limit_of). set (offset := offset_of).
  destruct (PgClient.row_count limit) eqn:Hlimit; cbn [andb].
  2:{ eexists _, _. split; [reflexivity|]. split; [by left|].
      intros _ Hl _ _. unfold PgClient.row_count in Hlimit. lia. }
  destruct (PgClient.row_count offset) eqn:Hoffset; cbn [andb].
  2:{ eexists _, _. split; [reflexivity|]. split; [by left|].
      intros _ _ Ho _. unfold PgClient.row_count in Hoffset. lia. }
  destruct (from_option _ true _) eqn:Hstatus.
  2:{ eexists _, _. split; [reflexivity|]. split; [by left|].
      intros _ _ _ Hs. exfalso. revert Hstatus.
      destruct (Admin.response_status q) as [s|]; [|discriminate]. cbn.
      destruct (s =? 0); [discriminate|]. cbn.
      destruct (s =? 0); [discriminate|]. cbn.
      specialize (Hs s eq_refl). unfold PgClient.int4.
      destruct (Z.leb_spec (-2147483648) s), (Z.leb_spec s 2147483647); try lia.
      cbn. intros Hd.
      first [discriminate Hd | apply bool_decide_eq_false in Hd; destruct Hd; eauto]. }
  eexists _, _. split; [reflexivity|]. split; [|reflexivity].
  right. eexists. split; [reflexivity|]. split; [reflexivity|]. split; [reflexivity|].
  set (matched := filter (fun r => PgClient.matches (Admin.filters_of q) r = true)
                    (World.audit_logs w)).
  assert (Hsub : take (Z.to_nat limit)
                   (drop (Z.to_nat offset) (merge_sort PgClient.newest_first matched))
                 `sublist_of` merge_sort PgClient.newest_first matched).
  { etrans; [apply sublist_take | apply sublist_drop]. }
  unfold PgClient.row_count in Hlimit.
  split.
  { rewrite length_take. lia. }
  split.
  { eapply StronglySorted_sublist; [exact Hsub|].
    apply (StronglySorted_merge_sort PgClient.newest_first). }
  split.
  - intros row Hrow.
    assert (Hin : row ∈ matched).
    { rewrite <- (merge_sort_Permutation PgClient.newest_first matched).
      by eapply elem_of_sublist. }
    subst matched. apply list_elem_of_filter in Hin as [Hm Hin].
    split; [exact Hin|]. by apply matches_filters.
  - intros Hzero Hfew row Hin Hmeets.
    rewrite Hzero in *. cbn [Z.to_nat drop] in *.
    rewrite length_take in Hfew.
    rewrite take_ge by lia.
    rewrite (merge_sort_Permutation PgClient.newest_first matched).
    subst matched. apply list_elem_of_filter. split; [|exact Hin].
    by apply matches_filters.
Qed.

End listing.


Lemma erasure_is_exact_witness :
  ∃ n w',
    PgClient.deleteClientAuditLogs "aa" Cases.audited = (Ok n, w')
    ∧ n + Z.of_nat (length (World.audit_logs w')) = 2
    ∧ PgClient.deleteClientAuditLogs "aa" w' = (Ok 0, w').
Proof.
  destruct (erasure_is_exact "aa" Cases.audited eq_refl)
    as (n & w' & Hrun & _ & _ & Hcount & _ & _ & Hagain).
  exists n, w'. split; [exact Hrun|]. split; [exact Hcount | exact Hagain].
Defined.

Lemma erasure_reaches_logged_rows_witness :
  World.audit_logs
    (snd (PgClient.deleteClientAuditLogs (Sha256.hexdigest "203.0.113.7")
            (snd (AuditLogger.log Samples.cfg Samples.clock Samples.post_chat
                    Samples.reply403 ∅ Cases.audited))))
  = Samples.table.
Proof.
  rewrite (erasure_reaches_logged_rows Samples.cfg Samples.clock Samples.post_chat
             Samples.reply403 ∅ Cases.audited eq_refl).
  vm_compute. reflexivity.
Defined.

Lemma erasure_misses_queued_entries_witness :
  ∃ row,
    row ∈ World.audit_logs
            (snd (AuditLogger._processQueue Cases.last_first
                    (snd (PgClient.deleteClientAuditLogs (Sha256.hexdigest "203.0.113.7")
                            (snd (AuditLogger.log Samples.cfg_async Samples.clock
                                    Samples.post_chat Samples.reply403 ∅
                                    Cases.audited))))))
    ∧ Sql.client_ip_hash row = Sha256.hexdigest "203.0.113.7".
Proof.
  destruct (erasure_misses_queued_entries Samples.cfg_async Samples.clock
              Cases.last_first Samples.post_chat Samples.reply403 ∅ Cases.audited)
    as (_ & row & Hin & Hhash & _).
  - intros w0 batch. symmetry. apply Permutation_rev.
  - reflexivity.
  - reflexivity.
  - reflexivity.
  - reflexivity.
  - reflexivity.
  - vm_compute. reflexivity.
  - exists row. split; [exact Hin | exact Hhash].
Defined.

(** ** The request lifecycle *)

Lemma audit_kept_refl (w : World.t) : Frame.audit_kept w w.
Proof. by repeat split. Qed.

Lemma audit_kept_trans (w1 w2 w3 : World.t) :
  Frame.audit_kept w1 w2 → Frame.audit_kept w2 w3 → Frame.audit_kept w1 w3.
Proof.
  intros (? & ? & ? & ? & ?) (? & ? & ? & ? & ?). repeat split; congruence.
Qed.

Lemma audit_kept_tick (w : World.t) : Frame.audit_kept w (World.tick w).
Proof. by repeat split. Qed.

(** A run of [checkLimit] settles with a decision and works on Redis
    and the clock only. *)
Lemma checkLimit_settles (cfg : Config.t) (clock : Clock) (ip : string)
    (apiKey : option string) (w : World.t) :
  ∃ d w1,
    RateLimiter.checkLimit cfg clock ip apiKey w = (Ok d, w1)
    ∧ Frame.audit_kept w w1
    ∧ World.redis_connected w1 = World.redis_connected w
    ∧ (World.redis_connected w = false → RateLimiter.allowed d = true).
Proof.
  limiter_cases cfg clock ip apiKey w; eexists _, _; (split; [reflexivity|]);
    (split; [by repeat split|]); (split; [cbn; congruence|]);
    intros ?; first [discriminate | reflexivity].
Qed.

Lemma addRateLimitHeaders_other (r : Http.reply) (d : RateLimiter.decision) (k : string) :
  k ≠ "X-RateLimit-Limit" → k ≠ "X-RateLimit-Remaining" → k ≠ "X-RateLimit-Reset" →
  Http.rheaders (Plugins.addRateLimitHeaders r d) !! k = Http.rheaders r !! k
  ∧ Http.sent_body (Plugins.addRateLimitHeaders r d) = Http.sent_body r.
Proof.
  intros H1 H2 H3. unfold Plugins.addRateLimitHeaders.
  destruct (RateLimiter.limit d), (RateLimiter.remaining d), (RateLimiter.reset d);
    cbn [Http.header Http.rheaders Http.sent_body];
    rewrite ?lookup_insert_ne by done; done.
Qed.

Lemma addRetryAfter_other (r : Http.reply) (d : RateLimiter.decision) (k : string) :
  k ≠ "Retry-After" →
  Http.rheaders (Plugins.addRetryAfter r d) !! k = Http.rheaders r !! k
  ∧ Http.statusCode (Plugins.addRetryAfter r d) = Http.statusCode r
  ∧ Http.sent_body (Plugins.addRetryAfter r d) = Http.sent_body r.
Proof.
  intros H1. unfold Plugins.addRetryAfter.
  destruct (RateLimiter.retryAfter d) as [n|]; [|done].
  destruct (n =? 0); cbn [Http.header Http.rheaders Http.statusCode Http.sent_body];
    rewrite ?lookup_insert_ne by done; done.
Qed.


Section hooks.
Variable env : Env.t.

Local Abbreviation rid q w :=
  (default (Env.generator env (World.ticks w)) (Http.truthy_header q "x-request-id")).

(** What the [onRequest] hooks do to a request. *)
Lemma hooks_run (q : Http.request) (w : World.t) :
  ∃ q1 r1 w1,
    Server.run_hooks (Server.onRequestHooks env) q Http.fresh_reply w = (Ok (q1, r1), w1)
    ∧ Frame.audit_kept w w1
    ∧ Frame.same_call q q1
    ∧ Http.id q1 = rid q w
    ∧ Http.rheaders r1 !! "x-request-id" = Some (Http.HStr (rid q w))
    ∧ ((Http.sent r1 = true
        ∧ Http.statusCode r1 = 429
        ∧ (∃ ts d, Http.sent_body r1
                   = Some (Http.ErrorBody "RateLimitExceeded"
                             "Too many requests. Please try again later." (rid q w) ts d))
        ∧ Config.rateLimiting (Env.cfg env) = true
        ∧ World.redis_connected w = true
        ∧ Http.url q ≠ "/health" ∧ Http.url q ≠ "/ready"
        ∧ Http.auditContext q1 = Http.auditContext q
        ∧ Http.startTime q1 = Http.startTime q)
       ∨ (Http.sent r1 = false
          ∧ Http.statusCode r1 = 200
          ∧ Http.sent_body r1 = None
          ∧ (∃ t, Http.startTime q1 = Some t)
          ∧ Http.auditContext q1
            = (if Config.auditLogging (Env.cfg env)
               then Some Plugins.initial_auditContext else Http.auditContext q)
          ∧ (Http.url q = "/health" ∨ Http.url q = "/ready" → Frame.redis_kept w w1))).
Proof.
  unfold Server.onRequestHooks.
  set (r0 := Http.header "x-request-id" (Http.HStr (rid q w)) Http.fresh_reply).
  set (q0 := Http.with_id (rid q w) q).
  assert (Hid0 : Http.rheaders r0 !! "x-request-id" = Some (Http.HStr (rid q w))).
  { subst r0. unfold Http.header. cbn [Http.rheaders]. by rewrite lookup_insert_eq. }
  (* the hooks after the rate limiter *)
  assert (Htail : ∀ r1 w1,
            Http.sent r1 = false →
            ∃ q2 w2,
              Server.run_hooks
                ((if Config.auditLogging (Env.cfg env) then [Plugins.auditInitHook] else [])
                 ++ [Plugins.timingHook env]) q0 r1 w1 = (Ok (q2, r1), w2)
              ∧ Frame.audit_kept w1 w2 ∧ Frame.redis_kept w1 w2
              ∧ Frame.same_call q q2 ∧ Http.id q2 = rid q w
              ∧ (∃ t, Http.startTime q2 = Some t)
              ∧ Http.auditContext q2
                = (if Config.auditLogging (Env.cfg env)
                   then Some Plugins.initial_auditContext else Http.auditContext q)).
  { intros r1 w1 Hsent.
    destruct (Config.auditLogging (Env.cfg env)); cbn [app Server.run_hooks];
      unfold Plugins.auditInitHook, Plugins.timingHook, mbind, World.M_bind, World.bind,
        mret, World.M_ret, World.ret, Date_now; cbn [fst snd]; rewrite ?Hsent;
      cbn [fst snd]; rewrite ?Hsent;
      eexists _, _; (split; [reflexivity|]); cbn;
      repeat split; eauto. }
  cbn [app Server.run_hooks].
  unfold mbind at 1, World.M_bind at 1, World.bind at 1.
  unfold Plugins.requestIdHook at 1. fold q0 r0. cbn [fst snd].
  change (Http.sent r0) with false. cbv iota.
  destruct (Config.rateLimiting (Env.cfg env)) eqn:Hon; cbn [app].
  2:{ destruct (Htail r0 w eq_refl) as (q2 & w2 & Hrun & Hk & Hr & Hsame & Hid & Ht & Hctx).
      exists q2, r0, w2. split; [exact Hrun|]. split; [exact Hk|]. split; [exact Hsame|].
      split; [exact Hid|]. split; [exact Hid0|]. right.
      split; [reflexivity|]. split; [reflexivity|]. split; [reflexivity|].
      split; [exact Ht|]. split; [exact Hctx|]. intros _. assumption. }
  cbn [Server.run_hooks].
  unfold mbind at 1, World.M_bind at 1, World.bind at 1.
  unfold Plugins.rateLimitHook at 1.
  change (Http.url q0) with (Http.url q). change (Http.ip q0) with (Http.ip q).
  change (Http.extractApiKey q0) with (Http.extractApiKey q).
  change (Http.id q0) with (rid q w).
  destruct (String.eqb_spec (Http.url q) "/health") as [Hh|Hh]; cbn [orb].
  { unfold mret at 1, World.M_ret at 1, World.ret at 1. cbn [fst snd].
    change (Http.sent r0) with false. cbv iota.
    destruct (Htail r0 w eq_refl) as (q2 & w2 & Hrun & Hk & Hr & Hsame & Hid & Ht & Hctx).
    exists q2, r0, w2. split; [exact Hrun|]. split; [exact Hk|]. split; [exact Hsame|].
    split; [exact Hid|]. split; [exact Hid0|]. right.
      split; [reflexivity|]. split; [reflexivity|]. split; [reflexivity|].
      split; [exact Ht|]. split; [exact Hctx|]. intros _. assumption. }
  destruct (String.eqb_spec (Http.url q) "/ready") as [Hr|Hr].
  { unfold mret at 1, World.M_ret at 1, World.ret at 1. cbn [fst snd].
    change (Http.sent r0) with false. cbv iota.
    destruct (Htail r0 w eq_refl) as (q2 & w2 & Hrun & Hk & Hrk & Hsame & Hid & Ht & Hctx).
    exists q2, r0, w2. split; [exact Hrun|]. split; [exact Hk|]. split; [exact Hsame|].
    split; [exact Hid|]. split; [exact Hid0|]. right.
      split; [reflexivity|]. split; [reflexivity|]. split; [reflexivity|].
      split; [exact Ht|]. split; [exact Hctx|]. intros _. assumption. }
  destruct (checkLimit_settles (Env.cfg env) (Env.clock env) (Http.ip q)
              (Http.extractApiKey q) w) as (d & w1 & Hcheck & Hk1 & Hconn1 & Hopen).
  unfold World.try_catch at 1.
  unfold mbind at 1, World.M_bind at 1, World.bind at 1. rewrite Hcheck.
  destruct (addRateLimitHeaders_shape r0 d) as (Hs1 & Hc1 & _ & _).
  destruct (addRateLimitHeaders_other r0 d "x-request-id") as (Hh1 & Hb1); try done.
  destruct (RateLimiter.allowed d) eqn:Hallowed; cbn [negb].
  - unfold mret at 1, World.M_ret at 1, World.ret at 1. cbn [fst snd].
    rewrite Hs1. change (Http.sent r0) with false. cbv iota.
    destruct (Htail (Plugins.addRateLimitHeaders r0 d) w1)
      as (q2 & w2 & Hrun & Hk & Hrk & Hsame & Hid & Ht & Hctx); [by rewrite Hs1|].
    exists q2, (Plugins.addRateLimitHeaders r0 d), w2.
    split; [exact Hrun|]. split; [by eapply audit_kept_trans|]. split; [exact Hsame|].
    split; [exact Hid|]. split; [by rewrite Hh1|]. right.
    split; [by rewrite Hs1|]. split; [by rewrite Hc1|]. split; [by rewrite Hb1|].
    split; [exact Ht|]. split; [exact Hctx|]. intros [?|?]; done.
  - destruct (addRetryAfter_other (Plugins.addRateLimitHeaders r0 d) d "x-request-id")
      as (Hh2 & Hc2 & Hb2); [done|].
    unfold mbind, World.M_bind, World.bind, mret, World.M_ret, World.ret, Date_now.
    cbn [fst snd Http.sent Http.send].
    eexists _, _, _. split; [reflexivity|].
    split; [eapply audit_kept_trans; [exact Hk1 | apply audit_kept_tick]|].
    split; [by repeat split|]. split; [reflexivity|].
    split; [cbn [Http.rheaders Http.status Http.send]; by rewrite Hh2, Hh1|].
    left. split; [reflexivity|]. split; [reflexivity|].
    split; [by eexists _, _|]. split; [reflexivity|].
    split; [destruct (World.redis_connected w) eqn:Hc;
            [done | discriminate (Hopen eq_refl)]|].
    by repeat split.
Qed.

End hooks.

Lemma same_call_refl (q : Http.request) : Frame.same_call q q.
Proof. by repeat split. Qed.

Lemma same_call_trans (q1 q2 q3 : Http.request) :
  Frame.same_call q1 q2 → Frame.same_call q2 q3 → Frame.same_call q1 q3.
Proof.
  intros (? & ? & ? & ? & ? & ?) (? & ? & ? & ? & ? & ?). repeat split; congruence.
Qed.

(** An error thrown by a handler, as the error handler answers it. *)
Lemma handled_throw (env : Env.t) (q : Http.request) (r : Http.reply) (w : World.t)
    (m : M (Http.request * Http.reply)) (e : Err.t) :
  m w = (Throw e, w) →
  Err.retryAfter e = None →
  ∃ q' r' ts,
    World.try_catch m (fun e => Plugins.errorHandler env e q r) w
      = (Ok (q', r'), World.tick w)
    ∧ q' = q
    ∧ r' = Http.send
             (Http.ErrorBody (Plugins.or_string (Err.name e) "InternalServerError")
                (Plugins.or_string (Err.message e) "An unexpected error occurred")
                (Http.id q) ts Http.NoDetails)
             (Http.status (default 500 (Plugins.nonzero (Err.statusCode e))) r).
Proof.
  intros Hrun Hra. unfold World.try_catch. rewrite Hrun.
  unfold Plugins.errorHandler, mbind, World.M_bind, World.bind, Date_now,
    mret, World.M_ret, World.ret.
  rewrite Hra. cbn [Plugins.nonzero].
  eexists _, _, _. split; [reflexivity|]. split; reflexivity.
Qed.

Ltac in_list := rewrite !elem_of_cons; auto 12.

(** The chat handler together with the error handler: what it answers. *)
Lemma chat_handled (env : Env.t) (q : Http.request) (r : Http.reply) (w : World.t) :
  ∃ q' r' typ msg ts d,
    World.try_catch (Routes.chat env q r)
      (fun e => Plugins.errorHandler env e q r) w = (Ok (q', r'), World.tick w)
    ∧ Http.sent r' = true
    ∧ Http.sent_body r' = Some (Http.ErrorBody typ msg (Http.id q) ts d)
    ∧ Http.rheaders r' = Http.rheaders r
    ∧ Http.id q' = Http.id q
    ∧ Frame.same_call q q'
    ∧ Http.startTime q' = Http.startTime q
    ∧ ((Http.statusCode r' ∈ [400; 413; 415; 500; 501; 503]
        ∧ Http.auditContext q' = Http.auditContext q)
       ∨ (Http.statusCode r' = 403
          ∧ Config.auditLogging (Env.cfg env) = true
          ∧ ∃ a, Http.auditContext q'
                 = Some (JS.spread (default ∅ (Http.auditContext q))
                           (Routes.blocked_patch a)))).
Proof.
  assert (Hthrow : ∀ e,
            Routes.chat env q r w = (Throw e, w) →
            Err.retryAfter e = None →
            default 500 (Plugins.nonzero (Err.statusCode e)) ∈ [400; 413; 415; 500; 501; 503] →
            ∃ q' r' typ msg ts d,
              World.try_catch (Routes.chat env q r)
                (fun e => Plugins.errorHandler env e q r) w = (Ok (q', r'), World.tick w)
              ∧ Http.sent r' = true
              ∧ Http.sent_body r' = Some (Http.ErrorBody typ msg (Http.id q) ts d)
              ∧ Http.rheaders r' = Http.rheaders r
              ∧ Http.id q' = Http.id q
              ∧ Frame.same_call q q'
              ∧ Http.startTime q' = Http.startTime q
              ∧ ((Http.statusCode r' ∈ [400; 413; 415; 500; 501; 503]
                  ∧ Http.auditContext q' = Http.auditContext q)
                 ∨ (Http.statusCode r' = 403
                    ∧ Config.auditLogging (Env.cfg env) = true
                    ∧ ∃ a, Http.auditContext q'
                           = Some (JS.spread (default ∅ (Http.auditContext q))
                                     (Routes.blocked_patch a))))).
  { intros e Hrun Hra Hcode.
    destruct (handled_throw env q r w _ e Hrun Hra) as (q' & r' & ts & Heq & -> & ->).
    eexists _, _, _, _, _, _. split; [exact Heq|].
    cbn [Http.send Http.status Http.sent Http.sent_body Http.rheaders Http.statusCode].
    split; [reflexivity|]. split; [reflexivity|]. split; [reflexivity|].
    split; [reflexivity|]. split; [apply same_call_refl|]. split; [reflexivity|].
    left. split; [exact Hcode | reflexivity]. }
  revert Hthrow. unfold Routes.chat.
  destruct (Http.body q) as [b|];
    [|intros Hthrow; eapply Hthrow;
      [reflexivity | reflexivity
      | unfold Http.rejection_error; cbn [Err.statusCode];
        destruct (Http.kind (Env.intake env q)); cbn; in_list]].
  destruct (length (Http.messages b) =? 0)%nat;
    [intros Hthrow; eapply Hthrow; [reflexivity | reflexivity | cbn; in_list]|].
  destruct (_ <? Config.minContentLength _);
    [intros Hthrow; eapply Hthrow; [reflexivity | reflexivity | cbn; in_list]|].
  destruct (Config.maxContentLength _ <? _);
    [intros Hthrow; eapply Hthrow; [reflexivity | reflexivity | cbn; in_list]|].
  destruct (fst (AnalyzerClient.checkContent _ _)) as [a|[e|]];
    [|intros Hthrow; eapply Hthrow; [reflexivity | reflexivity | cbn; in_list]
     |intros Hthrow; eapply Hthrow; [reflexivity | reflexivity | cbn; in_list]].
  unfold Routes.on_verdict, Plugins.setAuditContext.
  destruct (AnalyzerClient.is_safe a); cbn [negb].
  - intros _.
    unfold World.try_catch, mbind, World.M_bind, World.bind, Date_now, Routes.respond,
      mret, World.M_ret, World.ret.
    eexists _, _, _, _, _, _. split; [reflexivity|].
    cbn [Http.send Http.status Http.sent Http.sent_body Http.rheaders Http.statusCode].
    split; [reflexivity|]. split; [reflexivity|]. split; [reflexivity|].
    split; [reflexivity|]. split; [apply same_call_refl|]. split; [reflexivity|].
    left. split; [in_list | reflexivity].
  - destruct (Config.auditLogging (Env.cfg env)) eqn:Haudit.
    + intros _.
      unfold World.try_catch, mbind, World.M_bind, World.bind, Date_now, Routes.respond,
        mret, World.M_ret, World.ret.
      eexists _, _, _, _, _, _. split; [reflexivity|].
      cbn [Http.send Http.status Http.sent Http.sent_body Http.rheaders Http.statusCode
           Http.with_auditContext Http.id Http.startTime Http.auditContext].
      split; [reflexivity|]. split; [reflexivity|]. split; [reflexivity|].
      split; [reflexivity|]. split; [by repeat split|]. split; [reflexivity|].
      right. split; [reflexivity|]. split; [reflexivity|]. by exists a.
    + intros Hthrow. eapply Hthrow; [reflexivity | reflexivity | cbn; in_list].
Qed.

(** The status of the answer, by whether the request reached the handler. *)
Lemma chat_status_by_body (env : Env.t) (q q' : Http.request) (r r' : Http.reply)
    (w w' : World.t) :
  World.try_catch (Routes.chat env q r)
    (fun e => Plugins.errorHandler env e q r) w = (Ok (q', r'), w') →
  match Http.body q with
  | None => Http.statusCode r' ∈ [400; 413; 415]
  | Some _ => Http.statusCode r' ∈ [400; 403; 500; 501; 503]
  end.
Proof.
  assert (Hthrow : ∀ e (l : list Z),
            Err.retryAfter e = None →
            default 500 (Plugins.nonzero (Err.statusCode e)) ∈ l →
            World.try_catch (World.throw e)
              (fun e => Plugins.errorHandler env e q r) w = (Ok (q', r'), w') →
            Http.statusCode r' ∈ l).
  { intros e l Hra Hcode Hrun.
    destruct (handled_throw env q r w (World.throw e) e eq_refl Hra)
      as (q0 & r0 & ts & Heq & -> & ->).
    rewrite Heq in Hrun. injection Hrun as _ <- _. exact Hcode. }
  unfold Routes.chat, Routes.badRequest, Routes.serviceUnavailable.
  destruct (Http.body q) as [b|].
  2:{ apply Hthrow; [reflexivity|].
      unfold Http.rejection_error. cbn [Err.statusCode].
      destruct (Http.kind (Env.intake env q)); cbn; in_list. }
  destruct (length (Http.messages b) =? 0)%nat; [apply Hthrow; [reflexivity | cbn; in_list]|].
  destruct (_ <? Config.minContentLength _); [apply Hthrow; [reflexivity | cbn; in_list]|].
  destruct (Config.maxContentLength _ <? _); [apply Hthrow; [reflexivity | cbn; in_list]|].
  destruct (fst (AnalyzerClient.checkContent _ _)) as [a|[e|]];
    [|apply Hthrow; [reflexivity | cbn; in_list]..].
  unfold Routes.on_verdict, Plugins.setAuditContext.
  destruct (AnalyzerClient.is_safe a); cbn [negb].
  - unfold World.try_catch, mbind, World.M_bind, World.bind, Date_now, Routes.respond,
      mret, World.M_ret, World.ret.
    intros [= _ <- _]. cbn. in_list.
  - destruct (Config.auditLogging (Env.cfg env)).
    + unfold World.try_catch, mbind, World.M_bind, World.bind, Date_now, Routes.respond,
        mret, World.M_ret, World.ret.
      intros [= _ <- _]. cbn. in_list.
    + change (World.try_catch _ (fun _ => World.throw ?e) w) with (World.throw (A:=Http.request * Http.reply) e w).
      apply Hthrow; [reflexivity | cbn; in_list].
Qed.

Section chat_lifecycle.
Variable env : Env.t.

Local Abbreviation rid q w :=
  (default (Env.generator env (World.ticks w)) (Http.truthy_header q "x-request-id")).

(** Hooks, handler and error handler on a chat request. *)
Lemma chat_answer (q : Http.request) (w : World.t) :
  ∃ q2 r2 w2,
    Server.answer env (Routes.chat env) q w = (Ok (q2, r2), w2)
    ∧ Frame.audit_kept w w2
    ∧ Frame.same_call q q2
    ∧ Http.id q2 = rid q w
    ∧ Http.sent r2 = true
    ∧ Http.rheaders r2 !! "x-request-id" = Some (Http.HStr (rid q w))
    ∧ (∃ typ msg ts d,
          Http.sent_body r2 = Some (Http.ErrorBody typ msg (rid q w) ts d))
    ∧ ((Http.statusCode r2 = 429
        ∧ Http.auditContext q2 = Http.auditContext q
        ∧ Config.rateLimiting (Env.cfg env) = true
        ∧ World.redis_connected w = true)
       ∨ (Http.statusCode r2 ∈ [400; 413; 415; 500; 501; 503]
          ∧ Http.auditContext q2
            = (if Config.auditLogging (Env.cfg env)
               then Some Plugins.initial_auditContext else Http.auditContext q))
       ∨ (Http.statusCode r2 = 403
          ∧ Config.auditLogging (Env.cfg env) = true
          ∧ ∃ a, Http.auditContext q2
                 = Some (JS.spread Plugins.initial_auditContext
                           (Routes.blocked_patch a)))).
Proof.
  unfold Server.answer. unfold mbind at 1, World.M_bind at 1, World.bind at 1.
  destruct (hooks_run env q w)
    as (q1 & r1 & w1 & -> & Hk & Hsame & Hid & Hhdr & Hcases).
  cbn [fst snd].
  destruct Hcases as [(Hsent & Hcode & Hbody & Hon & Hconn & _ & _ & Hctx & _)
                     |(Hsent & Hcode & Hbody & _ & Hctx & _)]; rewrite Hsent.
  - exists q1, r1, w1. split; [reflexivity|]. split; [exact Hk|]. split; [exact Hsame|].
    split; [exact Hid|]. split; [exact Hsent|]. split; [exact Hhdr|].
    split; [destruct Hbody as (ts & d & ?); by eexists _, _, _, _|].
    left. by repeat split.
  - destruct (chat_handled env q1 r1 w1)
      as (q2 & r2 & typ & msg & ts & d & -> & Hsent2 & Hbody2 & Hhdr2 & Hid2 & Hsame2
          & _ & Hout).
    exists q2, r2, (World.tick w1). split; [reflexivity|].
    split; [eapply audit_kept_trans; [exact Hk | apply audit_kept_tick]|].
    split; [by eapply same_call_trans|]. split; [congruence|].
    split; [exact Hsent2|]. split; [by rewrite Hhdr2|].
    split; [rewrite Hbody2, Hid; by eexists _, _, _, _|].
    right. destruct Hout as [(Hc & Hctx2)|(Hc & Haudit & a & Hctx2)].
    + left. split; [exact Hc | congruence].
    + right. split; [exact Hc|]. split; [exact Haudit|]. exists a.
      rewrite Hctx2, Hctx, Haudit. reflexivity.
Qed.

Lemma chat_answer_status (q q2 : Http.request) (r2 : Http.reply) (w w2 : World.t) :
  Server.answer env (Routes.chat env) q w = (Ok (q2, r2), w2) →
  match Http.body q with
  | None => Http.statusCode r2 ∈ [400; 413; 415; 429]
  | Some _ => Http.statusCode r2 ∈ [400; 403; 429; 500; 501; 503]
  end.
Proof.
  unfold Server.answer. unfold mbind at 1, World.M_bind at 1, World.bind at 1.
  destruct (hooks_run env q w)
    as (q1 & r1 & w1 & -> & _ & Hsame & _ & _ & Hcases).
  cbn [fst snd].
  destruct Hcases as [(Hsent & Hcode & _)|(Hsent & _)]; rewrite Hsent.
  - intros [= _ <- _]. rewrite Hcode. destruct (Http.body q); in_list.
  - intros Hrun. apply chat_status_by_body in Hrun.
    destruct Hsame as (_ & _ & _ & _ & Hbody & _). rewrite Hbody in Hrun.
    destruct (Http.body q); rewrite !elem_of_cons in *; clear -Hrun; tauto.
Qed.

(** [lifecycle] is [answer] followed by the [onResponse] hooks. *)
Lemma chat_lifecycle (q : Http.request) (w : World.t) :
  ∃ q2 r2 w2,
    Server.answer env (Routes.chat env) q w = (Ok (q2, r2), w2)
    ∧ Server.lifecycle env (Routes.chat env) q w
      = (Ok (q2, r2), snd (Server.onResponse env q2 r2 w2)).
Proof.
  destruct (chat_answer q w) as (q2 & r2 & w2 & Hrun & _).
  exists q2, r2, w2. split; [exact Hrun|].
  unfold Server.lifecycle, World.try_catch, mbind, World.M_bind, World.bind.
  rewrite Hrun. cbn [fst snd].
  destruct (onResponse_effects env q2 r2 w2) as (w3 & -> & _). reflexivity.
Qed.

End chat_lifecycle.

(** The asynchronous path of [log], as a run. *)
Lemma log_async_run (cfg : Config.t) (clock : Clock) (q : Http.request)
    (r : Http.reply) (options : gmap string JS.value) (w : World.t) :
  Config.auditLogging cfg = true →
  Config.auditAsync cfg = true →
  (length (World.queue w) < AuditLogger.maxQueueSize)%nat →
  AuditLogger.log cfg clock q r options w
  = (Ok tt,
     AuditLogger.set_queue
       (World.queue w
        ++ [AuditLogger.build_entry q r options (clock (World.ticks w))
              (clock (S (World.ticks w)))])
       (World.processing w) (World.tick (World.tick w))).
Proof.
  intros Hlog Hasync Hroom.
  unfold AuditLogger.log, World.try_catch, mbind, World.M_bind, World.bind,
    Date_now, AuditLogger._queueLog.
  rewrite Hlog, Hasync. cbn -[Nat.leb AuditLogger.maxQueueSize].
  destruct (Nat.leb_spec AuditLogger.maxQueueSize (length (World.queue w))); [lia|].
  reflexivity.
Qed.

(** X17: whatever the request, the configuration, the analyzer and
    the state of Redis and PostgreSQL, a request to the chat route is
    answered with an error body, never with 200.  A request that
    Fastify turns down before the handler (payload too large,
    unsupported media type, malformed or invalid body) gets 413, 415 or
    400, or 429 from the rate limiter, which runs first; a request with
    a parsed body gets 429, or 400, 403, 500, 501 or 503 from the
    handler.  The body carries the identifier that the [x-request-id]
    response header carries. *)
Theorem chat_never_completes (env : Env.t) (q : Http.request) (w : World.t) :
  ∃ q' r' w',
    Server.lifecycle env (Routes.chat env) q w = (Ok (q', r'), w')
    ∧ Http.sent r' = true
    ∧ Http.statusCode r' ∈ [400; 403; 413; 415; 429; 500; 501; 503]
    ∧ match Http.body q with
      | None => Http.statusCode r' ∈ [400; 413; 415; 429]
      | Some _ => Http.statusCode r' ∈ [400; 403; 429; 500; 501; 503]
      end
    ∧ ∃ typ msg requestId ts d,
        Http.sent_body r' = Some (Http.ErrorBody typ msg requestId ts d)
        ∧ Http.rheaders r' !! "x-request-id" = Some (Http.HStr requestId).
Proof.
  destruct (chat_lifecycle env q w) as (q2 & r2 & w2 & Hans & Hrun).
  destruct (chat_answer env q w)
    as (q2' & r2' & w2' & Hans' & _ & _ & _ & Hsent & Hhdr & Hbody & Hcode).
  rewrite Hans in Hans'. injection Hans' as <- <- <-.
  eexists _, _, _. split; [exact Hrun|]. split; [exact Hsent|].
  split; [|split].
  - rewrite !elem_of_cons.
    destruct Hcode as [(-> & _)|[(Hc & _)|(-> & _)]]; [auto 10| |auto 10].
    rewrite !elem_of_cons in Hc. clear -Hc. tauto.
  - by eapply chat_answer_status.
  - destruct Hbody as (typ & msg & ts & d & Hbody).
    by eexists _, _, _, _, _.
Qed.


Lemma initial_not_blocked :
  JS.or (JS.get Plugins.initial_auditContext "is_blocked") (JS.Bool false) = JS.Bool false.
Proof. reflexivity. Qed.

(** X18: with audit logging on and the queue in use, a chat request
    leaves exactly one entry on the queue and nothing in the table; the
    entry carries the request identifier, the path, the digest of the
    caller's address and the status that was sent, and its [is_blocked]
    is [true] exactly when that status is 403. *)
Theorem chat_audited_once (env : Env.t) (q : Http.request) (w : World.t) :
  Config.auditLogging (Env.cfg env) = true →
  Config.auditAsync (Env.cfg env) = true →
  (length (World.queue w) < AuditLogger.maxQueueSize)%nat →
  Http.url q ≠ "/health" →
  Http.auditContext q = None →
  ∃ q' r' w' e,
    Server.lifecycle env (Routes.chat env) q w = (Ok (q', r'), w')
    ∧ World.queue w' = World.queue w ++ [e]
    ∧ World.audit_logs w' = World.audit_logs w
    ∧ Entry.request_id e = Http.id q'
    ∧ Entry.path e = Http.url q
    ∧ Entry.client_ip_hash e = AuditLogger._hash (Some (Http.ip q))
    ∧ Entry.response_status e = Http.statusCode r'
    ∧ Entry.is_blocked e = JS.Bool (Http.statusCode r' =? 403).
Proof.
  intros Hlog Hasync Hroom Hurl Hfresh.
  destruct (chat_lifecycle env q w) as (q2 & r2 & w2 & Hans & Hrun).
  destruct (chat_answer env q w)
    as (q2' & r2' & w2' & Hans' & Hk & Hsame & _ & _ & _ & _ & Hcode).
  rewrite Hans in Hans'. injection Hans' as <- <- <-.
  destruct Hk as (_ & Hlogs & _ & Hqueue & _).
  destruct Hsame as (_ & Hu & Hip & _).
  rewrite Hrun.
  unfold Server.onResponse, Plugins.auditResponseHook, World.try_catch.
  rewrite Hlog, Hu. destruct (String.eqb_spec (Http.url q) "/health") as [?|_]; [done|].
  rewrite log_async_run by (rewrite ?Hqueue; assumption).
  cbn [snd]. eexists _, _, _, _. split; [reflexivity|].
  cbn [AuditLogger.set_queue World.queue World.audit_logs World.tick].
  split; [by rewrite Hqueue|]. split; [exact Hlogs|].
  cbn [AuditLogger.build_entry Entry.request_id Entry.path Entry.client_ip_hash
       Entry.response_status Entry.is_blocked].
  split; [reflexivity|]. split; [exact Hu|].
  split; [by rewrite Hip|].
  split; [reflexivity|].
  destruct Hcode as [(-> & -> & _)|[(Hc & ->)|(-> & _ & a & ->)]].
  - rewrite Hfresh. reflexivity.
  - rewrite Hlog. cbn [from_option id]. rewrite initial_not_blocked.
    rewrite !elem_of_cons in Hc.
    destruct Hc as [->|[->|[->|[->|[->|[->|Hc]]]]]];
      [reflexivity..|by apply elem_of_nil in Hc].
  - cbn [from_option id].
    destruct (blocked_patch_lookup a Plugins.initial_auditContext) as (-> & _).
    reflexivity.
Qed.

Lemma chat_audited_once_witness :
  ∃ q' r' w' e,
    Server.lifecycle Samples.env_async (Routes.chat Samples.env_async)
      Samples.post_chat World.initial = (Ok (q', r'), w')
    ∧ World.queue w' = World.queue World.initial ++ [e]
    ∧ World.audit_logs w' = World.audit_logs World.initial
    ∧ Entry.request_id e = Http.id q'
    ∧ Entry.path e = Http.url Samples.post_chat
    ∧ Entry.client_ip_hash e = AuditLogger._hash (Some (Http.ip Samples.post_chat))
    ∧ Entry.response_status e = Http.statusCode r'
    ∧ Entry.is_blocked e = JS.Bool (Http.statusCode r' =? 403).
Proof.
  apply (chat_audited_once Samples.env_async Samples.post_chat World.initial);
    [reflexivity | reflexivity | apply Nat.ltb_lt; reflexivity | discriminate | reflexivity].
Defined.







(** X21: the identifier a caller sends in [x-request-id] is adopted
    as it is: the request takes it as its [id], and the chat route
    returns it in the response header and in the body. *)
Theorem request_id_is_the_callers (env : Env.t) (q : Http.request) (w : World.t)
    (i : string) :
  Http.headers q !! "x-request-id" = Some i →
  i ≠ "" →
  ∃ q' r' w' typ msg ts d,
    Server.lifecycle env (Routes.chat env) q w = (Ok (q', r'), w')
    ∧ Http.id q' = i
    ∧ Http.rheaders r' !! "x-request-id" = Some (Http.HStr i)
    ∧ Http.sent_body r' = Some (Http.ErrorBody typ msg i ts d).
Proof.
  intros Hhdr Hi.
  assert (Hrid : Http.truthy_header q "x-request-id" = Some i).
  { unfold Http.truthy_header. rewrite Hhdr.
    by destruct (String.eqb_spec i "") as [?|_]. }
  destruct (chat_lifecycle env q w) as (q2 & r2 & w2 & Hans & Hrun).
  destruct (chat_answer env q w)
    as (q2' & r2' & w2' & Hans' & _ & _ & Hid & _ & Hh & Hbody & _).
  rewrite Hans in Hans'. injection Hans' as <- <- <-.
  rewrite Hrid in Hid, Hh, Hbody. cbn [from_option id] in Hid, Hh, Hbody.
  destruct Hbody as (typ & msg & ts & d & Hbody).
  eexists _, _, _, typ, msg, ts, d. split; [exact Hrun|]. by repeat split.
Qed.

Lemma request_id_is_the_callers_witness :
  ∃ q' r' w' typ msg ts d,
    Server.lifecycle Samples.env (Routes.chat Samples.env) Cases.traced_chat
      World.initial = (Ok (q', r'), w')
    ∧ Http.id q' = "trace-42"
    ∧ Http.rheaders r' !! "x-request-id" = Some (Http.HStr "trace-42")
    ∧ Http.sent_body r' = Some (Http.ErrorBody typ msg "trace-42" ts d).
Proof.
  apply (request_id_is_the_callers Samples.env Cases.traced_chat World.initial
           "trace-42"); [reflexivity | discriminate].
Defined.

(** X22: only the messages of role [user] reach the analyzer.  Two
    calls that agree on identifier, address, user agent, model and user
    messages, and whose bodies pass the length checks, get the same
    reply, whatever their other messages say. *)
Theorem chat_screens_user_messages_only (env : Env.t) (q q' : Http.request)
    (r : Http.reply) (w : World.t) (b b' : Http.chat_body) :
  Http.body q = Some b →
  Http.body q' = Some b' →
  Http.id q' = Http.id q →
  Http.ip q' = Http.ip q →
  Http.truthy_header q' "user-agent" = Http.truthy_header q "user-agent" →
  Http.model b' = Http.model b →
  Http.auditContext q' = Http.auditContext q →
  filter (fun m => Http.role m = "user") (Http.messages b')
  = filter (fun m => Http.role m = "user") (Http.messages b) →
  Http.messages b ≠ [] →
  Http.messages b' ≠ [] →
  Config.minContentLength (Env.cfg env) ≤ Routes.totalContentLength (Http.messages b)
    ≤ Config.maxContentLength (Env.cfg env) →
  Config.minContentLength (Env.cfg env) ≤ Routes.totalContentLength (Http.messages b')
    ≤ Config.maxContentLength (Env.cfg env) →
  match fst (Routes.chat env q r w), fst (Routes.chat env q' r w) with
  | Ok (_, r1), Ok (_, r2) => r1 = r2
  | Throw e1, Throw e2 => e1 = e2
  | _, _ => False
  end.
Proof.
  intros Hb Hb' Hid _ _ _ Hctx Huser Hne Hne' Hlen Hlen'.
  unfold Routes.chat. rewrite Hb, Hb'.
  destruct (Http.messages b) as [|m ms] eqn:Hms; [done|].
  destruct (Http.messages b') as [|m' ms'] eqn:Hms'; [done|].
  cbn [length Nat.eqb].
  destruct (Z.ltb_spec (Routes.totalContentLength (m :: ms))
              (Config.minContentLength (Env.cfg env))); [lia|].
  destruct (Z.ltb_spec (Routes.totalContentLength (m' :: ms'))
              (Config.minContentLength (Env.cfg env))); [lia|].
  destruct (Z.ltb_spec (Config.maxContentLength (Env.cfg env))
              (Routes.totalContentLength (m :: ms))); [lia|].
  destruct (Z.ltb_spec (Config.maxContentLength (Env.cfg env))
              (Routes.totalContentLength (m' :: ms'))); [lia|].
  unfold Routes.userContent. rewrite Huser.
  destruct (fst (AnalyzerClient.checkContent _ _)) as [a|[e|]]; [|reflexivity..].
  unfold Routes.on_verdict, Plugins.setAuditContext, World.try_catch, mbind,
    World.M_bind, World.bind, Date_now, Routes.respond, Routes.serviceUnavailable,
    mret, World.M_ret, World.ret, World.throw.
  destruct (AnalyzerClient.is_safe a); cbn [negb fst snd].
  - by rewrite Hid.
  - destruct (Config.auditLogging (Env.cfg env)); cbn [fst snd Http.with_auditContext
      Http.id]; [by rewrite Hid | reflexivity].
Qed.

Lemma chat_screens_user_messages_only_witness :
  match fst (Routes.chat Samples.env Cases.traced_chat Http.fresh_reply World.initial),
        fst (Routes.chat Samples.env Cases.primed_chat Http.fresh_reply World.initial)
  with
  | Ok (_, r1), Ok (_, r2) => r1 = r2
  | Throw e1, Throw e2 => e1 = e2
  | _, _ => False
  end.
Proof.
  apply (chat_screens_user_messages_only Samples.env Cases.traced_chat
           Cases.primed_chat Http.fresh_reply World.initial
           (Http.mkBody [Http.mkMessage "user" "hello"] None)
           (Http.mkBody [Http.mkMessage "system" "My SSN is 123-45-6789";
                         Http.mkMessage "user" "hello"] None));
    try reflexivity; try discriminate; vm_compute; split; discriminate.
Defined.

(** ** Time spent in backoff *)

Lemma slept_app (tr1 tr2 : list AnalyzerClient.event) :
  Backoff.slept (tr1 ++ tr2) = Backoff.slept tr1 + Backoff.slept tr2.
Proof.
  unfold Backoff.slept. induction tr1 as [|e tr1 IH]; simpl; [reflexivity|].
  rewrite IH. lia.
Qed.

Lemma slept_backoff (maxRetries : Z) (a : nat) (e : Err.t) :
  Backoff.slept (AnalyzerClient.backoff maxRetries a e)
  = if Z.of_nat a <? maxRetries then 1000 * 2 ^ Z.of_nat a else 0.
Proof.
  unfold AnalyzerClient.backoff, AnalyzerClient.delay.
  destruct (Z.of_nat a <? maxRetries); [|reflexivity].
  destruct (AnalyzerClient.lost_connection e); unfold Backoff.slept; simpl; lia.
Qed.

Lemma pow2_succ (a : nat) : 2 ^ Z.of_nat (S a) = 2 * 2 ^ Z.of_nat a.
Proof. rewrite Nat2Z.inj_succ, Z.pow_succ_r by lia. reflexivity. Qed.

Section backoff_facts.
Variable maxRetries : Z.
Variable analyzer : nat → AnalyzerClient.outcome.

Local Abbreviation loop := (AnalyzerClient.retry_loop maxRetries analyzer).

Lemma loop_slept_bound (fuel a : nat) (le : option Err.t) :
  Z.of_nat a + Z.of_nat fuel = maxRetries + 1 →
  0 ≤ Backoff.slept (snd (loop fuel a le))
    ≤ Z.max 0 (1000 * (2 ^ maxRetries - 2 ^ Z.of_nat a)).
Proof.
  revert a le. induction fuel as [|fuel IH]; intros a le Hsum.
  - change (Backoff.slept (snd (loop 0 a le))) with 0. lia.
  - assert (Hpow : 2 ^ Z.of_nat a ≤ 2 ^ maxRetries) by (apply Z.pow_le_mono_r; lia).
    simpl. destruct (analyzer a) as [r|e]; [unfold Backoff.slept; cbn; lia|].
    destruct (AnalyzerClient.is_code Err.INVALID_ARGUMENT e);
      [unfold Backoff.slept; cbn; lia|].
    cbn [snd].
    change (AnalyzerClient.Request a :: ?l) with ([AnalyzerClient.Request a] ++ l).
    rewrite !slept_app, slept_backoff.
    change (Backoff.slept [AnalyzerClient.Request a]) with 0.
    specialize (IH (S a) (Some e) ltac:(lia)). rewrite pow2_succ in IH.
    destruct (Z.ltb_spec (Z.of_nat a) maxRetries) as [Hlt|Hge].
    + assert (2 * 2 ^ Z.of_nat a ≤ 2 ^ maxRetries); [|lia].
      rewrite <- pow2_succ. apply Z.pow_le_mono_r; lia.
    + assert (Z.of_nat a = maxRetries) as Heq by lia.
      rewrite Heq in *. lia.
Qed.

Lemma loop_slept_outage (fuel a : nat) (le : option Err.t) :
  Z.of_nat a + Z.of_nat fuel = maxRetries + 1 →
  Retry.retriable_from analyzer a (a + fuel) →
  Backoff.slept (snd (loop fuel a le)) = 1000 * (2 ^ maxRetries - 2 ^ Z.of_nat a)
  ∨ fuel = O.
Proof.
  revert a le. induction fuel as [|fuel IH]; intros a le Hsum Hpre; [by right|].
  left. destruct (Hpre a ltac:(lia)) as (e & Ha & He).
  rewrite (loop_step _ _ _ _ _ _ Ha He). cbn [snd].
  change (AnalyzerClient.Request a :: ?l) with ([AnalyzerClient.Request a] ++ l).
  rewrite !slept_app, slept_backoff.
  change (Backoff.slept [AnalyzerClient.Request a]) with 0.
  destruct fuel as [|fuel].
  - assert (Z.of_nat a = maxRetries) as Heq by lia.
    destruct (Z.ltb_spec (Z.of_nat a) maxRetries) as [Hlt|Hge]; [lia|].
    change (Backoff.slept (snd (loop 0 (S a) (Some e)))) with 0. rewrite Heq. lia.
  - destruct (IH (S a) (Some e)) as [Hrest|?]; [lia | | | discriminate].
    { intros j Hj. apply Hpre. lia. }
    rewrite Hrest, pow2_succ.
    destruct (Z.ltb_spec (Z.of_nat a) maxRetries) as [Hlt|Hge]; lia.
Qed.

End backoff_facts.

(** X23: the retry loop of [checkContent] never sleeps longer than
    [1000 * (2^maxRetries - 1)] milliseconds in all, and sleeps exactly
    that long when every attempt fails with an error other than
    INVALID_ARGUMENT: no pause follows the last attempt. *)
Theorem backoff_total (maxRetries : Z) (analyzer : nat → AnalyzerClient.outcome) :
  0 ≤ maxRetries →
  let tr := snd (AnalyzerClient.checkContent maxRetries analyzer) in
  0 ≤ Backoff.slept tr ≤ 1000 * (2 ^ maxRetries - 1)
  ∧ (Retry.retriable_from analyzer 0 (Z.to_nat (maxRetries + 1)) →
     Backoff.slept tr = 1000 * (2 ^ maxRetries - 1)).
Proof.
  intros Hpos tr. subst tr. unfold AnalyzerClient.checkContent. split.
  - pose proof (loop_slept_bound maxRetries analyzer (Z.to_nat (maxRetries + 1)) 0
                  None ltac:(lia)) as Hbound.
    change (2 ^ Z.of_nat 0) with 1 in Hbound.
    assert (1 ≤ 2 ^ maxRetries) by (apply (Z.pow_le_mono_r 2 0); lia). lia.
  - intros Hpre.
    destruct (loop_slept_outage maxRetries analyzer (Z.to_nat (maxRetries + 1)) 0 None)
      as [H|H]; [lia | exact Hpre | exact H | lia].
Qed.

Lemma backoff_total_witness :
  Backoff.slept (snd (AnalyzerClient.checkContent 3 Samples.down)) = 7000.
Proof.
  destruct (backoff_total 3 Samples.down) as (_ & H); [lia|].
  apply H. intros j _. eexists. split; reflexivity.
Defined.

(** ** The declared size of a request *)

Lemma integral_inject_Z (n : Z) : PgClient.integral (inject_Z n) = Some n.
Proof. unfold PgClient.integral. cbn. by rewrite Z.div_1_r. Qed.

(** X24: a [content-length] header written in decimal, of a number
    that a double holds exactly (at most 2^53 in magnitude), is read
    back as that number, and 0 becomes [null].  Whatever the number, a
    row that is stored holds it in [request_size_bytes] (NULL for 0) and
    the number fits the INTEGER column; a number outside the range of
    the column makes the INSERT fail, so that the request leaves no
    row. *)
Theorem content_length_is_recorded (q : Http.request) (r : Http.reply)
    (options : gmap string JS.value) (date now n : Z) :
  Http.headers q !! "content-length" = Some (pretty n) →
  let p := PgClient.insert_params (AuditLogger.build_entry q r options date now) in
  (-9007199254740992 ≤ n ≤ 9007199254740992 →
   PgClient.p_request_size_bytes p = (if n =? 0 then JS.Null else JS.Num (inject_Z n)))
  ∧ (∀ i row, PgClient.store i p = Some row →
              Sql.request_size_bytes row = (if n =? 0 then None else Some n)
              ∧ -2147483648 ≤ n ≤ 2147483647)
  ∧ (¬ -2147483648 ≤ n ≤ 2147483647 → ∀ i, PgClient.store i p = None).
Proof.
  intros Hhdr p.
  assert (Hsize : PgClient.p_request_size_bytes p
                  = (if n =? 0 then JS.Null else JS.Num (inject_Z n))).
  { subst p. cbn [PgClient.insert_params PgClient.p_request_size_bytes
                  AuditLogger.build_entry Entry.request_size_bytes].
    unfold Http.truthy_header. rewrite Hhdr.
    destruct (String.eqb_spec (pretty n) "") as [H|_]; [by apply pretty_not_empty in H|].
    rewrite parseInt10_pretty. unfold JS.or, JS.truthy. cbn [inject_Z Qnum].
    by destruct (n =? 0). }
  assert (Hcol : PgClient.col_int (PgClient.p_request_size_bytes p)
                 = (if n =? 0 then Some None else Some <$> PgClient.int4 n)).
  { rewrite Hsize. destruct (n =? 0); [reflexivity|].
    cbn [PgClient.col_int]. by rewrite integral_inject_Z. }
  assert (Hstore : ∀ i row, PgClient.store i p = Some row →
                     PgClient.col_int (PgClient.p_request_size_bytes p)
                     = Some (Sql.request_size_bytes row)).
  { intros i row H. unfold PgClient.store in H.
    repeat match type of H with
           | (mbind _ ?o) = Some _ =>
               let E := fresh "E" in destruct o eqn:E; simpl in H; [|discriminate H]
           end.
    by injection H as <-. }
  split; [intros _; exact Hsize|]. split.
  - intros i row Hrow. apply Hstore in Hrow. rewrite Hcol in Hrow.
    destruct (Z.eqb_spec n 0) as [->|Hn]; [split; [congruence | lia]|].
    unfold PgClient.int4 in Hrow.
    destruct (Z.leb_spec (-2147483648) n), (Z.leb_spec n 2147483647);
      cbn in Hrow; try discriminate.
    split; [congruence | lia].
  - intros Hout i. destruct (PgClient.store i p) as [row|] eqn:Hrow; [|reflexivity].
    apply Hstore in Hrow. rewrite Hcol in Hrow.
    destruct (Z.eqb_spec n 0) as [->|Hn]; [lia|].
    unfold PgClient.int4 in Hrow.
    destruct (Z.leb_spec (-2147483648) n), (Z.leb_spec n 2147483647);
      cbn in Hrow; try discriminate. lia.
Qed.

Lemma content_length_is_recorded_witness :
  PgClient.store 1
    (PgClient.insert_params
       (AuditLogger.build_entry Cases.oversized Samples.reply403 ∅
          1700000000000 1700000000001)) = None.
Proof.
  destruct (content_length_is_recorded Cases.oversized Samples.reply403 ∅
              1700000000000 1700000000001 3221225472) as (_ & _ & H);
    [vm_compute; reflexivity|].
  apply H. lia.
Defined.
